(** * DynamicInterfaceManagement: the interface life cycle of an object

    A shallow embedding of [libopensles/IDynamicInterfaceManagement.c]:
    the worker handlers [HandleAdd] and [HandleResume], the three public
    operations [AddInterface], [RemoveInterface], [ResumeInterface], and
    [RegisterCallback].

    The C code is imperative, takes and releases the object mutex, calls
    hooks through function pointers and may stop at an [assert].  It is
    modelled in a state-and-stop monad over a [World]: the object record,
    the manager record, the bytes of memory the hooks work on, and the
    trace of what the executing thread did.  What the other threads do
    while the mutex is free is a parameter ([interfere]); it takes effect
    whenever the executing thread acquires the mutex. *)

From Stdlib Require Import ZArith Lia Bool.
From stdpp Require Import base decidable numbers option list.

Local Open Scope Z_scope.

(** ** Constants of the OpenSL ES API

    Modelled from the spec: the result codes and the event the spec names.
    They are declared in the OpenSL ES header [OpenSLES.h], which is not
    part of the sources at hand; the values are those of OpenSL ES 1.0.1.
    The statements below use the names only. *)

Definition SLresult := Z.
Definition SL_RESULT_SUCCESS : SLresult := 0x0.
Definition SL_RESULT_PRECONDITIONS_VIOLATED : SLresult := 0x1.
Definition SL_RESULT_PARAMETER_INVALID : SLresult := 0x2.
Definition SL_RESULT_FEATURE_UNSUPPORTED : SLresult := 0xC.
Definition SL_RESULT_INTERNAL_ERROR : SLresult := 0xD.
Definition SL_RESULT_OPERATION_ABORTED : SLresult := 0xF.

Definition SL_DYNAMIC_ITF_EVENT_ASYNC_TERMINATION : Z := 0x2.

(** Pointers are addresses. *)
Definition NULL : Z := 0.

(** [sizeof(struct SLInterfaceID_)]: a 32-bit, two 16-bit and eight 8-bit
    fields. *)
Definition sizeof_SLInterfaceID : Z := 16.

(** ** Data model *)

(** Modelled from the spec: the values a slot of [mInterfaceStates] takes.
    The C constants are declared in [sles_allinclusive.h], which is not
    part of the sources at hand; the spec lists these ten states. *)
Inductive InterfaceState :=
| INTERFACE_UNINITIALIZED
| INTERFACE_ADDING_1
| INTERFACE_ADDING_1A
| INTERFACE_ADDING_2
| INTERFACE_ADDED
| INTERFACE_SUSPENDED
| INTERFACE_RESUMING_1
| INTERFACE_RESUMING_1A
| INTERFACE_RESUMING_2
| INTERFACE_REMOVING.

#[global] Instance InterfaceState_eq_dec : EqDecision InterfaceState.
Proof. solve_decision. Defined.

(** One byte of memory: a plain byte, or the [n]-th byte of a stored
    pointer (so that no byte order has to be chosen). *)
Inductive memval :=
| Undef
| Byte (b : Z)
| Fragment (p : Z) (n : Z).

Definition Memory := Z -> memval.

(** A [VoidHook] takes the address of the interface it is called on and
    works on memory. *)
Definition VoidHook := Z -> Memory -> Memory.

(** Modelled from the spec: the records below are declared in
    [sles_allinclusive.h], which is not part of the sources at hand; they
    have the fields this file reads and writes, under the names it uses.

    An entry of [MPH_init_table]; [None] is the NULL function pointer. *)
Record MPH_init := {
  mInit : option VoidHook;
  mResume : option VoidHook;
  mDeinit : option VoidHook
}.

(** The fields of [struct iid_vtable] and [ClassTable] this file reads:
    the offset of each interface in an object of the class, the number of
    interfaces, the index of the interface of each hash (negative when the
    class has none), and the size of an object. *)
Record iid_vtable := { mOffset : Z }.

Record ClassTable := {
  mInterfaces : Z -> iid_vtable;
  mInterfaceCount : Z;
  mMPH_to_index : Z -> Z;
  mSize : Z
}.

(** The fields of [IObject] this file reads and writes: the class, one
    state per interface of the class, and the mask of the interfaces a
    caller has gotten, an [unsigned] with one bit per slot.  [mMutex] is
    the depth to which the executing thread holds the object mutex: 0 when
    it does not hold it, 1 when it does; a negative depth records that it
    released a mutex it did not hold. *)
Record IObject := {
  mClass : ClassTable;
  mInterfaceStates : list InterfaceState;
  mGottenMask : Z;
  mMutex : Z
}.

(** The manager: the address of the object it belongs to, and the
    registered callback with its context (NULL when there is none). *)
Record IDynamicInterfaceManagement := {
  mThis : Z;
  mCallback : Z;
  mContext : Z
}.

Inductive Hook := HookInit | HookResume | HookDeinit.

(** The two closures this file hands to the thread pool. *)
Inductive Closure := Closure_HandleAdd | Closure_HandleResume.

(** What the executing thread does, in order. *)
Inductive Event :=
| EvLock
| EvUnlock
| EvStoreState (index : Z) (s : InterfaceState)
| EvClearGotten (index : Z)
| EvMemset (dst c n : Z)
| EvStorePointer (dst p : Z)
| EvHook (h : Hook) (MPH thisItf : Z)
| EvThreadPoolAdd (handler : Closure) (self MPH : Z) (result : SLresult)
| EvCallback (callback caller context event : Z) (result : SLresult) (iid : Z).

#[global] Instance Hook_eq_dec : EqDecision Hook.
Proof. solve_decision. Defined.
#[global] Instance Closure_eq_dec : EqDecision Closure.
Proof. solve_decision. Defined.
#[global] Instance Event_eq_dec : EqDecision Event.
Proof. solve_decision. Defined.

Record World := {
  object : IObject;
  dim : IDynamicInterfaceManagement;
  memory : Memory;
  trace : list Event
}.

(** What the program is linked with and built for.  [NDEBUG] tells
    whether [assert] is compiled out; [sizeof_pointer] is the size of
    [void *] and of [size_t]; [IID_to_MPH] is the perfect hash of interface
    IDs (negative for an unknown ID); [SL_IID_array] is the address of the
    table of interface IDs. *)
Record Globals := {
  NDEBUG : bool;
  sizeof_pointer : Z;
  MPH_MAX : Z;
  IID_to_MPH : Z -> Z;
  SL_IID_array : Z;
  MPH_init_table : Z -> MPH_init
}.

(** What is outside the executing thread: the other threads, and the
    thread pool, of which only the result of [ThreadPool_add] matters
    here. *)
Record Environment := {
  interfere : World -> World;
  ThreadPool_add_result : World -> Closure -> Z -> Z -> SLresult
}.

(** ** The monad *)

Inductive Stop := AssertionFailed | OutOfBounds.

Inductive Outcome (A : Type) :=
| Done (a : A) (w : World)
| Stopped (why : Stop) (w : World).
Arguments Done {A} a w.
Arguments Stopped {A} why w.

Definition M (A : Type) := World -> Outcome A.

(** [M] is a monad in stdpp's sense, which gives the notation
    [x ← m; k] and [m;; k] for sequencing. *)
#[global] Instance M_ret : MRet M := fun A a w => Done a w.

#[global] Instance M_bind : MBind M := fun A B k m w =>
  match m w with
  | Done a w' => k a w'
  | Stopped why w' => Stopped why w'
  end.

(** ** Field updates *)

Definition set_mInterfaceStates (l : list InterfaceState) (o : IObject) : IObject :=
  {| mClass := mClass o; mInterfaceStates := l;
     mGottenMask := mGottenMask o; mMutex := mMutex o |}.

Definition set_mGottenMask (m : Z) (o : IObject) : IObject :=
  {| mClass := mClass o; mInterfaceStates := mInterfaceStates o;
     mGottenMask := m; mMutex := mMutex o |}.

Definition set_mMutex (d : Z) (o : IObject) : IObject :=
  {| mClass := mClass o; mInterfaceStates := mInterfaceStates o;
     mGottenMask := mGottenMask o; mMutex := d |}.

Definition set_object (o : IObject) (w : World) : World :=
  {| object := o; dim := dim w; memory := memory w; trace := trace w |}.

Definition set_dim (d : IDynamicInterfaceManagement) (w : World) : World :=
  {| object := object w; dim := d; memory := memory w; trace := trace w |}.

Definition set_memory (m : Memory) (w : World) : World :=
  {| object := object w; dim := dim w; memory := m; trace := trace w |}.

Definition log (e : Event) (w : World) : World :=
  {| object := object w; dim := dim w; memory := memory w;
     trace := trace w ++ [e] |}.

Definition set_mutex (d : Z) (w : World) : World :=
  set_object (set_mMutex d (object w)) w.

Definition set_gotten (m : Z) (w : World) : World :=
  set_object (set_mGottenMask m (object w)) w.

Definition set_slot (index : Z) (s : InterfaceState) (w : World) : World :=
  set_object (set_mInterfaceStates
                (<[Z.to_nat index := s]> (mInterfaceStates (object w))) (object w)) w.

Definition set_callback (callback : Z) (w : World) : World :=
  set_dim {| mThis := mThis (dim w); mCallback := callback; mContext := mContext (dim w) |} w.

Definition set_context (context : Z) (w : World) : World :=
  set_dim {| mThis := mThis (dim w); mCallback := mCallback (dim w); mContext := context |} w.

(** The slot of interface [index], if there is one. *)
Definition slot (w : World) (index : Z) : option InterfaceState :=
  if index <? 0 then None else mInterfaceStates (object w) !! Z.to_nat index.

(** ** Memory *)

Definition in_range (lo n a : Z) : bool := (lo <=? a) && (a <? lo + n).

Definition mem_set (dst c n : Z) (m : Memory) : Memory :=
  fun a => if in_range dst n a then Byte c else m a.

Definition mem_store_pointer (size dst p : Z) (m : Memory) : Memory :=
  fun a => if in_range dst size a then Fragment p (a - dst) else m a.

(** ** The primitives the C code uses *)

Section Program.

Variable G : Globals.
Variable E : Environment.

(** [assert(b)]: compiled out under [NDEBUG], otherwise the program stops
    when [b] is false. *)
Definition assert (b : bool) : M unit :=
  fun w => if NDEBUG G || b then Done () w else Stopped AssertionFailed w.

Definition get {A} (f : World -> A) : M A := fun w => Done (f w) w.

Definition modify (f : World -> World) : M unit := fun w => Done () (f w).

(** The other threads change the values of the slots, the mask, the
    callback registration and memory.  The number of slots, the class, the
    manager's back-reference, the depth to which this thread holds the
    mutex and this thread's trace are not theirs to change. *)
Definition others_run (w : World) : World :=
  let w' := interfere E w in
  {| object := {| mClass := mClass (object w);
                  mInterfaceStates :=
                    imap (fun i s => default s (mInterfaceStates (object w') !! i))
                         (mInterfaceStates (object w));
                  mGottenMask := mGottenMask (object w');
                  mMutex := mMutex (object w) |};
     dim := {| mThis := mThis (dim w);
               mCallback := mCallback (dim w');
               mContext := mContext (dim w') |};
     memory := memory w';
     trace := trace w |}.

(** Modelled from the spec: the object lock, whose code is not part of
    the sources at hand.  To take it, the thread waits for the mutex, so
    that what the other threads did becomes visible, and holds it one level
    deeper; to release it, the thread holds it one level less deep. *)
Definition acquire (w : World) : World :=
  let w1 := others_run w in
  log EvLock (set_mutex (mMutex (object w1) + 1) w1).

Definition release (w : World) : World :=
  log EvUnlock (set_mutex (mMutex (object w) - 1) w).

(** [object_lock_exclusive(thisObject)] *)
Definition object_lock_exclusive : M unit := modify acquire.

(** [object_unlock_exclusive(thisObject)] *)
Definition object_unlock_exclusive : M unit := modify release.

(** [*interfaceStateP], for [interfaceStateP = &thisObject->mInterfaceStates[index]] *)
Definition load_interfaceState (index : Z) : M InterfaceState :=
  fun w => match slot w index with
           | Some s => Done s w
           | None => Stopped OutOfBounds w
           end.

Definition do_store (index : Z) (s : InterfaceState) (w : World) : World :=
  log (EvStoreState index s) (set_slot index s w).

(** [*interfaceStateP = s] *)
Definition store_interfaceState (index : Z) (s : InterfaceState) : M unit :=
  fun w => match slot w index with
           | Some _ => Done () (do_store index s w)
           | None => Stopped OutOfBounds w
           end.

(** Unsigned arithmetic on [size_t] and on [unsigned] wraps around. *)
Definition to_size_t (x : Z) : Z := x mod 2 ^ (8 * sizeof_pointer G).
Definition to_unsigned (x : Z) : Z := x mod 2 ^ 32.

(** [(index + 1 == class__->mInterfaceCount ? class__->mSize : x[1].mOffset) - offset] *)
Definition interface_size (class__ : ClassTable) (index : Z) : Z :=
  let offset := mOffset (mInterfaces class__ index) in
  to_size_t ((if index + 1 =? mInterfaceCount class__
              then mSize class__
              else mOffset (mInterfaces class__ (index + 1))) - offset).

Definition do_memset (dst c n : Z) (w : World) : World :=
  log (EvMemset dst c n) (set_memory (mem_set dst c n (memory w)) w).

(** [memset(dst, c, n)] *)
Definition memset (dst c n : Z) : M unit := modify (do_memset dst c n).

Definition do_store_pointer (dst p : Z) (w : World) : World :=
  log (EvStorePointer dst p)
      (set_memory (mem_store_pointer (sizeof_pointer G) dst p (memory w)) w).

(** The store of pointer [p] into the second pointer-sized cell of the
    interface, given the address [dst] of that cell. *)
Definition store_pointer (dst p : Z) : M unit := modify (do_store_pointer dst p).

Definition do_call (h : Hook) (MPH : Z) (hook : VoidHook) (thisItf : Z) (w : World) : World :=
  log (EvHook h MPH thisItf) (set_memory (hook thisItf (memory w)) w).

(** The call of [hook] on [thisItf]. *)
Definition call (h : Hook) (MPH : Z) (hook : VoidHook) (thisItf : Z) : M unit :=
  modify (do_call h MPH hook thisItf).

(** [ThreadPool_add(&thisObject->mEngine->mThreadPool, handler, self, MPH)] *)
Definition ThreadPool_add (handler : Closure) (self MPH : Z) : M SLresult :=
  fun w => let result := ThreadPool_add_result E w handler self MPH in
           Done result (log (EvThreadPoolAdd handler self MPH result) w).

(** The call of [callback] on [&thisDIM->mItf], [context], [event],
    [result] and [iid]; [mItf] is the first field of the manager, so
    [&thisDIM->mItf] is its address. *)
Definition call_callback (callback self context event : Z) (result : SLresult) (iid : Z) : M unit :=
  modify (log (EvCallback callback self context event result iid)).

(** ** The worker handlers and the operations *)

(** Called by a worker thread to handle an asynchronous AddInterface. *)
Definition HandleAdd (self MPH : Z) : M unit :=
  (* validate input parameters *)
  assert (negb (self =? NULL));;
  thisObject ← get (fun w => mThis (dim w));
  assert (negb (thisObject =? NULL));;
  assert ((0 <=? MPH) && (MPH <? MPH_MAX G));;
  class__ ← get (fun w => mClass (object w));
  let index := mMPH_to_index class__ MPH in
  assert ((0 <=? index) && (index <? mInterfaceCount class__));;
  (* check interface state *)
  object_lock_exclusive;;
  state ← load_interfaceState index;
  '(result, state) ←
    match state with
    | INTERFACE_ADDING_1 =>    (* normal case *)
        (* change state to indicate we are now adding the interface *)
        store_interfaceState index INTERFACE_ADDING_2;;
        object_unlock_exclusive;;
        (* this section runs with mutex unlocked *)
        let x := mInterfaces class__ index in
        let offset := mOffset x in
        let thisItf := thisObject + offset in
        let size := interface_size class__ index in
        memset thisItf 0 size;;
        store_pointer (thisItf + 1 * sizeof_pointer G) thisObject;;
        let init := mInit (MPH_init_table G MPH) in
        match init with
        | Some init => call HookInit MPH init thisItf
        | None => mret ()
        end;;
        let result := SL_RESULT_SUCCESS in
        (* re-lock mutex to update state *)
        object_lock_exclusive;;
        s ← load_interfaceState index;
        assert (bool_decide (INTERFACE_ADDING_2 = s));;
        mret (result, INTERFACE_ADDED)
    | INTERFACE_ADDING_1A =>   (* operation was aborted while on work queue *)
        mret (SL_RESULT_OPERATION_ABORTED, INTERFACE_UNINITIALIZED)
    | _ =>                     (* impossible *)
        assert false;;
        mret (SL_RESULT_INTERNAL_ERROR, state)
    end;
  (* mutex is locked, update state *)
  store_interfaceState index state;;
  (* make a copy of these, so we can call the callback with mutex unlocked *)
  callback ← get (fun w => mCallback (dim w));
  context ← get (fun w => mContext (dim w));
  object_unlock_exclusive;;
  (* note that the mutex is unlocked during the callback *)
  if negb (callback =? NULL) then
    let iid := SL_IID_array G + MPH * sizeof_SLInterfaceID in
    call_callback callback self context SL_DYNAMIC_ITF_EVENT_ASYNC_TERMINATION result iid
  else mret ().

Definition do_clear_gotten (index : Z) (w : World) : World :=
  log (EvClearGotten index)
      (set_gotten (Z.land (mGottenMask (object w))
                          (to_unsigned (Z.lnot (Z.shiftl 1 index)))) w).

(** [thisObject->mGottenMask &= ~(1 << index)] *)
Definition clear_gotten (index : Z) : M unit := modify (do_clear_gotten index).

Definition IDynamicInterfaceManagement_AddInterface (self iid : Z) (async : bool) : M SLresult :=
  (* validate input parameters *)
  if NULL =? iid then mret SL_RESULT_PARAMETER_INVALID else
  thisObject ← get (fun w => mThis (dim w));
  class__ ← get (fun w => mClass (object w));
  let MPH := IID_to_MPH G iid in
  let index := mMPH_to_index class__ MPH in
  if (0 >? MPH) || (0 >? index) then mret SL_RESULT_FEATURE_UNSUPPORTED else
  assert (index <? mInterfaceCount class__);;
  (* check interface state *)
  object_lock_exclusive;;
  state ← load_interfaceState index;
  result ←
    match state with
    | INTERFACE_UNINITIALIZED =>   (* normal case *)
        if async then
          (* Asynchronous: mark operation pending and cancellable *)
          store_interfaceState index INTERFACE_ADDING_1;;
          object_unlock_exclusive;;
          (* this section runs with mutex unlocked *)
          result ← ThreadPool_add Closure_HandleAdd self MPH;
          (if negb (SL_RESULT_SUCCESS =? result) then
             (* Engine was destroyed during add, or insufficient memory,
                so restore mInterfaceStates state to prior value *)
             object_lock_exclusive;;
             s ← load_interfaceState index;
             match s with
             | INTERFACE_ADDING_1      (* normal *)
             | INTERFACE_ADDING_1A =>  (* operation aborted while mutex unlocked *)
                 store_interfaceState index INTERFACE_UNINITIALIZED
             | _ =>                    (* unexpected: leave state alone *)
                 mret ()
             end
           else mret ());;
          mret result
        else
          (* Synchronous: mark operation pending to prevent duplication *)
          store_interfaceState index INTERFACE_ADDING_2;;
          object_unlock_exclusive;;
          (* this section runs with mutex unlocked *)
          let x := mInterfaces class__ index in
          let offset := mOffset x in
          let size := interface_size class__ index in
          let thisItf := thisObject + offset in
          memset thisItf 0 size;;
          store_pointer (thisItf + 1 * sizeof_pointer G) thisObject;;
          let init := mInit (MPH_init_table G MPH) in
          match init with
          | Some init => call HookInit MPH init thisItf
          | None => mret ()
          end;;
          let result := SL_RESULT_SUCCESS in
          (* re-lock mutex to update state *)
          object_lock_exclusive;;
          s ← load_interfaceState index;
          assert (bool_decide (INTERFACE_ADDING_2 = s));;
          store_interfaceState index INTERFACE_ADDED;;
          mret result
        (* mutex is still locked *)
    | _ =>   (* disallow adding of (partially) initialized interfaces *)
        mret SL_RESULT_PRECONDITIONS_VIOLATED
    end;
  object_unlock_exclusive;;
  mret result.

Definition IDynamicInterfaceManagement_RemoveInterface (self iid : Z) : M SLresult :=
  (* validate input parameters *)
  if NULL =? iid then mret SL_RESULT_PARAMETER_INVALID else
  thisObject ← get (fun w => mThis (dim w));
  class__ ← get (fun w => mClass (object w));
  let MPH := IID_to_MPH G iid in
  let index := mMPH_to_index class__ MPH in
  if (0 >? MPH) || (0 >? index) then mret SL_RESULT_PRECONDITIONS_VIOLATED else
  (* check interface state *)
  object_lock_exclusive;;
  state ← load_interfaceState index;
  result ←
    match state with
    | INTERFACE_ADDED       (* normal cases *)
    | INTERFACE_SUSPENDED =>
        (* Mark operation pending to prevent duplication *)
        store_interfaceState index INTERFACE_REMOVING;;
        clear_gotten index;;
        object_unlock_exclusive;;
        (* The deinitialization is done with mutex unlocked *)
        let x := mInterfaces class__ index in
        let offset := mOffset x in
        let thisItf := thisObject + offset in
        let deinit := mDeinit (MPH_init_table G MPH) in
        match deinit with
        | Some deinit => call HookDeinit MPH deinit thisItf
        | None => mret ()
        end;;
        (if NDEBUG G then mret ()
         else
           let size := interface_size class__ index in
           memset thisItf 0x55 size);;
        let result := SL_RESULT_SUCCESS in
        (* Note that this was previously locked, but then unlocked for the deinit hook *)
        object_lock_exclusive;;
        s ← load_interfaceState index;
        assert (bool_decide (INTERFACE_REMOVING = s));;
        store_interfaceState index INTERFACE_UNINITIALIZED;;
        mret result
        (* mutex is still locked *)
    | _ =>
        (* disallow removal of non-dynamic interfaces, or interfaces which are
           currently being resumed (will not auto-cancel an asynchronous resume) *)
        mret SL_RESULT_PRECONDITIONS_VIOLATED
    end;
  object_unlock_exclusive;;
  mret result.

(** Called by a worker thread to handle an asynchronous ResumeInterface. *)
Definition HandleResume (self MPH : Z) : M unit :=
  (* validate input parameters *)
  assert (negb (self =? NULL));;
  thisObject ← get (fun w => mThis (dim w));
  assert (negb (thisObject =? NULL));;
  assert ((0 <=? MPH) && (MPH <? MPH_MAX G));;
  class__ ← get (fun w => mClass (object w));
  let index := mMPH_to_index class__ MPH in
  assert ((0 <=? index) && (index <? mInterfaceCount class__));;
  (* check interface state *)
  object_lock_exclusive;;
  state ← load_interfaceState index;
  '(result, state) ←
    match state with
    | INTERFACE_RESUMING_1 =>    (* normal case *)
        (* change state to indicate we are now resuming the interface *)
        store_interfaceState index INTERFACE_RESUMING_2;;
        object_unlock_exclusive;;
        (* this section runs with mutex unlocked *)
        let x := mInterfaces class__ index in
        let offset := mOffset x in
        let thisItf := thisObject + offset in
        let resume := mResume (MPH_init_table G MPH) in
        match resume with
        | Some resume => call HookResume MPH resume thisItf
        | None => mret ()
        end;;
        let result := SL_RESULT_SUCCESS in
        (* re-lock mutex to update state *)
        object_lock_exclusive;;
        s ← load_interfaceState index;
        assert (bool_decide (INTERFACE_RESUMING_2 = s));;
        mret (result, INTERFACE_ADDED)
    | INTERFACE_RESUMING_1A =>   (* operation was aborted while on work queue *)
        mret (SL_RESULT_OPERATION_ABORTED, INTERFACE_SUSPENDED)
    | _ =>                       (* impossible *)
        assert false;;
        mret (SL_RESULT_INTERNAL_ERROR, state)
    end;
  (* mutex is locked, update state *)
  store_interfaceState index state;;
  (* make a copy of these, so we can call the callback with mutex unlocked *)
  callback ← get (fun w => mCallback (dim w));
  context ← get (fun w => mContext (dim w));
  object_unlock_exclusive;;
  (* note that the mutex is unlocked during the callback *)
  if negb (callback =? NULL) then
    let iid := SL_IID_array G + MPH * sizeof_SLInterfaceID in
    call_callback callback self context SL_DYNAMIC_ITF_EVENT_ASYNC_TERMINATION result iid
  else mret ().

Definition IDynamicInterfaceManagement_ResumeInterface (self iid : Z) (async : bool) : M SLresult :=
  (* validate input parameters *)
  if NULL =? iid then mret SL_RESULT_PARAMETER_INVALID else
  thisObject ← get (fun w => mThis (dim w));
  class__ ← get (fun w => mClass (object w));
  let MPH := IID_to_MPH G iid in
  let index := mMPH_to_index class__ MPH in
  if (0 >? MPH) || (0 >? index) then mret SL_RESULT_PRECONDITIONS_VIOLATED else
  assert (index <? mInterfaceCount class__);;
  (* check interface state *)
  object_lock_exclusive;;
  state ← load_interfaceState index;
  result ←
    match state with
    | INTERFACE_SUSPENDED =>   (* normal case *)
        if async then
          (* Asynchronous: mark operation pending and cancellable *)
          store_interfaceState index INTERFACE_RESUMING_1;;
          object_unlock_exclusive;;
          (* this section runs with mutex unlocked *)
          result ← ThreadPool_add Closure_HandleResume self MPH;
          (if negb (SL_RESULT_SUCCESS =? result) then
             (* Engine was destroyed during resume, or insufficient memory,
                so restore mInterfaceStates state to prior value *)
             object_lock_exclusive;;
             s ← load_interfaceState index;
             match s with
             | INTERFACE_RESUMING_1      (* normal *)
             | INTERFACE_RESUMING_1A =>  (* operation aborted while mutex unlocked *)
                 store_interfaceState index INTERFACE_SUSPENDED
             | _ =>                      (* unexpected: leave state alone *)
                 mret ()
             end
           else mret ());;
          mret result
        else
          (* Synchronous: mark operation pending to prevent duplication *)
          store_interfaceState index INTERFACE_RESUMING_2;;
          object_unlock_exclusive;;
          (* this section runs with mutex unlocked *)
          let x := mInterfaces class__ index in
          let offset := mOffset x in
          let thisItf := self + offset in   (* the source adds to [this], not to [thisObject] *)
          let resume := mResume (MPH_init_table G MPH) in
          match resume with
          | Some resume => call HookResume MPH resume thisItf
          | None => mret ()
          end;;
          let result := SL_RESULT_SUCCESS in
          (* re-lock mutex to update state *)
          object_lock_exclusive;;
          s ← load_interfaceState index;
          assert (bool_decide (INTERFACE_RESUMING_2 = s));;
          store_interfaceState index INTERFACE_ADDED;;
          mret result
    | _ =>   (* disallow resumption of non-suspended interfaces *)
        object_unlock_exclusive;;
        mret SL_RESULT_PRECONDITIONS_VIOLATED
    end;
  object_unlock_exclusive;;
  mret result.

Definition IDynamicInterfaceManagement_RegisterCallback (self callback pContext : Z) : M SLresult :=
  object_lock_exclusive;;
  modify (set_callback callback);;
  modify (set_context pContext);;
  object_unlock_exclusive;;
  mret SL_RESULT_SUCCESS.

Definition IDynamicInterfaceManagement_init (self : Z) : M unit :=
  modify (set_callback NULL);;
  modify (set_context NULL).

(** What a worker thread runs for a closure taken from the pool. *)
Definition run_closure (handler : Closure) (self MPH : Z) : M unit :=
  match handler with
  | Closure_HandleAdd => HandleAdd self MPH
  | Closure_HandleResume => HandleResume self MPH
  end.

End Program.

(** ** The changes of the world the operations make

    The optional call of a hook, the optional call of the callback that
    ends a worker handler, and the work each operation does with the mutex
    released, as changes of the world. *)

(** The optional call of a hook, and the optional call of the callback
    that ends a worker handler, as changes of the world. *)
Definition do_hook (h : Hook) (MPH : Z) (hook : option VoidHook) (thisItf : Z)
    (w : World) : World :=
  match hook with
  | Some f => do_call h MPH f thisItf w
  | None => w
  end.

Definition notify (G : Globals) (self MPH : Z) (result : SLresult) (w : World) : World :=
  if mCallback (dim w) =? NULL then w
  else log (EvCallback (mCallback (dim w)) self (mContext (dim w))
              SL_DYNAMIC_ITF_EVENT_ASYNC_TERMINATION result
              (SL_IID_array G + MPH * sizeof_SLInterfaceID)) w.

(** The object an operation works on is the one the manager [self] points
    back to; the interface [index] of its class lies at [interface_at]. *)
Definition index_of (w : World) (MPH : Z) : Z := mMPH_to_index (mClass (object w)) MPH.

Definition interface_at (w : World) (index : Z) : Z :=
  mThis (dim w) + mOffset (mInterfaces (mClass (object w)) index).

Section Changes.

Variable G : Globals.
Variable E : Environment.

(** The work a worker does for an Add with the mutex released. *)
Definition do_init (MPH : Z) (w : World) : World :=
  let index := index_of w MPH in
  let thisItf := interface_at w index in
  do_hook HookInit MPH (mInit (MPH_init_table G MPH)) thisItf
    (do_store_pointer G (thisItf + 1 * sizeof_pointer G) (mThis (dim w))
       (do_memset thisItf 0 (interface_size G (mClass (object w)) index) w)).

(** The work a worker does for a Resume with the mutex released. *)
Definition do_resume (MPH : Z) (w : World) : World :=
  do_hook HookResume MPH (mResume (MPH_init_table G MPH))
    (interface_at w (index_of w MPH)) w.

(** The work the synchronous [ResumeInterface] does with the mutex
    released: the hook is called on the address of the manager plus the
    offset of the interface. *)
Definition do_resume_sync (self MPH : Z) (w : World) : World :=
  do_hook HookResume MPH (mResume (MPH_init_table G MPH))
    (self + mOffset (mInterfaces (mClass (object w)) (index_of w MPH))) w.

(** The work [RemoveInterface] does with the mutex released; a debug build
    fills the interface with 0x55 after the hook. *)
Definition do_deinit (MPH : Z) (w : World) : World :=
  let index := index_of w MPH in
  let thisItf := interface_at w index in
  let w1 := do_hook HookDeinit MPH (mDeinit (MPH_init_table G MPH)) thisItf w in
  if NDEBUG G then w1
  else do_memset thisItf 0x55 (interface_size G (mClass (object w)) index) w1.

(** The world in which [ThreadPool_add] is called, the result it gives
    there, and the world the operation finds when it takes the mutex
    again. *)
Definition pending (index : Z) (s : InterfaceState) (w : World) : World :=
  release (do_store index s (acquire E w)).

Definition enqueue_result (handler : Closure) (self MPH : Z) (w : World) : SLresult :=
  ThreadPool_add_result E w handler self MPH.

Definition reexamined (handler : Closure) (self MPH : Z) (w : World) : World :=
  acquire E (log (EvThreadPoolAdd handler self MPH (enqueue_result handler self MPH w)) w).

(** The restoring of the state before the operation: only from the
    pending state or its cancelled variant. *)
Definition restore (index : Z) (pending1 pending1A prior : InterfaceState) (w : World) : World :=
  match slot w index with
  | Some s =>
      if bool_decide (s = pending1) || bool_decide (s = pending1A)
      then do_store index prior w
      else w
  | None => w
  end.

End Changes.

(** ** The vocabulary of the statements *)

(** The states in which a slot is owned by the transition under way. *)
Definition in_transition (s : option InterfaceState) : Prop :=
  s = Some INTERFACE_ADDING_2 \/ s = Some INTERFACE_RESUMING_2 \/
  s = Some INTERFACE_REMOVING.

(** The other threads leave the state of slot [index] alone while the
    slot is owned by a transition under way. *)
Definition slot_kept (E : Environment) (index : Z) : Prop :=
  forall w, in_transition (slot w index) -> slot (others_run E w) index = slot w index.

(** The other threads follow the protocol for slot [index]: while the slot
    is owned by a transition under way they change neither its state, nor
    its bit of the mask of gotten interfaces, nor the memory of its
    interface. *)
Record respects_transition (G : Globals) (E : Environment) (index : Z) : Prop := {
  keeps_slot : slot_kept E index;
  keeps_gotten : forall w,
    in_transition (slot w index) ->
    Z.testbit (mGottenMask (object (others_run E w))) index =
    Z.testbit (mGottenMask (object w)) index;
  keeps_memory : forall w a,
    in_transition (slot w index) ->
    in_range (interface_at w index) (interface_size G (mClass (object w)) index) a = true ->
    memory (others_run E w) a = memory w a
}.

(** The events of an optional hook and of the optional callback, and the
    memory an optional hook leaves. *)
Definition hook_events (h : Hook) (MPH : Z) (hook : option VoidHook) (thisItf : Z) : list Event :=
  match hook with
  | Some _ => [EvHook h MPH thisItf]
  | None => []
  end.

Definition run_hook (hook : option VoidHook) (thisItf : Z) (m : Memory) : Memory :=
  match hook with
  | Some f => f thisItf m
  | None => m
  end.

Definition callback_events (G : Globals) (self MPH : Z) (result : SLresult)
    (d : IDynamicInterfaceManagement) : list Event :=
  if mCallback d =? NULL then []
  else [EvCallback (mCallback d) self (mContext d)
          SL_DYNAMIC_ITF_EVENT_ASYNC_TERMINATION result
          (SL_IID_array G + MPH * sizeof_SLInterfaceID)].

Definition is_hook_call (e : Event) : bool :=
  match e with
  | EvHook _ _ _ => true
  | _ => false
  end.

Definition is_callback (e : Event) : bool :=
  match e with
  | EvCallback _ _ _ _ _ _ => true
  | _ => false
  end.

(** The memory of an interface once it is zeroed and points back to its
    object. *)
Definition zeroed_with_back_reference (G : Globals) (thisItf size thisObject : Z)
    (m : Memory) : Memory :=
  mem_store_pointer (sizeof_pointer G) (thisItf + 1 * sizeof_pointer G) thisObject
    (mem_set thisItf 0 size m).

(** The discipline of the mutex, replayed on the events of a run that
    starts with the mutex held [held] times: the slots and the mask are
    written with the mutex held once, and hooks, callbacks, the thread pool
    and the work on memory run with the mutex not held. *)
Fixpoint lock_discipline (held : Z) (evs : list Event) : bool :=
  match evs with
  | [] => true
  | EvLock :: evs => lock_discipline (held + 1) evs
  | EvUnlock :: evs => lock_discipline (held - 1) evs
  | EvStoreState _ _ :: evs | EvClearGotten _ :: evs =>
      (held =? 1) && lock_discipline held evs
  | _ :: evs => (held =? 0) && lock_discipline held evs
  end.

(** The depth to which the mutex is held after the events of a run. *)
Fixpoint depth_after (held : Z) (evs : list Event) : Z :=
  match evs with
  | [] => held
  | EvLock :: evs => depth_after (held + 1) evs
  | EvUnlock :: evs => depth_after (held - 1) evs
  | _ :: evs => depth_after held evs
  end.

Section Vocabulary.

Variable G : Globals.
Variable E : Environment.

(** What the [assert]s at the head of a handler ask of its arguments. *)
Definition closure_valid (w : World) (self MPH : Z) : Prop :=
  self <> NULL /\ mThis (dim w) <> NULL /\ 0 <= MPH < MPH_MAX G /\
  0 <= index_of w MPH < mInterfaceCount (mClass (object w)).

(** The states [HandleAdd] has no case for. *)
Definition unexpected_by_HandleAdd (s : InterfaceState) : Prop :=
  s <> INTERFACE_ADDING_1 /\ s <> INTERFACE_ADDING_1A.

(** The states [HandleResume] has no case for. *)
Definition unexpected_by_HandleResume (s : InterfaceState) : Prop :=
  s <> INTERFACE_RESUMING_1 /\ s <> INTERFACE_RESUMING_1A.

(** The interface ID [iid] names an interface the class of the object
    declares: the hash knows it, and the class has a slot for it. *)
Definition declares (w : World) (iid : Z) : Prop :=
  iid <> NULL /\ 0 <= IID_to_MPH G iid /\
  0 <= index_of w (IID_to_MPH G iid) < mInterfaceCount (mClass (object w)).

(** [iid] is not NULL, and the hash or the class does not know it. *)
Definition unknown_to_class (w : World) (iid : Z) : Prop :=
  iid <> NULL /\ (IID_to_MPH G iid < 0 \/ index_of w (IID_to_MPH G iid) < 0).

(** The events of the work [RemoveInterface] does with the mutex released. *)
Definition deinit_events (MPH thisItf size : Z) : list Event :=
  hook_events HookDeinit MPH (mDeinit (MPH_init_table G MPH)) thisItf
  ++ (if NDEBUG G then [] else [EvMemset thisItf 0x55 size]).

(** Whether a slot is still in the pending state an asynchronous operation
    gave it, or in the cancelled variant of that state. *)
Definition still_pending (pending1 pending1A : InterfaceState)
    (s : option InterfaceState) : bool :=
  match s with
  | Some s => bool_decide (s = pending1) || bool_decide (s = pending1A)
  | None => false
  end.

Definition restore_events (index : Z) (pending1 pending1A prior : InterfaceState)
    (s : option InterfaceState) : list Event :=
  if still_pending pending1 pending1A s then [EvStoreState index prior] else [].

(** No other thread works on slot [index]: its state and its bit of the
    mask of gotten interfaces are as the executing thread left them. *)
Definition undisturbed (index : Z) : Prop :=
  forall w,
    slot (others_run E w) index = slot w index /\
    Z.testbit (mGottenMask (object (others_run E w))) index =
    Z.testbit (mGottenMask (object w)) index.

(** Two worlds hold the same data: the same slots, mask, class, manager
    and memory.  The depth of the mutex and the trace are left out. *)
Definition same_data (w1 w2 : World) : Prop :=
  mInterfaceStates (object w1) = mInterfaceStates (object w2) /\
  mGottenMask (object w1) = mGottenMask (object w2) /\
  mClass (object w1) = mClass (object w2) /\
  dim w1 = dim w2 /\
  memory w1 = memory w2.

(** An operation [op] that finds the slot outside its guard rejects the
    call and leaves the mutex balanced: it returns [SL_RESULT_PRECONDITIONS_VIOLATED], the data is as the
    operation found it when it took the mutex, and the mutex was taken once
    and released once. *)
Definition rejected_and_balanced (op : M SLresult) (w : World) : Prop :=
  exists w',
    op w = Done SL_RESULT_PRECONDITIONS_VIOLATED w' /\
    same_data w' (others_run E w) /\
    trace w' = trace w ++ [EvLock; EvUnlock] /\
    mMutex (object w') = mMutex (object w).

(** A handler [handle] that finds the slot in state [s] reports an
    internal error: it ends, the slots are as it found them, it called no hook and left
    memory as it was, and it called the registered callback, if there is
    one, with the result [SL_RESULT_INTERNAL_ERROR]. *)
Definition reports_internal_error (handle : Z -> Z -> M unit) (self MPH : Z)
    (s : InterfaceState) (w : World) : Prop :=
  let index := index_of w MPH in
  exists w',
    handle self MPH w = Done () w' /\
    mInterfaceStates (object w') = mInterfaceStates (object (others_run E w)) /\
    (let evs :=
       [EvLock; EvStoreState index s; EvUnlock]
       ++ callback_events G self MPH SL_RESULT_INTERNAL_ERROR (dim w') in
     trace w' = trace w ++ evs /\
     existsb is_hook_call evs = false) /\
    memory w' = memory (others_run E w).

(** An asynchronous operation [op] that marks the slot [pending1] and is
    refused by the thread pool handles the refusal: it restores the state
    [prior] exactly when the slot is still pending, changes nothing else,
    returns the result of the thread pool and calls no callback.  [w1] is the world in
    which [ThreadPool_add] is called, [r] its result there, and [w2] the
    world the operation finds when it has taken the mutex again. *)
Definition enqueue_failure_handled (op : M SLresult) (handler : Closure)
    (pending1 pending1A prior : InterfaceState) (self MPH index : Z) (w : World) : Prop :=
  let w1 := pending E index pending1 w in
  let r := enqueue_result E handler self MPH w1 in
  let w2 := reexamined E handler self MPH w1 in
  let still := still_pending pending1 pending1A (slot w2 index) in
  exists w',
    op w = Done r w' /\
    slot w' index = (if still then Some prior else slot w2 index) /\
    (forall j, j <> index -> slot w' j = slot w2 j) /\
    mGottenMask (object w') = mGottenMask (object w2) /\
    dim w' = dim w2 /\
    memory w' = memory w2 /\
    (let evs :=
       [EvLock; EvStoreState index pending1; EvUnlock;
        EvThreadPoolAdd handler self MPH r; EvLock]
       ++ (if still then [EvStoreState index prior] else [])
       ++ [EvUnlock] in
     trace w' = trace w ++ evs /\
     existsb is_callback evs = false /\
     lock_discipline 0 evs = true /\
     depth_after 0 evs = 0).

(** A synchronous Add, a Remove and a synchronous Add
    of the same interface, one after the other. *)
Definition add_remove_add (self iid : Z) : M (SLresult * SLresult * SLresult) :=
  r1 ← IDynamicInterfaceManagement_AddInterface G E self iid false;
  r2 ← IDynamicInterfaceManagement_RemoveInterface G E self iid;
  r3 ← IDynamicInterfaceManagement_AddInterface G E self iid false;
  mret (r1, r2, r3).

End Vocabulary.

(** ** The vocabulary of the further properties *)

(** The world an outcome leaves, whether the run ended or stopped. *)
Definition world_of {A} (o : Outcome A) : World :=
  match o with
  | Done _ w => w
  | Stopped _ w => w
  end.

(** [R] relates the world a computation is given to the world it leaves,
    on every run. *)
Definition always {A} (R : World -> World -> Prop) (m : M A) : Prop :=
  forall w, R w (world_of (m w)).

(** From [w] to [w'] the thread did only things that [P] allows. *)
Definition emits (P : Event -> bool) (w w' : World) : Prop :=
  exists evs, trace w' = trace w ++ evs /\ forallb P evs = true.

Definition not_callback (e : Event) : bool := negb (is_callback e).




(** The number of slots, the class and the back-reference of the manager
    are the same in [w] and [w']. *)
Definition same_shape (w w' : World) : Prop :=
  length (mInterfaceStates (object w')) = length (mInterfaceStates (object w)) /\
  mClass (object w') = mClass (object w) /\
  mThis (dim w') = mThis (dim w).

(** Every bit of the mask of gotten interfaces set in [w'] is set in [w]. *)
Definition gotten_within (w w' : World) : Prop :=
  forall j, Z.testbit (mGottenMask (object w')) j = true ->
            Z.testbit (mGottenMask (object w)) j = true.

Definition slot_same (j : Z) (w w' : World) : Prop := slot w' j = slot w j.

(** The world as a worker thread of the pool starts in it: the data the
    threads share, the mutex not held, nothing done yet. *)
Definition worker_world (w : World) : World :=
  {| object := set_mMutex 0 (object w); dim := dim w; memory := memory w; trace := [] |}.

(** The discipline of the mutex on the runs of [m] that start with the
    mutex held [held] times: the events of the run follow
    [lock_discipline], the depth recorded in the object is the one the
    events give, and when the run returns [a], the depth [d] it ends at
    satisfies [Q a d].  A run that stops at an assertion or outside the
    slots has followed the discipline as far as it went. *)
Definition disciplined {A} (held : Z) (Q : A -> Z -> Prop) (m : M A) : Prop :=
  forall w, mMutex (object w) = held ->
    exists evs,
      trace (world_of (m w)) = trace w ++ evs /\
      lock_discipline held evs = true /\
      mMutex (object (world_of (m w))) = depth_after held evs /\
      match m w with
      | Done a _ => Q a (depth_after held evs)
      | Stopped _ _ => True
      end.

Section MoreVocabulary.

Variable G : Globals.
Variable E : Environment.

(** What the other threads may be taken to leave alone. *)
Definition never_sets_gotten : Prop := forall w, gotten_within w (others_run E w).


Definition leaves_slot (j : Z) : Prop :=
  forall w, slot (others_run E w) j = slot w j.

Definition keeps_registration : Prop :=
  forall w, mCallback (dim (others_run E w)) = mCallback (dim w) /\
            mContext (dim (others_run E w)) = mContext (dim w).

(** The world an asynchronous operation leaves when the thread pool takes
    the closure: the slot marked [pending1], the closure handed over, and a
    second release of the mutex. *)
Definition accepted (handler : Closure) (self MPH index : Z) (pending1 : InterfaceState)
    (w : World) : World :=
  release (log (EvThreadPoolAdd handler self MPH SL_RESULT_SUCCESS)
             (pending E index pending1 w)).

(** A registration followed by the run of a handler on a worker thread. *)
Definition register_then_handle (handle : Z -> Z -> M unit)
    (self callback pContext MPH : Z) (w : World) : Outcome unit :=
  match IDynamicInterfaceManagement_RegisterCallback E self callback pContext w with
  | Done _ w1 => handle self MPH (worker_world w1)
  | Stopped why w1 => Stopped why w1
  end.

(** The initialisation of the manager followed by the run of a handler on
    a worker thread. *)
Definition init_then_handle (handle : Z -> Z -> M unit) (self MPH : Z) (w : World) :
    Outcome unit :=
  match IDynamicInterfaceManagement_init self w with
  | Done _ w1 => handle self MPH (worker_world w1)
  | Stopped why w1 => Stopped why w1
  end.

(** What an asynchronous operation leaves when the thread pool takes the
    closure for [handler]: the slot in [pending1], the closure handed over
    with the manager and the hash of the interface, the data otherwise as
    found under the mutex, and the mutex released twice after it was taken
    once. *)
Definition accepted_as (op : M SLresult) (handler : Closure) (pending1 : InterfaceState)
    (self MPH index : Z) (w : World) : Prop :=
  exists w',
    op w = Done SL_RESULT_SUCCESS w' /\
    slot w' index = Some pending1 /\
    (forall j, j <> index -> slot w' j = slot (others_run E w) j) /\
    mGottenMask (object w') = mGottenMask (object (others_run E w)) /\
    dim w' = dim (others_run E w) /\
    memory w' = memory (others_run E w) /\
    trace w' =
      trace w ++ [EvLock; EvStoreState index pending1; EvUnlock;
                  EvThreadPoolAdd handler self MPH SL_RESULT_SUCCESS; EvUnlock] /\
    mMutex (object w') = mMutex (object w) - 1.

(** What the worker of an accepted asynchronous operation does: [op]
    returns [SL_RESULT_SUCCESS] and hands the closure [handler] over with
    the manager and the hash of the interface; a worker that runs the
    closure ends with the slot in [INTERFACE_ADDED], having done [work]
    between its two stores and having called the callback registered by
    then, if there is one, with the result [SL_RESULT_SUCCESS]. *)
Definition completes_with (op : M SLresult) (handler : Closure) (self MPH index : Z)
    (transitional : InterfaceState) (work : list Event) (w : World) : Prop :=
  exists w1 w2,
    op w = Done SL_RESULT_SUCCESS w1 /\
    In (EvThreadPoolAdd handler self MPH SL_RESULT_SUCCESS) (trace w1) /\
    run_closure G E handler self MPH (worker_world w1) = Done () w2 /\
    slot w2 index = Some INTERFACE_ADDED /\
    trace w2 =
      [EvLock; EvStoreState index transitional; EvUnlock]
      ++ work
      ++ [EvLock; EvStoreState index INTERFACE_ADDED; EvUnlock]
      ++ callback_events G self MPH SL_RESULT_SUCCESS (dim w2).

(** Two operations one after the other. *)
Definition then_op (op1 op2 : M SLresult) : M (SLresult * SLresult) :=
  r1 ← op1; r2 ← op2; mret (r1, r2).

End MoreVocabulary.

(** ** A concrete object

    A class of four interfaces on a 32-bit target: the object itself at
    offset 0, the manager at offset 32, and two dynamic interfaces at
    offsets 48 and 80 of an object of 120 bytes.  The object lies at
    address 5000, so the manager lies at 5032; the table of interface IDs
    lies at 1000.  The interface of hash 3 has all three hooks; each marks
    the first byte of the interface it is called on. *)
Module Demo.

Definition hooks (MPH : Z) : MPH_init :=
  if MPH =? 3 then
    {| mInit := Some (fun thisItf m => mem_set thisItf 1 1 m);
       mResume := Some (fun thisItf m => mem_set thisItf 2 1 m);
       mDeinit := Some (fun thisItf m => mem_set thisItf 3 1 m) |}
  else {| mInit := None; mResume := None; mDeinit := None |}.

Definition globals (ndebug : bool) : Globals :=
  {| NDEBUG := ndebug;
     sizeof_pointer := 4;
     MPH_MAX := 8;
     IID_to_MPH := fun iid =>
       if (1000 <=? iid) && (iid <? 1128) && ((iid - 1000) mod 16 =? 0)
       then (iid - 1000) / 16 else -1;
     SL_IID_array := 1000;
     MPH_init_table := hooks |}.

Definition class : ClassTable :=
  {| mInterfaces := fun index =>
       {| mOffset := if index =? 0 then 0 else if index =? 1 then 32
                     else if index =? 2 then 48 else 80 |};
     mInterfaceCount := 4;
     mMPH_to_index := fun MPH =>
       if MPH =? 0 then 0 else if MPH =? 1 then 1
       else if MPH =? 3 then 2 else if MPH =? 5 then 3 else -1;
     mSize := 120 |}.

(** The object with its third slot in state [s], the mask [mask] and the
    callback [callback] registered with context 77. *)
Definition world (s : InterfaceState) (mask callback : Z) : World :=
  {| object := {| mClass := class;
                  mInterfaceStates :=
                    [INTERFACE_ADDED; INTERFACE_ADDED; s; INTERFACE_UNINITIALIZED];
                  mGottenMask := mask;
                  mMutex := 0 |};
     dim := {| mThis := 5000; mCallback := callback; mContext := 77 |};
     memory := fun _ => Undef;
     trace := [] |}.

(** No other thread runs, and the thread pool answers [result]. *)
Definition calm (result : SLresult) : Environment :=
  {| interfere := fun w => w;
     ThreadPool_add_result := fun _ _ _ _ => result |}.

(** The thread pool is out of memory, and another thread cancels every
    pending Add while the mutex is free. *)
Definition cancelling : Environment :=
  {| interfere := fun w =>
       set_object
         (set_mInterfaceStates
            (map (fun s => if bool_decide (s = INTERFACE_ADDING_1)
                           then INTERFACE_ADDING_1A else s)
                 (mInterfaceStates (object w)))
            (object w)) w;
     ThreadPool_add_result := fun _ _ _ _ => 0x3 |}.

(** The thread pool takes every closure, and another thread marks every
    interface that is being added as added while the mutex is free. *)
Definition impatient : Environment :=
  {| interfere := fun w =>
       set_object
         (set_mInterfaceStates
            (map (fun s => if bool_decide (s = INTERFACE_ADDING_2)
                           then INTERFACE_ADDED else s)
                 (mInterfaceStates (object w)))
            (object w)) w;
     ThreadPool_add_result := fun _ _ _ _ => 0x0 |}.

End Demo.

(** ** Reasoning about runs *)

(** How a slot reads after each change of the world. *)
Section Frames.

Variable G : Globals.
Variable E : Environment.

Lemma slot_log e w i : slot (log e w) i = slot w i.
Proof. reflexivity. Qed.

Lemma slot_set_mutex d w i : slot (set_mutex d w) i = slot w i.
Proof. reflexivity. Qed.

Lemma slot_set_gotten m w i : slot (set_gotten m w) i = slot w i.
Proof. reflexivity. Qed.

Lemma slot_set_memory m w i : slot (set_memory m w) i = slot w i.
Proof. reflexivity. Qed.

Lemma slot_release w i : slot (release w) i = slot w i.
Proof. reflexivity. Qed.

Lemma slot_acquire w i : slot (acquire E w) i = slot (others_run E w) i.
Proof. reflexivity. Qed.

Lemma slot_do_memset dst c n w i : slot (do_memset dst c n w) i = slot w i.
Proof. reflexivity. Qed.

Lemma slot_do_store_pointer dst p w i : slot (do_store_pointer G dst p w) i = slot w i.
Proof. reflexivity. Qed.

Lemma slot_do_call h MPH hook thisItf w i : slot (do_call h MPH hook thisItf w) i = slot w i.
Proof. reflexivity. Qed.

Lemma slot_do_clear_gotten j w i : slot (do_clear_gotten j w) i = slot w i.
Proof. reflexivity. Qed.

Lemma slot_set_slot_eq i s w :
  is_Some (slot w i) -> slot (set_slot i s w) i = Some s.
Proof.
  unfold slot, set_slot; cbn. destruct (i <? 0); intros [s0 Hs0]; [discriminate|].
  apply list_lookup_insert_eq. eapply lookup_lt_Some; eassumption.
Qed.

Lemma slot_set_slot_ne i j s w :
  0 <= i -> 0 <= j -> i <> j -> slot (set_slot i s w) j = slot w j.
Proof.
  intros Hi Hj Hne. unfold slot, set_slot; cbn. destruct (j <? 0); [reflexivity|].
  apply list_lookup_insert_ne. lia.
Qed.

Lemma slot_do_store_eq i s w :
  is_Some (slot w i) -> slot (do_store i s w) i = Some s.
Proof. intros H. unfold do_store. rewrite slot_log. apply slot_set_slot_eq, H. Qed.

Lemma slot_do_store_ne i j s w :
  0 <= i -> 0 <= j -> i <> j -> slot (do_store i s w) j = slot w j.
Proof. intros. unfold do_store. rewrite slot_log. apply slot_set_slot_ne; assumption. Qed.

(** The other threads cannot make a slot appear or disappear. *)
Lemma slot_others_run w i :
  slot (others_run E w) i =
  (fun s => default s (slot (interfere E w) i)) <$> slot w i.
Proof.
  unfold slot, others_run; cbn. destruct (i <? 0); [reflexivity|].
  rewrite list_lookup_imap. reflexivity.
Qed.

Lemma slot_others_run_is_Some w i :
  is_Some (slot (others_run E w) i) <-> is_Some (slot w i).
Proof. rewrite slot_others_run. apply fmap_is_Some. Qed.

End Frames.

Create Rewrite HintDb slot.
#[global] Hint Rewrite slot_log slot_set_mutex slot_set_gotten slot_set_memory
  slot_release slot_acquire slot_do_memset slot_do_store_pointer slot_do_call
  slot_do_clear_gotten : slot.

(** One step of a run: what [m ≫= k] does, for each primitive [m]. *)
Section Steps.

Variable G : Globals.
Variable E : Environment.

Context {A B : Type}.

Lemma step_mret (a : A) (k : A -> M B) w : (mret a ≫= k) w = k a w.
Proof. reflexivity. Qed.

Lemma step_get (f : World -> A) (k : A -> M B) w : (get f ≫= k) w = k (f w) w.
Proof. reflexivity. Qed.

Lemma step_modify f (k : unit -> M B) w : (modify f ≫= k) w = k () (f w).
Proof. reflexivity. Qed.

Lemma step_assert b (k : unit -> M B) w :
  NDEBUG G || b = true -> (assert G b ≫= k) w = k () w.
Proof. intros H. unfold mbind, M_bind, assert. rewrite H. reflexivity. Qed.

Lemma step_assert_false (k : unit -> M B) w :
  NDEBUG G = false -> (assert G false ≫= k) w = Stopped AssertionFailed w.
Proof. intros H. unfold mbind, M_bind, assert. rewrite H. reflexivity. Qed.

Lemma step_load i s (k : InterfaceState -> M B) w :
  slot w i = Some s -> (load_interfaceState i ≫= k) w = k s w.
Proof. intros H. unfold mbind, M_bind, load_interfaceState. rewrite H. reflexivity. Qed.

Lemma step_store i s (k : unit -> M B) w :
  is_Some (slot w i) -> (store_interfaceState i s ≫= k) w = k () (do_store i s w).
Proof.
  intros [s0 H]. unfold mbind, M_bind, store_interfaceState. rewrite H. reflexivity.
Qed.

Lemma step_ThreadPool_add handler self MPH (k : SLresult -> M B) w :
  (ThreadPool_add E handler self MPH ≫= k) w =
  k (ThreadPool_add_result E w handler self MPH)
    (log (EvThreadPoolAdd handler self MPH (ThreadPool_add_result E w handler self MPH)) w).
Proof. reflexivity. Qed.

Lemma step_assoc {C} (m : M C) (k' : C -> M A) (k : A -> M B) w :
  ((m ≫= k') ≫= k) w = (m ≫= (fun c => k' c ≫= k)) w.
Proof. unfold mbind, M_bind. destruct (m w); reflexivity. Qed.

End Steps.

Lemma step_hook {B} h MPH hook thisItf (k : unit -> M B) w :
  (match hook with
   | Some f => call h MPH f thisItf
   | None => mret ()
   end ≫= k) w = k () (do_hook h MPH hook thisItf w).
Proof. destruct hook; reflexivity. Qed.

Lemma slot_do_hook h MPH hook thisItf w i :
  slot (do_hook h MPH hook thisItf w) i = slot w i.
Proof. destruct hook; reflexivity. Qed.

Lemma slot_notify G self MPH result w i : slot (notify G self MPH result w) i = slot w i.
Proof. unfold notify. destruct (_ =? _); reflexivity. Qed.

#[global] Hint Rewrite slot_do_hook slot_notify : slot.

Ltac slot_known :=
  autorewrite with slot;
  first [ eassumption
        | rewrite slot_do_store_eq; [reflexivity | slot_defined]
        | match goal with
          | H : slot_kept _ _ |- _ =>
              rewrite (H _) by (unfold in_transition; slot_in_transition);
              slot_known
          end ]
with slot_defined :=
  autorewrite with slot;
  first [ eexists; eassumption
        | rewrite slot_do_store_eq; [eexists; reflexivity | slot_defined]
        | apply slot_others_run_is_Some; slot_defined ]
with slot_in_transition :=
  first [ left; slot_known | right; left; slot_known | right; right; slot_known ].

Ltac bool_true :=
  lazymatch goal with
  | |- _ || _ = true => apply orb_true_intro; right; bool_true
  | |- _ && _ = true => apply andb_true_intro; split; bool_true
  | |- negb _ = true => apply (proj2 (negb_true_iff _)); bool_true
  | |- (_ =? _) = false => apply (proj2 (Z.eqb_neq _ _)); first [assumption | lia]
  | |- (_ <=? _) = true => apply (proj2 (Z.leb_le _ _)); lia
  | |- (_ <? _) = true => apply (proj2 (Z.ltb_lt _ _)); lia
  | |- bool_decide _ = true => apply bool_decide_eq_true_2; reflexivity
  end.

Ltac step :=
  first
    [ rewrite step_mret
    | rewrite step_get
    | rewrite step_modify
    | rewrite step_hook
    | rewrite step_ThreadPool_add
    | rewrite step_assoc
    | rewrite step_assert by bool_true
    | erewrite step_load by slot_known
    | rewrite step_store by slot_defined ];
  cbv beta iota zeta.

Ltac unfold_primitives :=
  unfold object_lock_exclusive, object_unlock_exclusive, memset, store_pointer,
    clear_gotten, call_callback.

Ltac finish_handler finish_notify :=
  etransitivity; [apply finish_notify; reflexivity | reflexivity].

(** ** The runs of the worker handlers *)

Section HandlerRuns.

Variable G : Globals.
Variable E : Environment.

Lemma slot_do_init MPH w i : slot (do_init G MPH w) i = slot w i.
Proof. unfold do_init. autorewrite with slot. reflexivity. Qed.

Lemma finish_notify self MPH result callback context w :
  callback = mCallback (dim w) -> context = mContext (dim w) ->
  (if negb (callback =? NULL)
   then call_callback callback self context SL_DYNAMIC_ITF_EVENT_ASYNC_TERMINATION
          result (SL_IID_array G + MPH * sizeof_SLInterfaceID)
   else mret ()) w = Done () (notify G self MPH result w).
Proof. intros -> ->. unfold notify. destruct (_ =? _); reflexivity. Qed.


Lemma HandleAdd_run_normal self MPH w :
  closure_valid G w self MPH ->
  slot_kept E (index_of w MPH) ->
  slot (others_run E w) (index_of w MPH) = Some INTERFACE_ADDING_1 ->
  HandleAdd G E self MPH w =
  Done () (notify G self MPH SL_RESULT_SUCCESS
             (release (do_store (index_of w MPH) INTERFACE_ADDED
                (acquire E (do_init G MPH
                   (release (do_store (index_of w MPH) INTERFACE_ADDING_2
                      (acquire E w)))))))).
Proof.
  intros (Hself & Hthis & HMPH & Hindex) Hrely Hslot.
  unfold HandleAdd, index_of in *. unfold_primitives.
  repeat step. finish_handler finish_notify.
Qed.

Lemma HandleAdd_run_aborted self MPH w :
  closure_valid G w self MPH ->
  slot (others_run E w) (index_of w MPH) = Some INTERFACE_ADDING_1A ->
  HandleAdd G E self MPH w =
  Done () (notify G self MPH SL_RESULT_OPERATION_ABORTED
             (release (do_store (index_of w MPH) INTERFACE_UNINITIALIZED
                (acquire E w)))).
Proof.
  intros (Hself & Hthis & HMPH & Hindex) Hslot.
  unfold HandleAdd, index_of in *. unfold_primitives.
  repeat step. finish_handler finish_notify.
Qed.

Lemma HandleAdd_run_unexpected_release self MPH w s :
  NDEBUG G = true ->
  unexpected_by_HandleAdd s ->
  slot (others_run E w) (index_of w MPH) = Some s ->
  HandleAdd G E self MPH w =
  Done () (notify G self MPH SL_RESULT_INTERNAL_ERROR
             (release (do_store (index_of w MPH) s (acquire E w)))).
Proof.
  intros HND [Hs1 Hs2] Hslot.
  unfold HandleAdd, index_of in *. unfold_primitives. unfold assert. rewrite HND. cbn [orb].
  fold (@mret M _ unit ()). 
  repeat step.
  destruct s; try congruence; repeat step; finish_handler finish_notify.
Qed.

Lemma HandleAdd_run_unexpected_debug self MPH w s :
  NDEBUG G = false ->
  closure_valid G w self MPH ->
  unexpected_by_HandleAdd s ->
  slot (others_run E w) (index_of w MPH) = Some s ->
  HandleAdd G E self MPH w = Stopped AssertionFailed (acquire E w).
Proof.
  intros HND (Hself & Hthis & HMPH & Hindex) [Hs1 Hs2] Hslot.
  unfold HandleAdd, index_of in *. unfold_primitives.
  repeat step.
  destruct s; try congruence; rewrite step_assoc, step_assert_false by assumption;
    reflexivity.
Qed.

Lemma slot_do_resume MPH w i : slot (do_resume G MPH w) i = slot w i.
Proof. unfold do_resume. autorewrite with slot. reflexivity. Qed.

Lemma HandleResume_run_normal self MPH w :
  closure_valid G w self MPH ->
  slot_kept E (index_of w MPH) ->
  slot (others_run E w) (index_of w MPH) = Some INTERFACE_RESUMING_1 ->
  HandleResume G E self MPH w =
  Done () (notify G self MPH SL_RESULT_SUCCESS
             (release (do_store (index_of w MPH) INTERFACE_ADDED
                (acquire E (do_resume G MPH
                   (release (do_store (index_of w MPH) INTERFACE_RESUMING_2
                      (acquire E w)))))))).
Proof.
  intros (Hself & Hthis & HMPH & Hindex) Hrely Hslot.
  unfold HandleResume, index_of in *. unfold_primitives.
  repeat step. finish_handler finish_notify.
Qed.

Lemma HandleResume_run_aborted self MPH w :
  closure_valid G w self MPH ->
  slot (others_run E w) (index_of w MPH) = Some INTERFACE_RESUMING_1A ->
  HandleResume G E self MPH w =
  Done () (notify G self MPH SL_RESULT_OPERATION_ABORTED
             (release (do_store (index_of w MPH) INTERFACE_SUSPENDED
                (acquire E w)))).
Proof.
  intros (Hself & Hthis & HMPH & Hindex) Hslot.
  unfold HandleResume, index_of in *. unfold_primitives.
  repeat step. finish_handler finish_notify.
Qed.

Lemma HandleResume_run_unexpected_release self MPH w s :
  NDEBUG G = true ->
  unexpected_by_HandleResume s ->
  slot (others_run E w) (index_of w MPH) = Some s ->
  HandleResume G E self MPH w =
  Done () (notify G self MPH SL_RESULT_INTERNAL_ERROR
             (release (do_store (index_of w MPH) s (acquire E w)))).
Proof.
  intros HND [Hs1 Hs2] Hslot.
  unfold HandleResume, index_of in *. unfold_primitives. unfold assert. rewrite HND. cbn [orb].
  fold (@mret M _ unit ()).
  repeat step.
  destruct s; try congruence; repeat step; finish_handler finish_notify.
Qed.

Lemma HandleResume_run_unexpected_debug self MPH w s :
  NDEBUG G = false ->
  closure_valid G w self MPH ->
  unexpected_by_HandleResume s ->
  slot (others_run E w) (index_of w MPH) = Some s ->
  HandleResume G E self MPH w = Stopped AssertionFailed (acquire E w).
Proof.
  intros HND (Hself & Hthis & HMPH & Hindex) [Hs1 Hs2] Hslot.
  unfold HandleResume, index_of in *. unfold_primitives.
  repeat step.
  destruct s; try congruence; rewrite step_assoc, step_assert_false by assumption;
    reflexivity.
Qed.

End HandlerRuns.

#[global] Hint Rewrite slot_do_init slot_do_resume : slot.

(** ** The runs of the operations *)

Section OperationRuns.

Variable G : Globals.
Variable E : Environment.

Lemma not_NULL_eqb iid : iid <> NULL -> (NULL =? iid) = false.
Proof. intros H. apply Z.eqb_neq. congruence. Qed.

Lemma resolved_test MPH index :
  0 <= MPH -> 0 <= index -> (0 >? MPH) || (0 >? index) = false.
Proof. intros H1 H2. rewrite !Z.gtb_ltb. apply orb_false_intro; apply Z.ltb_ge; lia. Qed.

Lemma unresolved_test MPH index :
  MPH < 0 \/ index < 0 -> (0 >? MPH) || (0 >? index) = true.
Proof.
  intros H. rewrite !Z.gtb_ltb. apply orb_true_iff.
  destruct H; [left | right]; apply Z.ltb_lt; lia.
Qed.

Ltac enter_operation Hiid HMPH Hindex :=
  unfold index_of in *; unfold_primitives;
  rewrite (not_NULL_eqb _ Hiid);
  repeat step;
  rewrite resolved_test by lia.

(** *** Identifiers the class does not know *)

Lemma AddInterface_run_unknown self iid async w :
  unknown_to_class G w iid ->
  IDynamicInterfaceManagement_AddInterface G E self iid async w =
  Done SL_RESULT_FEATURE_UNSUPPORTED w.
Proof.
  intros [Hiid Hun]. unfold IDynamicInterfaceManagement_AddInterface, index_of in *.
  rewrite (not_NULL_eqb _ Hiid). repeat step.
  rewrite unresolved_test by assumption. reflexivity.
Qed.

Lemma RemoveInterface_run_unknown self iid w :
  unknown_to_class G w iid ->
  IDynamicInterfaceManagement_RemoveInterface G E self iid w =
  Done SL_RESULT_PRECONDITIONS_VIOLATED w.
Proof.
  intros [Hiid Hun]. unfold IDynamicInterfaceManagement_RemoveInterface, index_of in *.
  rewrite (not_NULL_eqb _ Hiid). repeat step.
  rewrite unresolved_test by assumption. reflexivity.
Qed.

Lemma ResumeInterface_run_unknown self iid async w :
  unknown_to_class G w iid ->
  IDynamicInterfaceManagement_ResumeInterface G E self iid async w =
  Done SL_RESULT_PRECONDITIONS_VIOLATED w.
Proof.
  intros [Hiid Hun]. unfold IDynamicInterfaceManagement_ResumeInterface, index_of in *.
  rewrite (not_NULL_eqb _ Hiid). repeat step.
  rewrite unresolved_test by assumption. reflexivity.
Qed.

(** *** Slots outside the guard of the operation *)

Lemma AddInterface_run_guard self iid async w s :
  declares G w iid ->
  slot (others_run E w) (index_of w (IID_to_MPH G iid)) = Some s ->
  s <> INTERFACE_UNINITIALIZED ->
  IDynamicInterfaceManagement_AddInterface G E self iid async w =
  Done SL_RESULT_PRECONDITIONS_VIOLATED (release (acquire E w)).
Proof.
  intros (Hiid & HMPH & Hindex) Hslot Hs.
  unfold IDynamicInterfaceManagement_AddInterface.
  enter_operation Hiid HMPH Hindex.
  repeat step.
  destruct s; try congruence; repeat step; reflexivity.
Qed.

Lemma RemoveInterface_run_guard self iid w s :
  declares G w iid ->
  slot (others_run E w) (index_of w (IID_to_MPH G iid)) = Some s ->
  s <> INTERFACE_ADDED -> s <> INTERFACE_SUSPENDED ->
  IDynamicInterfaceManagement_RemoveInterface G E self iid w =
  Done SL_RESULT_PRECONDITIONS_VIOLATED (release (acquire E w)).
Proof.
  intros (Hiid & HMPH & Hindex) Hslot Hs1 Hs2.
  unfold IDynamicInterfaceManagement_RemoveInterface.
  enter_operation Hiid HMPH Hindex.
  repeat step.
  destruct s; try congruence; repeat step; reflexivity.
Qed.

(** The default case of [ResumeInterface] releases the mutex, and the
    release that ends the operation follows. *)
Lemma ResumeInterface_run_guard self iid async w s :
  declares G w iid ->
  slot (others_run E w) (index_of w (IID_to_MPH G iid)) = Some s ->
  s <> INTERFACE_SUSPENDED ->
  IDynamicInterfaceManagement_ResumeInterface G E self iid async w =
  Done SL_RESULT_PRECONDITIONS_VIOLATED (release (release (acquire E w))).
Proof.
  intros (Hiid & HMPH & Hindex) Hslot Hs.
  unfold IDynamicInterfaceManagement_ResumeInterface.
  enter_operation Hiid HMPH Hindex.
  repeat step.
  destruct s; try congruence; repeat step; reflexivity.
Qed.

(** *** The synchronous transitions *)

Lemma AddInterface_run_sync self iid w :
  declares G w iid ->
  slot_kept E (index_of w (IID_to_MPH G iid)) ->
  slot (others_run E w) (index_of w (IID_to_MPH G iid)) = Some INTERFACE_UNINITIALIZED ->
  IDynamicInterfaceManagement_AddInterface G E self iid false w =
  Done SL_RESULT_SUCCESS
    (release (do_store (index_of w (IID_to_MPH G iid)) INTERFACE_ADDED
       (acquire E (do_init G (IID_to_MPH G iid)
          (release (do_store (index_of w (IID_to_MPH G iid)) INTERFACE_ADDING_2
             (acquire E w))))))).
Proof.
  intros (Hiid & HMPH & Hindex) Hrely Hslot.
  unfold IDynamicInterfaceManagement_AddInterface.
  enter_operation Hiid HMPH Hindex.
  repeat step. reflexivity.
Qed.

Lemma slot_do_deinit MPH w i : slot (do_deinit G MPH w) i = slot w i.
Proof. unfold do_deinit. destruct (NDEBUG G); autorewrite with slot; reflexivity. Qed.

Hint Rewrite slot_do_deinit : slot.

Lemma RemoveInterface_run_removes self iid w s :
  declares G w iid ->
  slot_kept E (index_of w (IID_to_MPH G iid)) ->
  slot (others_run E w) (index_of w (IID_to_MPH G iid)) = Some s ->
  s = INTERFACE_ADDED \/ s = INTERFACE_SUSPENDED ->
  IDynamicInterfaceManagement_RemoveInterface G E self iid w =
  Done SL_RESULT_SUCCESS
    (release (do_store (index_of w (IID_to_MPH G iid)) INTERFACE_UNINITIALIZED
       (acquire E (do_deinit G (IID_to_MPH G iid)
          (release (do_clear_gotten (index_of w (IID_to_MPH G iid))
             (do_store (index_of w (IID_to_MPH G iid)) INTERFACE_REMOVING
                (acquire E w)))))))).
Proof.
  intros (Hiid & HMPH & Hindex) Hrely Hslot Hs.
  unfold IDynamicInterfaceManagement_RemoveInterface.
  enter_operation Hiid HMPH Hindex.
  destruct Hs as [-> | ->]; destruct (NDEBUG G) eqn:HND; repeat step;
    unfold do_deinit; rewrite HND; reflexivity.
Qed.

Lemma slot_do_resume_sync self MPH w i : slot (do_resume_sync G self MPH w) i = slot w i.
Proof. unfold do_resume_sync. autorewrite with slot. reflexivity. Qed.

Hint Rewrite slot_do_resume_sync : slot.

Lemma ResumeInterface_run_sync self iid w :
  declares G w iid ->
  slot_kept E (index_of w (IID_to_MPH G iid)) ->
  slot (others_run E w) (index_of w (IID_to_MPH G iid)) = Some INTERFACE_SUSPENDED ->
  IDynamicInterfaceManagement_ResumeInterface G E self iid false w =
  Done SL_RESULT_SUCCESS
    (release (do_store (index_of w (IID_to_MPH G iid)) INTERFACE_ADDED
       (acquire E (do_resume_sync G self (IID_to_MPH G iid)
          (release (do_store (index_of w (IID_to_MPH G iid)) INTERFACE_RESUMING_2
             (acquire E w))))))).
Proof.
  intros (Hiid & HMPH & Hindex) Hrely Hslot.
  unfold IDynamicInterfaceManagement_ResumeInterface.
  enter_operation Hiid HMPH Hindex.
  repeat step. reflexivity.
Qed.

(** *** The asynchronous transitions when the thread pool refuses the closure *)

Lemma enqueue_failed_test r : r <> SL_RESULT_SUCCESS -> negb (SL_RESULT_SUCCESS =? r) = true.
Proof. intros H. apply negb_true_iff, Z.eqb_neq. congruence. Qed.

Lemma AddInterface_run_enqueue_failure self iid w :
  let MPH := IID_to_MPH G iid in
  let index := index_of w MPH in
  let w1 := pending E index INTERFACE_ADDING_1 w in
  declares G w iid ->
  slot (others_run E w) index = Some INTERFACE_UNINITIALIZED ->
  enqueue_result E Closure_HandleAdd self MPH w1 <> SL_RESULT_SUCCESS ->
  IDynamicInterfaceManagement_AddInterface G E self iid true w =
  Done (enqueue_result E Closure_HandleAdd self MPH w1)
    (release (restore index INTERFACE_ADDING_1 INTERFACE_ADDING_1A INTERFACE_UNINITIALIZED
                (reexamined E Closure_HandleAdd self MPH w1))).
Proof.
  intros MPH index w1 (Hiid & HMPH & Hindex) Hslot Hfail.
  subst MPH index w1.
  unfold IDynamicInterfaceManagement_AddInterface.
  enter_operation Hiid HMPH Hindex.
  repeat step.
  unfold enqueue_result, pending in *.
  rewrite (enqueue_failed_test _ Hfail).
  match goal with
  | |- _ = Done _ (release (restore ?i _ _ _ ?W)) =>
      assert (Hdef : is_Some (slot W i)) by (unfold reexamined, enqueue_result; slot_defined);
      destruct Hdef as [s2 Hs2]; unfold restore; rewrite Hs2
  end.
  unfold reexamined, enqueue_result in *.
  repeat step.
  destruct s2; repeat step; reflexivity.
Qed.

Lemma ResumeInterface_run_enqueue_failure self iid w :
  let MPH := IID_to_MPH G iid in
  let index := index_of w MPH in
  let w1 := pending E index INTERFACE_RESUMING_1 w in
  declares G w iid ->
  slot (others_run E w) index = Some INTERFACE_SUSPENDED ->
  enqueue_result E Closure_HandleResume self MPH w1 <> SL_RESULT_SUCCESS ->
  IDynamicInterfaceManagement_ResumeInterface G E self iid true w =
  Done (enqueue_result E Closure_HandleResume self MPH w1)
    (release (restore index INTERFACE_RESUMING_1 INTERFACE_RESUMING_1A INTERFACE_SUSPENDED
                (reexamined E Closure_HandleResume self MPH w1))).
Proof.
  intros MPH index w1 (Hiid & HMPH & Hindex) Hslot Hfail.
  subst MPH index w1.
  unfold IDynamicInterfaceManagement_ResumeInterface.
  enter_operation Hiid HMPH Hindex.
  repeat step.
  unfold enqueue_result, pending in *.
  rewrite (enqueue_failed_test _ Hfail).
  match goal with
  | |- _ = Done _ (release (restore ?i _ _ _ ?W)) =>
      assert (Hdef : is_Some (slot W i)) by (unfold reexamined, enqueue_result; slot_defined);
      destruct Hdef as [s2 Hs2]; unfold restore; rewrite Hs2
  end.
  unfold reexamined, enqueue_result in *.
  repeat step.
  destruct s2; repeat step; reflexivity.
Qed.

End OperationRuns.

#[global] Hint Rewrite slot_do_deinit slot_do_resume_sync : slot.

(** ** What the runs show *)

(** What of the world the other threads leave alone. *)
Section OthersRun.

Variable E : Environment.

Lemma trace_others_run w : trace (others_run E w) = trace w.
Proof. reflexivity. Qed.

Lemma mMutex_others_run w : mMutex (object (others_run E w)) = mMutex (object w).
Proof. reflexivity. Qed.

Lemma mClass_others_run w : mClass (object (others_run E w)) = mClass (object w).
Proof. reflexivity. Qed.

Lemma mThis_others_run w : mThis (dim (others_run E w)) = mThis (dim w).
Proof. reflexivity. Qed.

End OthersRun.

Create Rewrite HintDb world.
#[global] Hint Rewrite trace_others_run mMutex_others_run mClass_others_run
  mThis_others_run : world.

Arguments others_run : simpl never.

Lemma zeroed_with_back_reference_zero G thisItf size thisObject m a :
  in_range thisItf size a = true ->
  in_range (thisItf + 1 * sizeof_pointer G) (sizeof_pointer G) a = false ->
  zeroed_with_back_reference G thisItf size thisObject m a = Byte 0.
Proof.
  intros Hin Hout. unfold zeroed_with_back_reference, mem_store_pointer, mem_set.
  rewrite Hout, Hin. reflexivity.
Qed.

Lemma zeroed_with_back_reference_pointer G thisItf size thisObject m a :
  in_range (thisItf + 1 * sizeof_pointer G) (sizeof_pointer G) a = true ->
  zeroed_with_back_reference G thisItf size thisObject m a =
  Fragment thisObject (a - (thisItf + 1 * sizeof_pointer G)).
Proof.
  intros Hin. unfold zeroed_with_back_reference, mem_store_pointer.
  rewrite Hin. reflexivity.
Qed.

Section Effects.

Variable G : Globals.

Lemma trace_do_hook h MPH hook thisItf w :
  trace (do_hook h MPH hook thisItf w) = trace w ++ hook_events h MPH hook thisItf.
Proof. destruct hook; cbn; [reflexivity | symmetry; apply app_nil_r]. Qed.

Lemma memory_do_hook h MPH hook thisItf w :
  memory (do_hook h MPH hook thisItf w) = run_hook hook thisItf (memory w).
Proof. destruct hook; reflexivity. Qed.

Lemma object_do_hook h MPH hook thisItf w : object (do_hook h MPH hook thisItf w) = object w.
Proof. destruct hook; reflexivity. Qed.

Lemma dim_do_hook h MPH hook thisItf w : dim (do_hook h MPH hook thisItf w) = dim w.
Proof. destruct hook; reflexivity. Qed.

Lemma trace_notify self MPH result w :
  trace (notify G self MPH result w) =
  trace w ++ callback_events G self MPH result (dim w).
Proof.
  unfold notify, callback_events.
  destruct (_ =? _); cbn; [symmetry; apply app_nil_r | reflexivity].
Qed.

Lemma memory_notify self MPH result w : memory (notify G self MPH result w) = memory w.
Proof. unfold notify. destruct (_ =? _); reflexivity. Qed.

Lemma object_notify self MPH result w : object (notify G self MPH result w) = object w.
Proof. unfold notify. destruct (_ =? _); reflexivity. Qed.

Lemma dim_notify self MPH result w : dim (notify G self MPH result w) = dim w.
Proof. unfold notify. destruct (_ =? _); reflexivity. Qed.

Lemma trace_do_deinit MPH w :
  trace (do_deinit G MPH w) =
  trace w ++ deinit_events G MPH (interface_at w (index_of w MPH))
               (interface_size G (mClass (object w)) (index_of w MPH)).
Proof.
  unfold do_deinit, deinit_events. destruct (NDEBUG G); cbn; rewrite trace_do_hook.
  - rewrite app_nil_r. reflexivity.
  - rewrite <- app_assoc. reflexivity.
Qed.

Lemma object_do_deinit MPH w : object (do_deinit G MPH w) = object w.
Proof. unfold do_deinit. destruct (NDEBUG G); cbn; apply object_do_hook. Qed.

Lemma dim_do_deinit MPH w : dim (do_deinit G MPH w) = dim w.
Proof. unfold do_deinit. destruct (NDEBUG G); cbn; apply dim_do_hook. Qed.

Lemma slot_restore_eq i p1 p1A prior w :
  slot (restore i p1 p1A prior w) i =
  if still_pending p1 p1A (slot w i) then Some prior else slot w i.
Proof.
  unfold restore, still_pending. destruct (slot w i) as [s|] eqn:Hs; [|exact Hs].
  destruct (_ || _); [|exact Hs].
  apply slot_do_store_eq. rewrite Hs. eexists; reflexivity.
Qed.

Lemma slot_restore_ne i j p1 p1A prior w :
  j <> i -> slot (restore i p1 p1A prior w) j = slot w j.
Proof.
  intros Hne. unfold restore. destruct (slot w i) as [s|] eqn:Hs; [|reflexivity].
  destruct (_ || _); [|reflexivity].
  unfold slot in *; cbn. destruct (i <? 0) eqn:Hi; [discriminate|].
  destruct (j <? 0) eqn:Hj; [reflexivity|].
  apply list_lookup_insert_ne. apply Z.ltb_ge in Hi, Hj. lia.
Qed.

Lemma trace_restore i p1 p1A prior w :
  trace (restore i p1 p1A prior w) =
  trace w ++ restore_events i p1 p1A prior (slot w i).
Proof.
  unfold restore, restore_events, still_pending. destruct (slot w i) as [s|].
  - destruct (_ || _); cbn; [reflexivity | symmetry; apply app_nil_r].
  - symmetry; apply app_nil_r.
Qed.

Lemma mGottenMask_restore i p1 p1A prior w :
  mGottenMask (object (restore i p1 p1A prior w)) = mGottenMask (object w).
Proof. unfold restore. destruct (slot w i); [destruct (_ || _)|]; reflexivity. Qed.

Lemma mMutex_restore i p1 p1A prior w :
  mMutex (object (restore i p1 p1A prior w)) = mMutex (object w).
Proof. unfold restore. destruct (slot w i); [destruct (_ || _)|]; reflexivity. Qed.

Lemma dim_restore i p1 p1A prior w : dim (restore i p1 p1A prior w) = dim w.
Proof. unfold restore. destruct (slot w i); [destruct (_ || _)|]; reflexivity. Qed.

Lemma memory_restore i p1 p1A prior w : memory (restore i p1 p1A prior w) = memory w.
Proof. unfold restore. destruct (slot w i); [destruct (_ || _)|]; reflexivity. Qed.

(** Clearing the bit of interface [index] clears it. *)
Lemma clear_gotten_bit mask index :
  0 <= index ->
  Z.testbit (Z.land mask (to_unsigned (Z.lnot (Z.shiftl 1 index)))) index = false.
Proof.
  intros Hindex. rewrite Z.land_spec. apply andb_false_intro2.
  unfold to_unsigned.
  destruct (Z.lt_ge_cases index 32) as [Hlt | Hge].
  - rewrite Z.mod_pow2_bits_low by lia.
    rewrite Z.lnot_spec by lia. rewrite Z.shiftl_spec by lia.
    replace (index - index) with 0 by lia. reflexivity.
  - apply Z.mod_pow2_bits_high. lia.
Qed.

End Effects.

#[global] Hint Rewrite trace_do_hook memory_do_hook object_do_hook dim_do_hook
  trace_notify memory_notify object_notify dim_notify
  trace_do_deinit object_do_deinit dim_do_deinit
  trace_restore mGottenMask_restore mMutex_restore dim_restore memory_restore : world.

Arguments do_hook : simpl never.
Arguments notify : simpl never.
Arguments do_deinit : simpl never.
Arguments restore : simpl never.

Ltac world_simpl :=
  unfold do_init, do_resume, do_resume_sync, pending, reexamined, enqueue_result,
    index_of, interface_at in *;
  repeat (progress (cbn; autorewrite with world)).

(** The class and the mask of gotten interfaces after each change of the
    world. *)
Section ClassAndMask.

Variable G : Globals.
Variable E : Environment.

Lemma mClass_release w : mClass (object (release w)) = mClass (object w).
Proof. reflexivity. Qed.

Lemma mClass_acquire w : mClass (object (acquire E w)) = mClass (object w).
Proof. reflexivity. Qed.

Lemma mClass_do_store i s w : mClass (object (do_store i s w)) = mClass (object w).
Proof. reflexivity. Qed.

Lemma mClass_do_clear_gotten i w : mClass (object (do_clear_gotten i w)) = mClass (object w).
Proof. reflexivity. Qed.

Lemma mClass_do_init MPH w : mClass (object (do_init G MPH w)) = mClass (object w).
Proof. unfold do_init. rewrite object_do_hook. reflexivity. Qed.

Lemma mClass_do_deinit MPH w : mClass (object (do_deinit G MPH w)) = mClass (object w).
Proof. rewrite object_do_deinit. reflexivity. Qed.

Lemma mGottenMask_release w : mGottenMask (object (release w)) = mGottenMask (object w).
Proof. reflexivity. Qed.

Lemma mGottenMask_acquire w :
  mGottenMask (object (acquire E w)) = mGottenMask (object (others_run E w)).
Proof. reflexivity. Qed.

Lemma mGottenMask_do_store i s w :
  mGottenMask (object (do_store i s w)) = mGottenMask (object w).
Proof. reflexivity. Qed.

Lemma mGottenMask_do_clear_gotten i w :
  mGottenMask (object (do_clear_gotten i w)) =
  Z.land (mGottenMask (object w)) (to_unsigned (Z.lnot (Z.shiftl 1 i))).
Proof. reflexivity. Qed.

Lemma mGottenMask_do_init MPH w :
  mGottenMask (object (do_init G MPH w)) = mGottenMask (object w).
Proof. unfold do_init. rewrite object_do_hook. reflexivity. Qed.

Lemma mGottenMask_do_deinit MPH w :
  mGottenMask (object (do_deinit G MPH w)) = mGottenMask (object w).
Proof. rewrite object_do_deinit. reflexivity. Qed.

End ClassAndMask.

Create Rewrite HintDb frame.
#[global] Hint Rewrite mClass_release mClass_acquire mClass_do_store
  mClass_do_clear_gotten mClass_do_init mClass_do_deinit
  mGottenMask_release mGottenMask_acquire mGottenMask_do_store
  mGottenMask_do_clear_gotten mGottenMask_do_init mGottenMask_do_deinit : frame.

(** The events of a run, once the optional hook and callback are known. *)
Ltac events_known :=
  unfold deinit_events, restore_events, hook_events, callback_events;
  repeat match goal with
         | |- context [match ?o with Some _ => _ | None => _ end] => destruct o
         | |- context [if ?b then _ else _] => destruct b
         end;
  cbn; rewrite <- ?app_assoc; reflexivity.

Section Claims.

Variable G : Globals.
Variable E : Environment.

(** C3.  When the worker runs [HandleAdd] and finds the slot in
    [INTERFACE_ADDING_1], it stores [INTERFACE_ADDING_2] and releases the
    mutex; zeroes the interface, stores the back-reference and calls the
    init hook if there is one; takes the mutex again and stores
    [INTERFACE_ADDED]; releases the mutex and then calls the registered
    callback, if there is one, exactly once, with the event
    [SL_DYNAMIC_ITF_EVENT_ASYNC_TERMINATION], the result
    [SL_RESULT_SUCCESS] and the interface ID of the slot.  The state the
    handler finds is the one it reads once it holds the mutex; the other
    threads are taken to follow the protocol while the slot is in
    transition.  The memory of the interface ends as the init hook leaves
    it, and the hook is given the zeroed interface with its
    back-reference. *)
Theorem HandleAdd_completes_add self MPH w :
  let index := index_of w MPH in
  let thisObject := mThis (dim w) in
  let thisItf := interface_at w index in
  let size := interface_size G (mClass (object w)) index in
  let init := mInit (MPH_init_table G MPH) in
  closure_valid G w self MPH ->
  respects_transition G E index ->
  slot (others_run E w) index = Some INTERFACE_ADDING_1 ->
  exists w',
    HandleAdd G E self MPH w = Done () w' /\
    slot w' index = Some INTERFACE_ADDED /\
    (let evs :=
       [EvLock; EvStoreState index INTERFACE_ADDING_2; EvUnlock;
        EvMemset thisItf 0 size;
        EvStorePointer (thisItf + 1 * sizeof_pointer G) thisObject]
       ++ hook_events HookInit MPH init thisItf
       ++ [EvLock; EvStoreState index INTERFACE_ADDED; EvUnlock]
       ++ callback_events G self MPH SL_RESULT_SUCCESS (dim w') in
     trace w' = trace w ++ evs /\
     lock_discipline 0 evs = true /\
     depth_after 0 evs = 0) /\
    (forall a, in_range thisItf size a = true ->
       memory w' a =
       run_hook init thisItf
         (zeroed_with_back_reference G thisItf size thisObject
            (memory (others_run E w))) a) /\
    mMutex (object w') = mMutex (object w).
Proof.
  intros index thisObject thisItf size init Hvalid Hrely Hslot.
  pose proof (keeps_slot _ _ _ Hrely) as Hkept.
  eexists. split; [apply HandleAdd_run_normal; assumption|].
  subst index thisObject thisItf size init.
  split; [slot_known|].
  split; [|split].
  - split; [|split].
    + world_simpl. rewrite <- !app_assoc. reflexivity.
    + events_known.
    + events_known.
  - intros a Ha. world_simpl.
    rewrite (keeps_memory _ _ _ Hrely)
      by first [unfold in_transition; slot_in_transition | world_simpl; exact Ha].
    world_simpl. reflexivity.
  - world_simpl. lia.
Qed.

(** C5.  When the worker runs [HandleAdd] and finds the slot in
    [INTERFACE_ADDING_1A], the Add was cancelled while it was queued: no
    hook is called and memory is left as it is, the slot is set back to
    [INTERFACE_UNINITIALIZED], and the registered callback, if there is
    one, is called with the result [SL_RESULT_OPERATION_ABORTED]. *)
Theorem HandleAdd_cancelled self MPH w :
  let index := index_of w MPH in
  closure_valid G w self MPH ->
  slot (others_run E w) index = Some INTERFACE_ADDING_1A ->
  exists w',
    HandleAdd G E self MPH w = Done () w' /\
    slot w' index = Some INTERFACE_UNINITIALIZED /\
    (let evs :=
       [EvLock; EvStoreState index INTERFACE_UNINITIALIZED; EvUnlock]
       ++ callback_events G self MPH SL_RESULT_OPERATION_ABORTED (dim w') in
     trace w' = trace w ++ evs /\
     existsb is_hook_call evs = false /\
     lock_discipline 0 evs = true) /\
    memory w' = memory (others_run E w) /\
    mMutex (object w') = mMutex (object w).
Proof.
  intros index Hvalid Hslot.
  eexists. split; [apply HandleAdd_run_aborted; assumption|].
  subst index.
  split; [slot_known|].
  split; [|split].
  - split; [|split].
    + world_simpl. rewrite <- !app_assoc. reflexivity.
    + events_known.
    + events_known.
  - world_simpl. reflexivity.
  - world_simpl. lia.
Qed.

Lemma store_back s i w :
  slot w i = Some s ->
  mInterfaceStates (object (do_store i s w)) = mInterfaceStates (object w).
Proof.
  unfold slot, do_store, set_slot; cbn. destruct (i <? 0); [discriminate|].
  apply list_insert_id.
Qed.

(** C10, as the code has it: in a build without assertions ([NDEBUG]), a
    handler that finds the slot in a state it has no case for writes back
    the state it read, calls no hook, and calls the registered callback, if
    there is one, with the result [SL_RESULT_INTERNAL_ERROR]. *)
Theorem handlers_report_internal_error self MPH s w :
  NDEBUG G = true ->
  slot (others_run E w) (index_of w MPH) = Some s ->
  (unexpected_by_HandleAdd s ->
   reports_internal_error G E (HandleAdd G E) self MPH s w) /\
  (unexpected_by_HandleResume s ->
   reports_internal_error G E (HandleResume G E) self MPH s w).
Proof.
  intros HND Hslot. split; intros Hs; unfold reports_internal_error.
  - eexists. split; [apply HandleAdd_run_unexpected_release; eassumption|].
    split; [|split].
    + rewrite object_notify.
      change (mInterfaceStates (object (do_store (index_of w MPH) s (acquire E w))) =
              mInterfaceStates (object (acquire E w))).
      apply store_back. slot_known.
    + split.
      * world_simpl. rewrite <- !app_assoc. reflexivity.
      * events_known.
    + world_simpl. reflexivity.
  - eexists. split; [apply HandleResume_run_unexpected_release; eassumption|].
    split; [|split].
    + rewrite object_notify.
      change (mInterfaceStates (object (do_store (index_of w MPH) s (acquire E w))) =
              mInterfaceStates (object (acquire E w))).
      apply store_back. slot_known.
    + split.
      * world_simpl. rewrite <- !app_assoc. reflexivity.
      * events_known.
    + world_simpl. reflexivity.
Qed.

(** C8.  The synchronous [AddInterface] on a slot in
    [INTERFACE_UNINITIALIZED] zeroes the interface, stores the
    back-reference to the object, calls the init hook if there is one,
    leaves the slot in [INTERFACE_ADDED] and returns [SL_RESULT_SUCCESS].
    The state the operation finds is the one it reads once it holds the
    mutex; the other threads are taken to follow the protocol while the
    slot is in transition. *)
Theorem AddInterface_sync_adds self iid w :
  let MPH := IID_to_MPH G iid in
  let index := index_of w MPH in
  let thisObject := mThis (dim w) in
  let thisItf := interface_at w index in
  let size := interface_size G (mClass (object w)) index in
  let init := mInit (MPH_init_table G MPH) in
  declares G w iid ->
  respects_transition G E index ->
  slot (others_run E w) index = Some INTERFACE_UNINITIALIZED ->
  exists w',
    IDynamicInterfaceManagement_AddInterface G E self iid false w =
      Done SL_RESULT_SUCCESS w' /\
    slot w' index = Some INTERFACE_ADDED /\
    (let evs :=
       [EvLock; EvStoreState index INTERFACE_ADDING_2; EvUnlock;
        EvMemset thisItf 0 size;
        EvStorePointer (thisItf + 1 * sizeof_pointer G) thisObject]
       ++ hook_events HookInit MPH init thisItf
       ++ [EvLock; EvStoreState index INTERFACE_ADDED; EvUnlock] in
     trace w' = trace w ++ evs /\
     lock_discipline 0 evs = true /\
     depth_after 0 evs = 0) /\
    (forall a, in_range thisItf size a = true ->
       memory w' a =
       run_hook init thisItf
         (zeroed_with_back_reference G thisItf size thisObject
            (memory (others_run E w))) a) /\
    mMutex (object w') = mMutex (object w).
Proof.
  intros MPH index thisObject thisItf size init Hdecl Hrely Hslot.
  pose proof (keeps_slot _ _ _ Hrely) as Hkept.
  eexists. split; [apply AddInterface_run_sync; assumption|].
  subst MPH index thisObject thisItf size init.
  split; [slot_known|].
  split; [|split].
  - split; [|split].
    + world_simpl. rewrite <- !app_assoc. reflexivity.
    + events_known.
    + events_known.
  - intros a Ha. world_simpl.
    rewrite (keeps_memory _ _ _ Hrely)
      by first [unfold in_transition; slot_in_transition | world_simpl; exact Ha].
    world_simpl. reflexivity.
  - world_simpl. lia.
Qed.


(** C7.  For an interface ID that is not NULL and that the class does not
    know, [AddInterface] returns [SL_RESULT_FEATURE_UNSUPPORTED],
    [RemoveInterface] and [ResumeInterface] return
    [SL_RESULT_PRECONDITIONS_VIOLATED], and each leaves the world as it
    found it: no field is written, the mutex is not taken, nothing is
    called. *)
Theorem unknown_interface_rejected self iid async w :
  unknown_to_class G w iid ->
  IDynamicInterfaceManagement_AddInterface G E self iid async w =
    Done SL_RESULT_FEATURE_UNSUPPORTED w /\
  IDynamicInterfaceManagement_RemoveInterface G E self iid w =
    Done SL_RESULT_PRECONDITIONS_VIOLATED w /\
  IDynamicInterfaceManagement_ResumeInterface G E self iid async w =
    Done SL_RESULT_PRECONDITIONS_VIOLATED w.
Proof.
  intros Hun. split; [|split].
  - apply AddInterface_run_unknown, Hun.
  - apply RemoveInterface_run_unknown, Hun.
  - apply ResumeInterface_run_unknown, Hun.
Qed.

(** X4.  [AddInterface] on a slot that is not in [INTERFACE_UNINITIALIZED]
    and [RemoveInterface] on a slot that is neither in [INTERFACE_ADDED] nor
    in [INTERFACE_SUSPENDED] return [SL_RESULT_PRECONDITIONS_VIOLATED],
    leave the data as they found it under the mutex, and take and release
    the mutex once. *)
Lemma AddInterface_RemoveInterface_guard self iid async s w :
  declares G w iid ->
  slot (others_run E w) (index_of w (IID_to_MPH G iid)) = Some s ->
  (s <> INTERFACE_UNINITIALIZED ->
   rejected_and_balanced E (IDynamicInterfaceManagement_AddInterface G E self iid async) w) /\
  (s <> INTERFACE_ADDED -> s <> INTERFACE_SUSPENDED ->
   rejected_and_balanced E (IDynamicInterfaceManagement_RemoveInterface G E self iid) w).
Proof.
  intros Hdecl Hslot. split.
  - intros Hs. eexists. split; [eapply AddInterface_run_guard; eassumption|].
    split; [repeat split|split].
    + world_simpl. rewrite <- !app_assoc. reflexivity.
    + world_simpl. lia.
  - intros Hs1 Hs2. eexists. split; [eapply RemoveInterface_run_guard; eassumption|].
    split; [repeat split|split].
    + world_simpl. rewrite <- !app_assoc. reflexivity.
    + world_simpl. lia.
Qed.

(** C2, as the code has it for [ResumeInterface]: on a slot that is not in
    [INTERFACE_SUSPENDED] the operation returns
    [SL_RESULT_PRECONDITIONS_VIOLATED] and leaves the data as it found it,
    but it releases the mutex twice after taking it once, and so ends one
    release below the depth it started with. *)
Theorem ResumeInterface_guard_releases_twice self iid async s w :
  declares G w iid ->
  slot (others_run E w) (index_of w (IID_to_MPH G iid)) = Some s ->
  s <> INTERFACE_SUSPENDED ->
  exists w',
    IDynamicInterfaceManagement_ResumeInterface G E self iid async w =
      Done SL_RESULT_PRECONDITIONS_VIOLATED w' /\
    same_data w' (others_run E w) /\
    trace w' = trace w ++ [EvLock; EvUnlock; EvUnlock] /\
    mMutex (object w') = mMutex (object w) - 1 /\
    ~ rejected_and_balanced E (IDynamicInterfaceManagement_ResumeInterface G E self iid async) w.
Proof.
  intros Hdecl Hslot Hs.
  pose proof (ResumeInterface_run_guard G E self iid async w s Hdecl Hslot Hs) as Hrun.
  eexists. split; [exact Hrun|].
  split; [repeat split|split; [|split]].
  - world_simpl. rewrite <- !app_assoc. reflexivity.
  - world_simpl. lia.
  - intros (w' & Hrun' & _ & _ & Hdepth).
    rewrite Hrun in Hrun'. injection Hrun' as <-.
    revert Hdepth. world_simpl. lia.
Qed.

(** C1, as the code has it: the synchronous [ResumeInterface] on a slot in
    [INTERFACE_SUSPENDED] leaves the slot in [INTERFACE_ADDED] and returns
    [SL_RESULT_SUCCESS], and the resume hook, if there is one, is called on
    the address of the manager plus the offset of the interface, which is
    not the address of the interface in the object unless the manager lies
    at the address of the object. *)
Theorem ResumeInterface_sync_hook_address self iid w :
  let MPH := IID_to_MPH G iid in
  let index := index_of w MPH in
  let offset := mOffset (mInterfaces (mClass (object w)) index) in
  let resume := mResume (MPH_init_table G MPH) in
  declares G w iid ->
  respects_transition G E index ->
  slot (others_run E w) index = Some INTERFACE_SUSPENDED ->
  exists w',
    IDynamicInterfaceManagement_ResumeInterface G E self iid false w =
      Done SL_RESULT_SUCCESS w' /\
    slot w' index = Some INTERFACE_ADDED /\
    trace w' =
      trace w
      ++ [EvLock; EvStoreState index INTERFACE_RESUMING_2; EvUnlock]
      ++ hook_events HookResume MPH resume (self + offset)
      ++ [EvLock; EvStoreState index INTERFACE_ADDED; EvUnlock] /\
    (self <> mThis (dim w) -> self + offset <> interface_at w index).
Proof.
  intros MPH index offset resume Hdecl Hrely Hslot.
  pose proof (keeps_slot _ _ _ Hrely) as Hkept.
  eexists. split; [apply ResumeInterface_run_sync; assumption|].
  subst MPH index offset resume.
  split; [slot_known|].
  split.
  - world_simpl. rewrite <- !app_assoc. reflexivity.
  - unfold interface_at. lia.
Qed.

(** C4.  When [ThreadPool_add] fails in an asynchronous [AddInterface]
    (in an asynchronous [ResumeInterface]), the operation takes the mutex
    again; the slot is set back to [INTERFACE_UNINITIALIZED] (to
    [INTERFACE_SUSPENDED]) exactly when it is found in [INTERFACE_ADDING_1]
    or [INTERFACE_ADDING_1A] (in [INTERFACE_RESUMING_1] or
    [INTERFACE_RESUMING_1A]) and is left as it is found otherwise; the
    operation returns the result of [ThreadPool_add] and calls no
    callback. *)
Theorem enqueue_failure_restores self iid w :
  let MPH := IID_to_MPH G iid in
  let index := index_of w MPH in
  declares G w iid ->
  (slot (others_run E w) index = Some INTERFACE_UNINITIALIZED ->
   enqueue_result E Closure_HandleAdd self MPH (pending E index INTERFACE_ADDING_1 w)
     <> SL_RESULT_SUCCESS ->
   enqueue_failure_handled E
     (IDynamicInterfaceManagement_AddInterface G E self iid true) Closure_HandleAdd
     INTERFACE_ADDING_1 INTERFACE_ADDING_1A INTERFACE_UNINITIALIZED self MPH index w) /\
  (slot (others_run E w) index = Some INTERFACE_SUSPENDED ->
   enqueue_result E Closure_HandleResume self MPH (pending E index INTERFACE_RESUMING_1 w)
     <> SL_RESULT_SUCCESS ->
   enqueue_failure_handled E
     (IDynamicInterfaceManagement_ResumeInterface G E self iid true) Closure_HandleResume
     INTERFACE_RESUMING_1 INTERFACE_RESUMING_1A INTERFACE_SUSPENDED self MPH index w).
Proof.
  intros MPH index Hdecl. subst MPH index.
  split; intros Hslot Hfail; unfold enqueue_failure_handled.
  - eexists. split; [apply AddInterface_run_enqueue_failure; assumption|].
    split; [|split; [|split; [|split; [|split]]]].
    + rewrite slot_release. apply slot_restore_eq.
    + intros j Hj. rewrite slot_release. apply slot_restore_ne, Hj.
    + world_simpl. reflexivity.
    + world_simpl. reflexivity.
    + world_simpl. reflexivity.
    + split; [|split; [|split]].
      * world_simpl. rewrite <- !app_assoc. reflexivity.
      * events_known.
      * events_known.
      * events_known.
  - eexists. split; [apply ResumeInterface_run_enqueue_failure; assumption|].
    split; [|split; [|split; [|split; [|split]]]].
    + rewrite slot_release. apply slot_restore_eq.
    + intros j Hj. rewrite slot_release. apply slot_restore_ne, Hj.
    + world_simpl. reflexivity.
    + world_simpl. reflexivity.
    + world_simpl. reflexivity.
    + split; [|split; [|split]].
      * world_simpl. rewrite <- !app_assoc. reflexivity.
      * events_known.
      * events_known.
      * events_known.
Qed.

Lemma undisturbed_slot_kept index : undisturbed E index -> slot_kept E index.
Proof. intros H w _. apply H. Qed.

Lemma step_run {A B} (m : M A) (k : A -> M B) a w w' :
  m w = Done a w' -> (m ≫= k) w = k a w'.
Proof. intros H. unfold mbind, M_bind. rewrite H. reflexivity. Qed.

(** C9.  From a slot in [INTERFACE_UNINITIALIZED], whatever its bit in the
    mask of gotten interfaces, a synchronous Add, a Remove and a synchronous
    Add of the same interface all succeed and end with the slot in
    [INTERFACE_ADDED] and its bit clear, when no other thread works on the
    slot in between. *)
Theorem add_remove_add_clears_gotten self iid w :
  let index := index_of w (IID_to_MPH G iid) in
  declares G w iid ->
  undisturbed E index ->
  slot w index = Some INTERFACE_UNINITIALIZED ->
  exists w',
    add_remove_add G E self iid w =
      Done (SL_RESULT_SUCCESS, SL_RESULT_SUCCESS, SL_RESULT_SUCCESS) w' /\
    slot w' index = Some INTERFACE_ADDED /\
    Z.testbit (mGottenMask (object w')) index = false.
Proof.
  intros index Hdecl Hund Hslot. subst index.
  pose proof (undisturbed_slot_kept _ Hund) as Hkept.
  assert (Hseen : forall w0, slot (others_run E w0) (index_of w (IID_to_MPH G iid)) =
                             slot w0 (index_of w (IID_to_MPH G iid))) by apply Hund.
  assert (Hbit : forall w0,
             Z.testbit (mGottenMask (object (others_run E w0))) (index_of w (IID_to_MPH G iid)) =
             Z.testbit (mGottenMask (object w0)) (index_of w (IID_to_MPH G iid))) by apply Hund.
  assert (Hindex : 0 <= index_of w (IID_to_MPH G iid))
    by (destruct Hdecl as (_ & _ & ? & _); assumption).
  unfold add_remove_add.
  erewrite step_run; cycle 1.
  { apply AddInterface_run_sync; [exact Hdecl | exact Hkept |].
    rewrite Hseen. exact Hslot. }
  erewrite step_run; cycle 1.
  { eapply RemoveInterface_run_removes with (s := INTERFACE_ADDED);
      unfold declares, index_of in *; autorewrite with frame.
    - exact Hdecl.
    - exact Hkept.
    - rewrite Hseen. slot_known.
    - left; reflexivity. }
  erewrite step_run; cycle 1.
  { apply AddInterface_run_sync;
      unfold declares, index_of in *; autorewrite with frame.
    - exact Hdecl.
    - exact Hkept.
    - rewrite Hseen. slot_known. }
  eexists. split; [reflexivity|].
  unfold index_of in *; autorewrite with frame.
  split.
  - slot_known.
  - repeat (rewrite Hbit; autorewrite with frame).
    apply clear_gotten_bit. exact Hindex.
Qed.

End Claims.

(** ** The protocol at the concrete object *)


Lemma calm_slot result w index :
  slot (others_run (Demo.calm result) w) index = slot w index.
Proof. rewrite slot_others_run. cbn. destruct (slot w index); reflexivity. Qed.

Lemma calm_respects_transition G result index :
  respects_transition G (Demo.calm result) index.
Proof.
  split.
  - intros w _. apply calm_slot.
  - reflexivity.
  - reflexivity.
Qed.

Lemma calm_undisturbed result index : undisturbed (Demo.calm result) index.
Proof. intros w. split; [apply calm_slot | reflexivity]. Qed.

(** ** The claims at the concrete object *)

Lemma HandleAdd_completes_add_witness :
  closure_valid (Demo.globals false) (Demo.world INTERFACE_ADDING_1 0 99) 5032 3 /\
  respects_transition (Demo.globals false) (Demo.calm 0) 2 /\
  slot (others_run (Demo.calm 0) (Demo.world INTERFACE_ADDING_1 0 99)) 2 =
    Some INTERFACE_ADDING_1 /\
  exists w',
    HandleAdd (Demo.globals false) (Demo.calm 0) 5032 3
      (Demo.world INTERFACE_ADDING_1 0 99) = Done () w' /\
    slot w' 2 = Some INTERFACE_ADDED /\
    memory w' 5048 = Byte 1 /\ memory w' 5049 = Byte 0 /\
    memory w' 5052 = Fragment 5000 0 /\
    trace w' =
      [EvLock; EvStoreState 2 INTERFACE_ADDING_2; EvUnlock;
       EvMemset 5048 0 32; EvStorePointer 5052 5000; EvHook HookInit 3 5048;
       EvLock; EvStoreState 2 INTERFACE_ADDED; EvUnlock;
       EvCallback 99 5032 77 2 0 1048].
Proof.
  assert (Hvalid : closure_valid (Demo.globals false)
                     (Demo.world INTERFACE_ADDING_1 0 99) 5032 3)
    by (unfold closure_valid; vm_compute; repeat split; congruence).
  assert (Hslot : slot (others_run (Demo.calm 0) (Demo.world INTERFACE_ADDING_1 0 99))
                    (index_of (Demo.world INTERFACE_ADDING_1 0 99) 3) =
                  Some INTERFACE_ADDING_1) by reflexivity.
  split; [exact Hvalid|]. split; [apply calm_respects_transition|].
  split; [exact Hslot|].
  destruct (HandleAdd_completes_add (Demo.globals false) (Demo.calm 0) 5032 3
              (Demo.world INTERFACE_ADDING_1 0 99) Hvalid
              (calm_respects_transition _ _ _) Hslot)
    as (w' & Hrun & Hadded & (Htrace & _) & Hmemory & _).
  exists w'. split; [exact Hrun|]. split; [exact Hadded|].
  vm_compute in Hrun. injection Hrun as <-.
  repeat split; reflexivity.
Defined.

Lemma HandleAdd_cancelled_witness :
  closure_valid (Demo.globals false) (Demo.world INTERFACE_ADDING_1A 0 99) 5032 3 /\
  slot (others_run (Demo.calm 0) (Demo.world INTERFACE_ADDING_1A 0 99)) 2 =
    Some INTERFACE_ADDING_1A /\
  exists w',
    HandleAdd (Demo.globals false) (Demo.calm 0) 5032 3
      (Demo.world INTERFACE_ADDING_1A 0 99) = Done () w' /\
    slot w' 2 = Some INTERFACE_UNINITIALIZED /\
    trace w' =
      [EvLock; EvStoreState 2 INTERFACE_UNINITIALIZED; EvUnlock;
       EvCallback 99 5032 77 2 15 1048].
Proof.
  assert (Hvalid : closure_valid (Demo.globals false)
                     (Demo.world INTERFACE_ADDING_1A 0 99) 5032 3)
    by (unfold closure_valid; vm_compute; repeat split; congruence).
  assert (Hslot : slot (others_run (Demo.calm 0) (Demo.world INTERFACE_ADDING_1A 0 99))
                    (index_of (Demo.world INTERFACE_ADDING_1A 0 99) 3) =
                  Some INTERFACE_ADDING_1A) by reflexivity.
  split; [exact Hvalid|]. split; [exact Hslot|].
  destruct (HandleAdd_cancelled (Demo.globals false) (Demo.calm 0) 5032 3
              (Demo.world INTERFACE_ADDING_1A 0 99) Hvalid Hslot)
    as (w' & Hrun & Hstate & _).
  exists w'. split; [exact Hrun|]. split; [exact Hstate|].
  vm_compute in Hrun. injection Hrun as <-. reflexivity.
Defined.

Lemma handlers_report_internal_error_witness :
  NDEBUG (Demo.globals true) = true /\
  slot (others_run (Demo.calm 0) (Demo.world INTERFACE_ADDED 0 99)) 2 =
    Some INTERFACE_ADDED /\
  unexpected_by_HandleAdd INTERFACE_ADDED /\
  unexpected_by_HandleResume INTERFACE_ADDED /\
  reports_internal_error (Demo.globals true) (Demo.calm 0)
    (HandleAdd (Demo.globals true) (Demo.calm 0)) 5032 3 INTERFACE_ADDED
    (Demo.world INTERFACE_ADDED 0 99) /\
  reports_internal_error (Demo.globals true) (Demo.calm 0)
    (HandleResume (Demo.globals true) (Demo.calm 0)) 5032 3 INTERFACE_ADDED
    (Demo.world INTERFACE_ADDED 0 99).
Proof.
  assert (HAdd : unexpected_by_HandleAdd INTERFACE_ADDED) by (split; discriminate).
  assert (HResume : unexpected_by_HandleResume INTERFACE_ADDED) by (split; discriminate).
  assert (Hslot : slot (others_run (Demo.calm 0) (Demo.world INTERFACE_ADDED 0 99))
                    (index_of (Demo.world INTERFACE_ADDED 0 99) 3) =
                  Some INTERFACE_ADDED) by reflexivity.
  split; [reflexivity|]. split; [exact Hslot|].
  split; [exact HAdd|]. split; [exact HResume|].
  destruct (handlers_report_internal_error (Demo.globals true) (Demo.calm 0) 5032 3
              INTERFACE_ADDED (Demo.world INTERFACE_ADDED 0 99) eq_refl Hslot)
    as [Hadd Hresume].
  split; [exact (Hadd HAdd) | exact (Hresume HResume)].
Defined.

(** In a build with assertions a handler does not report the internal
    error: it stops at [assert(SL_BOOLEAN_FALSE)] with the mutex held, before it
    writes the slot or calls the callback. *)
Lemma handlers_report_internal_error_counterexample :
  unexpected_by_HandleAdd INTERFACE_ADDED /\
  slot (others_run (Demo.calm 0) (Demo.world INTERFACE_ADDED 0 99)) 2 =
    Some INTERFACE_ADDED /\
  HandleAdd (Demo.globals false) (Demo.calm 0) 5032 3 (Demo.world INTERFACE_ADDED 0 99) =
    Stopped AssertionFailed (acquire (Demo.calm 0) (Demo.world INTERFACE_ADDED 0 99)) /\
  ~ reports_internal_error (Demo.globals false) (Demo.calm 0)
      (HandleAdd (Demo.globals false) (Demo.calm 0)) 5032 3 INTERFACE_ADDED
      (Demo.world INTERFACE_ADDED 0 99).
Proof.
  split; [split; discriminate|]. split; [reflexivity|].
  assert (Hrun : HandleAdd (Demo.globals false) (Demo.calm 0) 5032 3
                   (Demo.world INTERFACE_ADDED 0 99) =
                 Stopped AssertionFailed
                   (acquire (Demo.calm 0) (Demo.world INTERFACE_ADDED 0 99)))
    by reflexivity.
  split; [exact Hrun|].
  intros (w' & Hdone & _). rewrite Hrun in Hdone. discriminate Hdone.
Qed.

Lemma AddInterface_sync_adds_witness :
  declares (Demo.globals false) (Demo.world INTERFACE_UNINITIALIZED 4 0) 1048 /\
  respects_transition (Demo.globals false) (Demo.calm 0) 2 /\
  slot (others_run (Demo.calm 0) (Demo.world INTERFACE_UNINITIALIZED 4 0)) 2 =
    Some INTERFACE_UNINITIALIZED /\
  exists w',
    IDynamicInterfaceManagement_AddInterface (Demo.globals false) (Demo.calm 0)
      5032 1048 false (Demo.world INTERFACE_UNINITIALIZED 4 0) = Done SL_RESULT_SUCCESS w' /\
    slot w' 2 = Some INTERFACE_ADDED /\
    memory w' 5048 = Byte 1 /\ memory w' 5049 = Byte 0 /\
    memory w' 5052 = Fragment 5000 0 /\
    trace w' =
      [EvLock; EvStoreState 2 INTERFACE_ADDING_2; EvUnlock;
       EvMemset 5048 0 32; EvStorePointer 5052 5000; EvHook HookInit 3 5048;
       EvLock; EvStoreState 2 INTERFACE_ADDED; EvUnlock].
Proof.
  assert (Hdecl : declares (Demo.globals false) (Demo.world INTERFACE_UNINITIALIZED 4 0) 1048)
    by (unfold declares; vm_compute; repeat split; congruence).
  assert (Hslot : slot (others_run (Demo.calm 0) (Demo.world INTERFACE_UNINITIALIZED 4 0))
                    (index_of (Demo.world INTERFACE_UNINITIALIZED 4 0)
                       (IID_to_MPH (Demo.globals false) 1048)) =
                  Some INTERFACE_UNINITIALIZED) by reflexivity.
  split; [exact Hdecl|]. split; [apply calm_respects_transition|].
  split; [exact Hslot|].
  destruct (AddInterface_sync_adds (Demo.globals false) (Demo.calm 0) 5032 1048
              (Demo.world INTERFACE_UNINITIALIZED 4 0) Hdecl
              (calm_respects_transition _ _ _) Hslot)
    as (w' & Hrun & Hadded & _).
  exists w'. split; [exact Hrun|]. split; [exact Hadded|].
  vm_compute in Hrun. injection Hrun as <-.
  repeat split; reflexivity.
Defined.


Lemma unknown_interface_rejected_witness :
  unknown_to_class (Demo.globals false) (Demo.world INTERFACE_UNINITIALIZED 4 0) 2000 /\
  IDynamicInterfaceManagement_AddInterface (Demo.globals false) (Demo.calm 0)
    5032 2000 false (Demo.world INTERFACE_UNINITIALIZED 4 0) =
    Done SL_RESULT_FEATURE_UNSUPPORTED (Demo.world INTERFACE_UNINITIALIZED 4 0) /\
  IDynamicInterfaceManagement_RemoveInterface (Demo.globals false) (Demo.calm 0)
    5032 2000 (Demo.world INTERFACE_UNINITIALIZED 4 0) =
    Done SL_RESULT_PRECONDITIONS_VIOLATED (Demo.world INTERFACE_UNINITIALIZED 4 0) /\
  IDynamicInterfaceManagement_ResumeInterface (Demo.globals false) (Demo.calm 0)
    5032 2000 false (Demo.world INTERFACE_UNINITIALIZED 4 0) =
    Done SL_RESULT_PRECONDITIONS_VIOLATED (Demo.world INTERFACE_UNINITIALIZED 4 0).
Proof.
  assert (Hun : unknown_to_class (Demo.globals false)
                  (Demo.world INTERFACE_UNINITIALIZED 4 0) 2000)
    by (split; [discriminate | left; vm_compute; reflexivity]).
  split; [exact Hun|].
  exact (unknown_interface_rejected (Demo.globals false) (Demo.calm 0) 5032 2000 false
           (Demo.world INTERFACE_UNINITIALIZED 4 0) Hun).
Defined.

Lemma enqueue_failure_restores_witness :
  declares (Demo.globals false) (Demo.world INTERFACE_UNINITIALIZED 4 99) 1048 /\
  slot (others_run Demo.cancelling (Demo.world INTERFACE_UNINITIALIZED 4 99)) 2 =
    Some INTERFACE_UNINITIALIZED /\
  enqueue_result Demo.cancelling Closure_HandleAdd 5032 3
    (pending Demo.cancelling 2 INTERFACE_ADDING_1 (Demo.world INTERFACE_UNINITIALIZED 4 99))
    <> SL_RESULT_SUCCESS /\
  slot (reexamined Demo.cancelling Closure_HandleAdd 5032 3
          (pending Demo.cancelling 2 INTERFACE_ADDING_1
             (Demo.world INTERFACE_UNINITIALIZED 4 99))) 2 =
    Some INTERFACE_ADDING_1A /\
  exists w',
    IDynamicInterfaceManagement_AddInterface (Demo.globals false) Demo.cancelling
      5032 1048 true (Demo.world INTERFACE_UNINITIALIZED 4 99) = Done 3 w' /\
    slot w' 2 = Some INTERFACE_UNINITIALIZED /\
    trace w' =
      [EvLock; EvStoreState 2 INTERFACE_ADDING_1; EvUnlock;
       EvThreadPoolAdd Closure_HandleAdd 5032 3 3;
       EvLock; EvStoreState 2 INTERFACE_UNINITIALIZED; EvUnlock].
Proof.
  assert (Hdecl : declares (Demo.globals false) (Demo.world INTERFACE_UNINITIALIZED 4 99) 1048)
    by (unfold declares; vm_compute; repeat split; congruence).
  assert (Hslot : slot (others_run Demo.cancelling (Demo.world INTERFACE_UNINITIALIZED 4 99))
                    (index_of (Demo.world INTERFACE_UNINITIALIZED 4 99)
                       (IID_to_MPH (Demo.globals false) 1048)) =
                  Some INTERFACE_UNINITIALIZED) by reflexivity.
  assert (Hfail : enqueue_result Demo.cancelling Closure_HandleAdd 5032
                    (IID_to_MPH (Demo.globals false) 1048)
                    (pending Demo.cancelling
                       (index_of (Demo.world INTERFACE_UNINITIALIZED 4 99)
                          (IID_to_MPH (Demo.globals false) 1048))
                       INTERFACE_ADDING_1 (Demo.world INTERFACE_UNINITIALIZED 4 99))
                  <> SL_RESULT_SUCCESS) by discriminate.
  split; [exact Hdecl|]. split; [exact Hslot|]. split; [exact Hfail|].
  split; [reflexivity|].
  destruct (enqueue_failure_restores (Demo.globals false) Demo.cancelling 5032 1048
              (Demo.world INTERFACE_UNINITIALIZED 4 99) Hdecl) as [HAdd _].
  destruct (HAdd Hslot Hfail) as (w' & Hrun & Hstate & _).
  exists w'. split; [exact Hrun|]. split; [exact Hstate|].
  vm_compute in Hrun. injection Hrun as <-. reflexivity.
Defined.

Lemma add_remove_add_clears_gotten_witness :
  declares (Demo.globals false) (Demo.world INTERFACE_UNINITIALIZED 4 0) 1048 /\
  undisturbed (Demo.calm 0) 2 /\
  slot (Demo.world INTERFACE_UNINITIALIZED 4 0) 2 = Some INTERFACE_UNINITIALIZED /\
  Z.testbit (mGottenMask (object (Demo.world INTERFACE_UNINITIALIZED 4 0))) 2 = true /\
  exists w',
    add_remove_add (Demo.globals false) (Demo.calm 0) 5032 1048
      (Demo.world INTERFACE_UNINITIALIZED 4 0) =
      Done (SL_RESULT_SUCCESS, SL_RESULT_SUCCESS, SL_RESULT_SUCCESS) w' /\
    slot w' 2 = Some INTERFACE_ADDED /\
    Z.testbit (mGottenMask (object w')) 2 = false.
Proof.
  assert (Hdecl : declares (Demo.globals false) (Demo.world INTERFACE_UNINITIALIZED 4 0) 1048)
    by (unfold declares; vm_compute; repeat split; congruence).
  assert (Hslot : slot (Demo.world INTERFACE_UNINITIALIZED 4 0)
                    (index_of (Demo.world INTERFACE_UNINITIALIZED 4 0)
                       (IID_to_MPH (Demo.globals false) 1048)) =
                  Some INTERFACE_UNINITIALIZED) by reflexivity.
  split; [exact Hdecl|]. split; [apply calm_undisturbed|].
  split; [exact Hslot|]. split; [reflexivity|].
  exact (add_remove_add_clears_gotten (Demo.globals false) (Demo.calm 0) 5032 1048
           (Demo.world INTERFACE_UNINITIALIZED 4 0) Hdecl
           (calm_undisturbed _ _) Hslot).
Defined.

(** At the concrete object, the resume hook of the interface at
    offset 48 of the object at 5000 is called on 5080, the address of the
    manager plus 48, and marks the first byte of the next interface; the
    interface resumed, at 5048, is not touched. *)
Lemma ResumeInterface_sync_hook_address_witness :
  declares (Demo.globals false) (Demo.world INTERFACE_SUSPENDED 0 0) 1048 /\
  respects_transition (Demo.globals false) (Demo.calm 0) 2 /\
  slot (others_run (Demo.calm 0) (Demo.world INTERFACE_SUSPENDED 0 0)) 2 =
    Some INTERFACE_SUSPENDED /\
  interface_at (Demo.world INTERFACE_SUSPENDED 0 0) 2 = 5048 /\
  exists w',
    IDynamicInterfaceManagement_ResumeInterface (Demo.globals false) (Demo.calm 0)
      5032 1048 false (Demo.world INTERFACE_SUSPENDED 0 0) = Done SL_RESULT_SUCCESS w' /\
    slot w' 2 = Some INTERFACE_ADDED /\
    trace w' =
      [EvLock; EvStoreState 2 INTERFACE_RESUMING_2; EvUnlock;
       EvHook HookResume 3 5080;
       EvLock; EvStoreState 2 INTERFACE_ADDED; EvUnlock] /\
    memory w' 5048 = Undef /\ memory w' 5080 = Byte 2.
Proof.
  assert (Hdecl : declares (Demo.globals false) (Demo.world INTERFACE_SUSPENDED 0 0) 1048)
    by (unfold declares; vm_compute; repeat split; congruence).
  assert (Hslot : slot (others_run (Demo.calm 0) (Demo.world INTERFACE_SUSPENDED 0 0))
                    (index_of (Demo.world INTERFACE_SUSPENDED 0 0)
                       (IID_to_MPH (Demo.globals false) 1048)) =
                  Some INTERFACE_SUSPENDED) by reflexivity.
  split; [exact Hdecl|]. split; [apply calm_respects_transition|].
  split; [exact Hslot|]. split; [reflexivity|].
  destruct (ResumeInterface_sync_hook_address (Demo.globals false) (Demo.calm 0) 5032 1048
              (Demo.world INTERFACE_SUSPENDED 0 0) Hdecl
              (calm_respects_transition _ _ _) Hslot)
    as (w' & Hrun & Hstate & Htrace & _).
  exists w'. split; [exact Hrun|]. split; [exact Hstate|]. split; [exact Htrace|].
  vm_compute in Hrun. injection Hrun as <-.
  split; reflexivity.
Defined.

(** At the concrete object, [ResumeInterface] on a slot in
    [INTERFACE_ADDED] takes the mutex once and releases it twice. *)
Lemma ResumeInterface_guard_releases_twice_witness :
  declares (Demo.globals false) (Demo.world INTERFACE_ADDED 0 0) 1048 /\
  slot (others_run (Demo.calm 0) (Demo.world INTERFACE_ADDED 0 0)) 2 =
    Some INTERFACE_ADDED /\
  exists w',
    IDynamicInterfaceManagement_ResumeInterface (Demo.globals false) (Demo.calm 0)
      5032 1048 false (Demo.world INTERFACE_ADDED 0 0) =
      Done SL_RESULT_PRECONDITIONS_VIOLATED w' /\
    trace w' = [EvLock; EvUnlock; EvUnlock] /\
    mMutex (object w') = -1.
Proof.
  assert (Hdecl : declares (Demo.globals false) (Demo.world INTERFACE_ADDED 0 0) 1048)
    by (unfold declares; vm_compute; repeat split; congruence).
  assert (Hslot : slot (others_run (Demo.calm 0) (Demo.world INTERFACE_ADDED 0 0))
                    (index_of (Demo.world INTERFACE_ADDED 0 0)
                       (IID_to_MPH (Demo.globals false) 1048)) =
                  Some INTERFACE_ADDED) by reflexivity.
  split; [exact Hdecl|]. split; [exact Hslot|].
  destruct (ResumeInterface_guard_releases_twice (Demo.globals false) (Demo.calm 0)
              5032 1048 false INTERFACE_ADDED (Demo.world INTERFACE_ADDED 0 0)
              Hdecl Hslot ltac:(discriminate))
    as (w' & Hrun & _ & Htrace & Hdepth & _).
  exists w'. split; [exact Hrun|]. split; [exact Htrace | exact Hdepth].
Defined.

(** ** Further properties of the operations and the handlers *)

Section Further.

Variable G : Globals.
Variable E : Environment.

(** X1.  With a NULL interface ID each operation returns
    [SL_RESULT_PARAMETER_INVALID] before it reads the object: the world is
    the one it was given, whatever the class, the slots and the other
    threads. *)
Theorem NULL_interface_rejected self async w :
  IDynamicInterfaceManagement_AddInterface G E self NULL async w =
    Done SL_RESULT_PARAMETER_INVALID w /\
  IDynamicInterfaceManagement_RemoveInterface G E self NULL w =
    Done SL_RESULT_PARAMETER_INVALID w /\
  IDynamicInterfaceManagement_ResumeInterface G E self NULL async w =
    Done SL_RESULT_PARAMETER_INVALID w.
Proof. repeat split. Qed.

(** X2.  When the worker runs [HandleResume] and finds the slot in
    [INTERFACE_RESUMING_1], it stores [INTERFACE_RESUMING_2], calls the
    resume hook, if there is one, on the interface in the object with the
    mutex released, stores [INTERFACE_ADDED] with the mutex held again, and
    calls the registered callback, if there is one, once, with the result
    [SL_RESULT_SUCCESS] and with the mutex not held. *)
Theorem HandleResume_completes_resume self MPH w :
  let index := index_of w MPH in
  let thisItf := interface_at w index in
  let resume := mResume (MPH_init_table G MPH) in
  closure_valid G w self MPH ->
  respects_transition G E index ->
  slot (others_run E w) index = Some INTERFACE_RESUMING_1 ->
  exists w',
    HandleResume G E self MPH w = Done () w' /\
    slot w' index = Some INTERFACE_ADDED /\
    (let evs :=
       [EvLock; EvStoreState index INTERFACE_RESUMING_2; EvUnlock]
       ++ hook_events HookResume MPH resume thisItf
       ++ [EvLock; EvStoreState index INTERFACE_ADDED; EvUnlock]
       ++ callback_events G self MPH SL_RESULT_SUCCESS (dim w') in
     trace w' = trace w ++ evs /\
     lock_discipline 0 evs = true /\
     depth_after 0 evs = 0) /\
    (forall a, in_range thisItf (interface_size G (mClass (object w)) index) a = true ->
       memory w' a = run_hook resume thisItf (memory (others_run E w)) a) /\
    mMutex (object w') = mMutex (object w).
Proof.
  intros index thisItf resume Hvalid Hrely Hslot.
  pose proof (keeps_slot _ _ _ Hrely) as Hkept.
  eexists. split; [apply HandleResume_run_normal; assumption|].
  subst index thisItf resume.
  split; [slot_known|].
  split; [|split].
  - split; [|split].
    + world_simpl. rewrite <- !app_assoc. reflexivity.
    + events_known.
    + events_known.
  - intros a Ha. world_simpl.
    rewrite (keeps_memory _ _ _ Hrely)
      by first [unfold in_transition; slot_in_transition | world_simpl; exact Ha].
    world_simpl. reflexivity.
  - world_simpl. lia.
Qed.

(** X3.  When the worker runs [HandleResume] and finds the slot in
    [INTERFACE_RESUMING_1A], the Resume was cancelled while it was queued:
    no hook is called and memory is left as it is, the slot is set back to
    [INTERFACE_SUSPENDED], and the registered callback, if there is one, is
    called with the result [SL_RESULT_OPERATION_ABORTED]. *)
Theorem HandleResume_cancelled self MPH w :
  let index := index_of w MPH in
  closure_valid G w self MPH ->
  slot (others_run E w) index = Some INTERFACE_RESUMING_1A ->
  exists w',
    HandleResume G E self MPH w = Done () w' /\
    slot w' index = Some INTERFACE_SUSPENDED /\
    (let evs :=
       [EvLock; EvStoreState index INTERFACE_SUSPENDED; EvUnlock]
       ++ callback_events G self MPH SL_RESULT_OPERATION_ABORTED (dim w') in
     trace w' = trace w ++ evs /\
     existsb is_hook_call evs = false /\
     lock_discipline 0 evs = true) /\
    memory w' = memory (others_run E w) /\
    mMutex (object w') = mMutex (object w).
Proof.
  intros index Hvalid Hslot.
  eexists. split; [apply HandleResume_run_aborted; assumption|].
  subst index.
  split; [slot_known|].
  split; [|split].
  - split; [|split].
    + world_simpl. rewrite <- !app_assoc. reflexivity.
    + events_known.
    + events_known.
  - world_simpl. reflexivity.
  - world_simpl. lia.
Qed.

(** The asynchronous operations when the thread pool takes the closure. *)
Lemma AddInterface_run_accepted self iid w :
  let MPH := IID_to_MPH G iid in
  let index := index_of w MPH in
  declares G w iid ->
  slot (others_run E w) index = Some INTERFACE_UNINITIALIZED ->
  enqueue_result E Closure_HandleAdd self MPH (pending E index INTERFACE_ADDING_1 w)
    = SL_RESULT_SUCCESS ->
  IDynamicInterfaceManagement_AddInterface G E self iid true w =
  Done SL_RESULT_SUCCESS (accepted E Closure_HandleAdd self MPH index INTERFACE_ADDING_1 w).
Proof.
  intros MPH index (Hiid & HMPH & Hindex) Hslot Hok. subst MPH index.
  unfold IDynamicInterfaceManagement_AddInterface, index_of in *. unfold_primitives.
  rewrite (not_NULL_eqb _ Hiid). repeat step. rewrite resolved_test by lia.
  repeat step.
  unfold accepted, enqueue_result, pending in *. rewrite Hok. cbn [negb Z.eqb SL_RESULT_SUCCESS].
  repeat step. reflexivity.
Qed.

Lemma ResumeInterface_run_accepted self iid w :
  let MPH := IID_to_MPH G iid in
  let index := index_of w MPH in
  declares G w iid ->
  slot (others_run E w) index = Some INTERFACE_SUSPENDED ->
  enqueue_result E Closure_HandleResume self MPH (pending E index INTERFACE_RESUMING_1 w)
    = SL_RESULT_SUCCESS ->
  IDynamicInterfaceManagement_ResumeInterface G E self iid true w =
  Done SL_RESULT_SUCCESS
    (accepted E Closure_HandleResume self MPH index INTERFACE_RESUMING_1 w).
Proof.
  intros MPH index (Hiid & HMPH & Hindex) Hslot Hok. subst MPH index.
  unfold IDynamicInterfaceManagement_ResumeInterface, index_of in *. unfold_primitives.
  rewrite (not_NULL_eqb _ Hiid). repeat step. rewrite resolved_test by lia.
  repeat step.
  unfold accepted, enqueue_result, pending in *. rewrite Hok. cbn [negb Z.eqb SL_RESULT_SUCCESS].
  repeat step. reflexivity.
Qed.

Lemma slot_do_store_other i j s w :
  0 <= i -> j <> i -> slot (do_store i s w) j = slot w j.
Proof.
  intros Hi Hne. unfold slot, do_store, set_slot; cbn.
  destruct (j <? 0) eqn:Hj; [reflexivity|].
  apply list_lookup_insert_ne. apply Z.ltb_ge in Hj. lia.
Qed.

(** X5.  When the thread pool takes the closure, an asynchronous
    [AddInterface] (an asynchronous [ResumeInterface]) returns
    [SL_RESULT_SUCCESS] with the slot left in [INTERFACE_ADDING_1] (in
    [INTERFACE_RESUMING_1]) for the worker, nothing else written, and the
    closure of [HandleAdd] (of [HandleResume]) handed over with the manager
    and the hash of the interface.  On this path the operation releases the
    mutex after marking the slot and once more at its exit, without taking
    it in between: it ends one release below the depth it started with. *)
Theorem asynchronous_operation_accepted self iid w :
  let MPH := IID_to_MPH G iid in
  let index := index_of w MPH in
  declares G w iid ->
  (slot (others_run E w) index = Some INTERFACE_UNINITIALIZED ->
   enqueue_result E Closure_HandleAdd self MPH (pending E index INTERFACE_ADDING_1 w)
     = SL_RESULT_SUCCESS ->
   accepted_as E (IDynamicInterfaceManagement_AddInterface G E self iid true)
     Closure_HandleAdd INTERFACE_ADDING_1 self MPH index w) /\
  (slot (others_run E w) index = Some INTERFACE_SUSPENDED ->
   enqueue_result E Closure_HandleResume self MPH (pending E index INTERFACE_RESUMING_1 w)
     = SL_RESULT_SUCCESS ->
   accepted_as E (IDynamicInterfaceManagement_ResumeInterface G E self iid true)
     Closure_HandleResume INTERFACE_RESUMING_1 self MPH index w).
Proof.
  intros MPH index Hdecl.
  assert (Hindex : 0 <= index) by (destruct Hdecl as (_ & _ & ? & _); assumption).
  subst MPH index.
  split; intros Hslot Hok; unfold accepted_as.
  - eexists. split; [apply AddInterface_run_accepted; assumption|].
    unfold accepted, pending.
    split; [slot_known|]. split.
    { intros j Hj. autorewrite with slot. rewrite slot_do_store_other by assumption.
      apply slot_acquire. }
    repeat split.
    + world_simpl. rewrite <- !app_assoc. reflexivity.
    + world_simpl. lia.
  - eexists. split; [apply ResumeInterface_run_accepted; assumption|].
    unfold accepted, pending.
    split; [slot_known|]. split.
    { intros j Hj. autorewrite with slot. rewrite slot_do_store_other by assumption.
      apply slot_acquire. }
    repeat split.
    + world_simpl. rewrite <- !app_assoc. reflexivity.
    + world_simpl. lia.
Qed.

End Further.

(** ** What holds on every run

    A relation between the world a computation is given and the world it
    leaves holds on every run of a program when it holds for each primitive
    the program is made of. *)

#[global] Instance emits_preorder P : PreOrder (emits P).
Proof.
  split.
  - intros w. exists []. split; [symmetry; apply app_nil_r | reflexivity].
  - intros w1 w2 w3 (evs1 & H1 & HP1) (evs2 & H2 & HP2).
    exists (evs1 ++ evs2). split.
    + rewrite H2, H1, app_assoc. reflexivity.
    + rewrite forallb_app, HP1, HP2. reflexivity.
Qed.

#[global] Instance same_shape_preorder : PreOrder same_shape.
Proof.
  split.
  - intros w. repeat split.
  - intros w1 w2 w3 (H1 & H2 & H3) (H4 & H5 & H6).
    repeat split; congruence.
Qed.

#[global] Instance gotten_within_preorder : PreOrder gotten_within.
Proof.
  split.
  - intros w j H. exact H.
  - intros w1 w2 w3 H12 H23 j H. apply H12, H23, H.
Qed.

#[global] Instance slot_same_preorder j : PreOrder (slot_same j).
Proof.
  split.
  - intros w. reflexivity.
  - intros w1 w2 w3 H12 H23. unfold slot_same in *. congruence.
Qed.

Section Always.

Variable G : Globals.
Variable E : Environment.
Variable R : World -> World -> Prop.
Context `{!PreOrder R}.

Lemma always_mret {A} (a : A) : always R (mret a).
Proof. intros w. reflexivity. Qed.

Lemma always_bind {A B} (m : M A) (k : A -> M B) :
  always R m -> (forall a, always R (k a)) -> always R (m ≫= k).
Proof.
  intros Hm Hk w. specialize (Hm w). unfold mbind, M_bind.
  destruct (m w) as [a w1 | why w1]; cbn in *.
  - etransitivity; [exact Hm | apply Hk].
  - exact Hm.
Qed.

Lemma always_assert b : always R (assert G b).
Proof. intros w. unfold assert. destruct (_ || _); reflexivity. Qed.

Lemma always_get {A} (f : World -> A) : always R (get f).
Proof. intros w. reflexivity. Qed.

Lemma always_load i : always R (load_interfaceState i).
Proof. intros w. unfold load_interfaceState. destruct (slot w i); reflexivity. Qed.

Lemma always_modify f : (forall w, R w (f w)) -> always R (modify f).
Proof. intros H w. apply H. Qed.

Lemma always_store i s :
  (forall w, 0 <= i -> R w (do_store i s w)) -> always R (store_interfaceState i s).
Proof.
  intros H w. unfold store_interfaceState.
  destruct (slot w i) eqn:Hs; [|reflexivity].
  apply H. unfold slot in Hs. destruct (Z.ltb_spec i 0); [discriminate | assumption].
Qed.

Lemma always_ThreadPool_add handler self MPH :
  (forall w r, R w (log (EvThreadPoolAdd handler self MPH r) w)) ->
  always R (ThreadPool_add E handler self MPH).
Proof. intros H w. apply H. Qed.

End Always.

(** The proof that [always R] holds of a program, given a tactic [prim] for
    the changes of the world its primitives make. *)
Ltac always_of prim :=
  repeat first
    [ apply always_mret; solve [typeclasses eauto]
    | apply always_assert; solve [typeclasses eauto]
    | apply always_get; solve [typeclasses eauto]
    | apply always_load; solve [typeclasses eauto]
    | apply always_bind; [solve [typeclasses eauto] | | intros ?]
    | apply always_modify; intros ?; prim
    | apply always_store; [solve [typeclasses eauto] | intros ? ?; prim]
    | apply always_ThreadPool_add; intros ? ?; prim
    | match goal with
      | |- always _ (if ?b then _ else _) => destruct b
      | |- always _ (match ?x with _ => _ end) => destruct x
      end ].

Ltac unfold_program :=
  unfold HandleAdd, HandleResume, IDynamicInterfaceManagement_AddInterface,
    IDynamicInterfaceManagement_RemoveInterface,
    IDynamicInterfaceManagement_ResumeInterface,
    IDynamicInterfaceManagement_RegisterCallback, IDynamicInterfaceManagement_init,
    object_lock_exclusive, object_unlock_exclusive, memset, store_pointer,
    clear_gotten, call, call_callback;
  cbv zeta.

(** Each function of the program keeps a relation that its primitives
    keep.  The slot a function writes is the one of the interface it is
    called for, so the relation has to be kept by the stores to that slot
    only. *)
Ltac to_always :=
  match goal with
  | |- ?R ?w (world_of (?m ?w)) => revert w; refine (_ : always R m)
  end.

Section KeptByProgram.

Variable G : Globals.
Variable E : Environment.
Variable R : World -> World -> Prop.
Context `{!PreOrder R}.

Hypothesis R_acquire : forall w, R w (acquire E w).
Hypothesis R_release : forall w, R w (release w).
Hypothesis R_do_clear_gotten : forall i w, R w (do_clear_gotten i w).
Hypothesis R_do_memset : forall dst c n w, R w (do_memset dst c n w).
Hypothesis R_do_store_pointer : forall dst p w, R w (do_store_pointer G dst p w).
Hypothesis R_enqueue :
  forall handler self MPH r w, R w (log (EvThreadPoolAdd handler self MPH r) w).
Hypothesis R_set_callback : forall callback w, R w (set_callback callback w).
Hypothesis R_set_context : forall context w, R w (set_context context w).

Lemma kept_through_assert {B} b (k : unit -> M B) w :
  R w (world_of (k () w)) -> R w (world_of ((assert G b ≫= k) w)).
Proof.
  intros H. unfold mbind, M_bind, assert. destruct (_ || _); [exact H | reflexivity].
Qed.

Ltac enter_handler Hstore :=
  unfold_program; unfold index_of in Hstore;
  repeat first [apply kept_through_assert | rewrite step_get; cbv beta];
  match goal with
  | |- context [mClass (object ?w)] =>
      generalize dependent (mClass (object w)); generalize (mThis (dim w))
  end;
  intros ? ? Hstore; to_always.

Lemma kept_by_HandleAdd self MPH w :
  (forall s w', 0 <= index_of w MPH -> R w' (do_store (index_of w MPH) s w')) ->
  (forall hook thisItf w', R w' (do_call HookInit MPH hook thisItf w')) ->
  (forall callback context event result iid w',
     R w' (log (EvCallback callback self context event result iid) w')) ->
  R w (world_of (HandleAdd G E self MPH w)).
Proof.
  intros Hstore Hhook Hcallback. enter_handler Hstore.
  always_of ltac:(solve [eauto]).
Qed.

Lemma kept_by_HandleResume self MPH w :
  (forall s w', 0 <= index_of w MPH -> R w' (do_store (index_of w MPH) s w')) ->
  (forall hook thisItf w', R w' (do_call HookResume MPH hook thisItf w')) ->
  (forall callback context event result iid w',
     R w' (log (EvCallback callback self context event result iid) w')) ->
  R w (world_of (HandleResume G E self MPH w)).
Proof.
  intros Hstore Hhook Hcallback. enter_handler Hstore.
  always_of ltac:(solve [eauto]).
Qed.

Ltac enter_operation_at Hstore :=
  unfold_program; unfold index_of in Hstore;
  match goal with
  | |- context [NULL =? ?iid] => destruct (NULL =? iid); [reflexivity|]
  end;
  rewrite !step_get; cbv beta;
  match goal with
  | |- context [if ?b then mret _ else _] => destruct b; [reflexivity|]
  end;
  match goal with
  | |- context [mClass (object ?w)] =>
      generalize dependent (mClass (object w)); generalize (mThis (dim w))
  end;
  intros ? ? Hstore; to_always.

Lemma kept_by_AddInterface self iid async w :
  (forall s w', 0 <= index_of w (IID_to_MPH G iid) ->
                R w' (do_store (index_of w (IID_to_MPH G iid)) s w')) ->
  (forall hook thisItf w', R w' (do_call HookInit (IID_to_MPH G iid) hook thisItf w')) ->
  R w (world_of (IDynamicInterfaceManagement_AddInterface G E self iid async w)).
Proof.
  intros Hstore Hhook. enter_operation_at Hstore.
  always_of ltac:(solve [eauto]).
Qed.

Lemma kept_by_RemoveInterface self iid w :
  (forall s w', 0 <= index_of w (IID_to_MPH G iid) ->
                R w' (do_store (index_of w (IID_to_MPH G iid)) s w')) ->
  (forall hook thisItf w', R w' (do_call HookDeinit (IID_to_MPH G iid) hook thisItf w')) ->
  R w (world_of (IDynamicInterfaceManagement_RemoveInterface G E self iid w)).
Proof.
  intros Hstore Hhook. enter_operation_at Hstore.
  always_of ltac:(solve [eauto]).
Qed.

Lemma kept_by_ResumeInterface self iid async w :
  (forall s w', 0 <= index_of w (IID_to_MPH G iid) ->
                R w' (do_store (index_of w (IID_to_MPH G iid)) s w')) ->
  (forall hook thisItf w', R w' (do_call HookResume (IID_to_MPH G iid) hook thisItf w')) ->
  R w (world_of (IDynamicInterfaceManagement_ResumeInterface G E self iid async w)).
Proof.
  intros Hstore Hhook. enter_operation_at Hstore.
  always_of ltac:(solve [eauto]).
Qed.

Lemma kept_by_RegisterCallback self callback pContext :
  always R (IDynamicInterfaceManagement_RegisterCallback E self callback pContext).
Proof. unfold_program. always_of ltac:(solve [eauto]). Qed.

Lemma kept_by_init self : always R (IDynamicInterfaceManagement_init self).
Proof. unfold_program. always_of ltac:(solve [eauto]). Qed.

End KeptByProgram.

Ltac emits_prim :=
  intros;
  first
    [ eexists; split;
      [ cbn; rewrite ?trace_others_run; reflexivity
      | reflexivity ]
    | exists []; split; [cbn; rewrite app_nil_r; reflexivity | reflexivity] ].

Section EveryRun.

Variable G : Globals.
Variable E : Environment.

(** X6.  No operation calls the callback: on every run of [AddInterface],
    [RemoveInterface], [ResumeInterface] and [RegisterCallback], whatever
    the arguments, the state of the object and the other threads, and also
    when the run stops at an assertion, the thread calls no callback. *)
Theorem operations_never_call_back self iid callback pContext async :
  always (emits not_callback) (IDynamicInterfaceManagement_AddInterface G E self iid async) /\
  always (emits not_callback) (IDynamicInterfaceManagement_RemoveInterface G E self iid) /\
  always (emits not_callback) (IDynamicInterfaceManagement_ResumeInterface G E self iid async) /\
  always (emits not_callback)
    (IDynamicInterfaceManagement_RegisterCallback E self callback pContext).
Proof.
  repeat apply conj.
  - intros w. apply kept_by_AddInterface; try typeclasses eauto; emits_prim.
  - intros w. apply kept_by_RemoveInterface; try typeclasses eauto; emits_prim.
  - intros w. apply kept_by_ResumeInterface; try typeclasses eauto; emits_prim.
  - apply kept_by_RegisterCallback; try typeclasses eauto; emits_prim.
Qed.






Lemma gotten_within_do_clear_gotten i w : gotten_within w (do_clear_gotten i w).
Proof.
  intros j H. cbn in H. rewrite Z.land_spec in H.
  apply andb_true_iff in H. apply H.
Qed.

Ltac gotten_prim Hnever :=
  first [ exact Hnever
        | apply gotten_within_do_clear_gotten
        | intros; intros ? Hbit; exact Hbit ].

(** X9.  No function of the manager sets a bit of the mask of gotten
    interfaces: when the other threads set none while the mutex is free,
    every bit set after a run of a handler, of an operation, of
    [RegisterCallback] or of the initialisation was set before it.  Only
    [RemoveInterface] writes the mask, and it clears. *)
Theorem gotten_mask_never_grows self iid MPH callback pContext async :
  never_sets_gotten E ->
  always gotten_within (HandleAdd G E self MPH) /\
  always gotten_within (HandleResume G E self MPH) /\
  always gotten_within (IDynamicInterfaceManagement_AddInterface G E self iid async) /\
  always gotten_within (IDynamicInterfaceManagement_RemoveInterface G E self iid) /\
  always gotten_within (IDynamicInterfaceManagement_ResumeInterface G E self iid async) /\
  always gotten_within
    (IDynamicInterfaceManagement_RegisterCallback E self callback pContext) /\
  always gotten_within (IDynamicInterfaceManagement_init self).
Proof.
  intros Hnever.
  assert (Hacquire : forall w, gotten_within w (acquire E w)) by exact Hnever.
  repeat apply conj.
  - intros w. apply kept_by_HandleAdd; try typeclasses eauto; gotten_prim Hacquire.
  - intros w. apply kept_by_HandleResume; try typeclasses eauto; gotten_prim Hacquire.
  - intros w. apply kept_by_AddInterface; try typeclasses eauto; gotten_prim Hacquire.
  - intros w. apply kept_by_RemoveInterface; try typeclasses eauto; gotten_prim Hacquire.
  - intros w. apply kept_by_ResumeInterface; try typeclasses eauto; gotten_prim Hacquire.
  - apply kept_by_RegisterCallback; try typeclasses eauto; gotten_prim Hacquire.
  - apply kept_by_init; try typeclasses eauto; gotten_prim Hacquire.
Qed.

Ltac slot_same_prim Hleaves Hne :=
  first [ exact Hleaves
        | intros; apply slot_do_store_other; [assumption | exact Hne]
        | intros; reflexivity ].

(** X10.  A function writes the slot of the interface it is called for
    and no other: when the other threads leave slot [j] alone, and [j] is
    not the slot of the interface, slot [j] is after every run of an
    operation or of a handler as it was before. *)
Theorem other_slots_untouched self iid MPH async j w :
  leaves_slot E j ->
  (j <> index_of w (IID_to_MPH G iid) ->
   slot (world_of (IDynamicInterfaceManagement_AddInterface G E self iid async w)) j =
     slot w j /\
   slot (world_of (IDynamicInterfaceManagement_RemoveInterface G E self iid w)) j =
     slot w j /\
   slot (world_of (IDynamicInterfaceManagement_ResumeInterface G E self iid async w)) j =
     slot w j) /\
  (j <> index_of w MPH ->
   slot (world_of (HandleAdd G E self MPH w)) j = slot w j /\
   slot (world_of (HandleResume G E self MPH w)) j = slot w j).
Proof.
  intros Hleaves.
  assert (Hacquire : forall w0, slot_same j w0 (acquire E w0)) by exact Hleaves.
  split; intros Hne; repeat apply conj.
  - apply (kept_by_AddInterface G E (slot_same j)); try typeclasses eauto;
      slot_same_prim Hacquire Hne.
  - apply (kept_by_RemoveInterface G E (slot_same j)); try typeclasses eauto;
      slot_same_prim Hacquire Hne.
  - apply (kept_by_ResumeInterface G E (slot_same j)); try typeclasses eauto;
      slot_same_prim Hacquire Hne.
  - apply (kept_by_HandleAdd G E (slot_same j)); try typeclasses eauto;
      slot_same_prim Hacquire Hne.
  - apply (kept_by_HandleResume G E (slot_same j)); try typeclasses eauto;
      slot_same_prim Hacquire Hne.
Qed.

End EveryRun.

(** ** How the functions compose *)

Section Compositions.

Variable G : Globals.
Variable E : Environment.

Lemma RegisterCallback_run self callback pContext w :
  IDynamicInterfaceManagement_RegisterCallback E self callback pContext w =
  Done SL_RESULT_SUCCESS
    (release (set_context pContext (set_callback callback (acquire E w)))).
Proof. reflexivity. Qed.

Lemma leaves_slot_kept index : leaves_slot E index -> slot_kept E index.
Proof. intros H w _. apply H. Qed.

Lemma slot_worker_world w i : slot (worker_world w) i = slot w i.
Proof. reflexivity. Qed.

Lemma index_of_worker_world w MPH : index_of (worker_world w) MPH = index_of w MPH.
Proof. reflexivity. Qed.

(** X11.  [RegisterCallback] succeeds in every state of the object: it
    takes and releases the mutex once, sets the callback and the context,
    and leaves the slots, the mask and memory as it found them under the
    mutex.  A second registration replaces the first. *)
Theorem RegisterCallback_registers self callback pContext callback' pContext' w :
  (exists w',
     IDynamicInterfaceManagement_RegisterCallback E self callback pContext w =
       Done SL_RESULT_SUCCESS w' /\
     mCallback (dim w') = callback /\
     mContext (dim w') = pContext /\
     mThis (dim w') = mThis (dim w) /\
     mInterfaceStates (object w') = mInterfaceStates (object (others_run E w)) /\
     mGottenMask (object w') = mGottenMask (object (others_run E w)) /\
     memory w' = memory (others_run E w) /\
     trace w' = trace w ++ [EvLock; EvUnlock] /\
     mMutex (object w') = mMutex (object w)) /\
  (exists w'',
     then_op (IDynamicInterfaceManagement_RegisterCallback E self callback pContext)
             (IDynamicInterfaceManagement_RegisterCallback E self callback' pContext') w =
       Done (SL_RESULT_SUCCESS, SL_RESULT_SUCCESS) w'' /\
     mCallback (dim w'') = callback' /\
     mContext (dim w'') = pContext').
Proof.
  split.
  - eexists. split; [apply RegisterCallback_run|].
    repeat apply conj; try reflexivity.
    + cbn. rewrite trace_others_run, <- !app_assoc. reflexivity.
    + cbn. rewrite mMutex_others_run. lia.
  - eexists. split; [reflexivity|]. split; reflexivity.
Qed.

(** X12.  The callback a worker calls is the one registered: after
    [RegisterCallback], a worker that runs [HandleAdd] and finds the slot
    in [INTERFACE_ADDING_1] completes the Add and calls exactly the
    registered callback with the registered context, the manager, the
    result [SL_RESULT_SUCCESS] and the interface ID of the slot; after the
    registration of NULL it calls nothing.  No other thread registers or
    works on the slot in between. *)
Theorem registered_callback_is_called self callback pContext MPH w :
  let index := index_of w MPH in
  let thisItf := interface_at w index in
  closure_valid G w self MPH ->
  leaves_slot E index ->
  keeps_registration E ->
  slot w index = Some INTERFACE_ADDING_1 ->
  exists w',
    register_then_handle E (HandleAdd G E) self callback pContext MPH w = Done () w' /\
    slot w' index = Some INTERFACE_ADDED /\
    trace w' =
      [EvLock; EvStoreState index INTERFACE_ADDING_2; EvUnlock;
       EvMemset thisItf 0 (interface_size G (mClass (object w)) index);
       EvStorePointer (thisItf + 1 * sizeof_pointer G) (mThis (dim w))]
      ++ hook_events HookInit MPH (mInit (MPH_init_table G MPH)) thisItf
      ++ [EvLock; EvStoreState index INTERFACE_ADDED; EvUnlock]
      ++ (if callback =? NULL then []
          else [EvCallback callback self pContext SL_DYNAMIC_ITF_EVENT_ASYNC_TERMINATION
                  SL_RESULT_SUCCESS (SL_IID_array G + MPH * sizeof_SLInterfaceID)]).
Proof.
  intros index thisItf (Hself & Hthis & HMPH & Hindex) Hleaves Hkeeps Hslot.
  pose proof (leaves_slot_kept _ Hleaves) as Hkept.
  subst index thisItf.
  unfold register_then_handle. rewrite RegisterCallback_run.
  set (w1 := worker_world _).
  assert (Hclass : mClass (object w1) = mClass (object w)) by reflexivity.
  assert (Hthis1 : mThis (dim w1) = mThis (dim w)) by reflexivity.
  assert (Hindex1 : index_of w1 MPH = index_of w MPH) by reflexivity.
  assert (Hslot1 : slot w1 (index_of w MPH) = Some INTERFACE_ADDING_1).
  { subst w1. rewrite slot_worker_world. autorewrite with slot.
    change (slot (others_run E w) (index_of w MPH) = Some INTERFACE_ADDING_1).
    rewrite Hleaves. exact Hslot. }
  assert (Hcb1 : mCallback (dim w1) = callback) by reflexivity.
  assert (Hctx1 : mContext (dim w1) = pContext) by reflexivity.
  assert (Htrace1 : trace w1 = []) by reflexivity.
  clearbody w1.
  eexists. split.
  { apply HandleAdd_run_normal.
    - unfold closure_valid. rewrite Hthis1, Hindex1, Hclass. auto.
    - rewrite Hindex1. exact Hkept.
    - rewrite Hindex1, Hleaves. exact Hslot1. }
  rewrite Hindex1.
  split; [slot_known|].
  rewrite trace_notify. unfold callback_events.
  destruct (Hkeeps w1) as [Hk1 Hk2].
  assert (Hdim : forall w0, mCallback (dim (others_run E w0)) = mCallback (dim w0) /\
                            mContext (dim (others_run E w0)) = mContext (dim w0))
    by exact Hkeeps.
  world_simpl.
  rewrite !(proj1 (Hdim _)), !(proj2 (Hdim _)). world_simpl.
  rewrite !(proj1 (Hdim _)), !(proj2 (Hdim _)).
  rewrite Hcb1, Hctx1, Htrace1, Hthis1, Hclass.
  cbn. rewrite <- !app_assoc. reflexivity.
Qed.

(** X13.  The initialisation of the manager leaves no callback
    registered: whatever was registered before, a worker that runs
    [HandleResume] after it and finds the slot in [INTERFACE_RESUMING_1A]
    sets the slot back to [INTERFACE_SUSPENDED] and calls nothing. *)
Theorem init_disables_callback self MPH w :
  let index := index_of w MPH in
  closure_valid G w self MPH ->
  leaves_slot E index ->
  keeps_registration E ->
  slot w index = Some INTERFACE_RESUMING_1A ->
  exists w',
    init_then_handle (HandleResume G E) self MPH w = Done () w' /\
    slot w' index = Some INTERFACE_SUSPENDED /\
    trace w' = [EvLock; EvStoreState index INTERFACE_SUSPENDED; EvUnlock].
Proof.
  intros index (Hself & Hthis & HMPH & Hindex) Hleaves Hkeeps Hslot.
  subst index.
  unfold init_then_handle.
  change (IDynamicInterfaceManagement_init self w)
    with (Done () (set_context NULL (set_callback NULL w))).
  cbv beta iota.
  set (w1 := worker_world _).
  assert (Hclass : mClass (object w1) = mClass (object w)) by reflexivity.
  assert (Hthis1 : mThis (dim w1) = mThis (dim w)) by reflexivity.
  assert (Hindex1 : index_of w1 MPH = index_of w MPH) by reflexivity.
  assert (Hslot1 : slot w1 (index_of w MPH) = Some INTERFACE_RESUMING_1A) by exact Hslot.
  assert (Hcb1 : mCallback (dim w1) = NULL) by reflexivity.
  assert (Htrace1 : trace w1 = []) by reflexivity.
  clearbody w1.
  eexists. split.
  { apply HandleResume_run_aborted.
    - unfold closure_valid. rewrite Hthis1, Hindex1, Hclass. auto.
    - rewrite Hindex1, Hleaves. exact Hslot1. }
  rewrite Hindex1.
  split; [slot_known|].
  rewrite trace_notify. unfold callback_events.
  world_simpl. rewrite (proj1 (Hkeeps _)), Hcb1, Htrace1.
  reflexivity.
Qed.

Lemma In_accepted handler self MPH index pending1 w :
  In (EvThreadPoolAdd handler self MPH SL_RESULT_SUCCESS)
     (trace (accepted E handler self MPH index pending1 w)).
Proof.
  unfold accepted, pending. cbn. rewrite trace_others_run.
  rewrite <- !app_assoc. apply in_or_app. right. cbn. auto.
Qed.

(** X14.  An accepted asynchronous operation is completed by the worker:
    when the thread pool takes the closure of an asynchronous
    [AddInterface] (of an asynchronous [ResumeInterface]) on a slot in
    [INTERFACE_UNINITIALIZED] (in [INTERFACE_SUSPENDED]), and a worker then
    runs that closure while no other thread works on the slot, the worker
    finds the slot as the operation left it, initialises (resumes) the
    interface in the object, leaves the slot in [INTERFACE_ADDED] and
    reports [SL_RESULT_SUCCESS] to the callback registered by then. *)
Theorem asynchronous_operation_completes self iid w :
  let MPH := IID_to_MPH G iid in
  let index := index_of w MPH in
  let thisItf := interface_at w index in
  declares G w iid ->
  self <> NULL -> mThis (dim w) <> NULL -> MPH < MPH_MAX G ->
  leaves_slot E index ->
  (slot w index = Some INTERFACE_UNINITIALIZED ->
   enqueue_result E Closure_HandleAdd self MPH (pending E index INTERFACE_ADDING_1 w)
     = SL_RESULT_SUCCESS ->
   completes_with G E (IDynamicInterfaceManagement_AddInterface G E self iid true)
     Closure_HandleAdd self MPH index INTERFACE_ADDING_2
     ([EvMemset thisItf 0 (interface_size G (mClass (object w)) index);
       EvStorePointer (thisItf + 1 * sizeof_pointer G) (mThis (dim w))]
      ++ hook_events HookInit MPH (mInit (MPH_init_table G MPH)) thisItf) w) /\
  (slot w index = Some INTERFACE_SUSPENDED ->
   enqueue_result E Closure_HandleResume self MPH (pending E index INTERFACE_RESUMING_1 w)
     = SL_RESULT_SUCCESS ->
   completes_with G E (IDynamicInterfaceManagement_ResumeInterface G E self iid true)
     Closure_HandleResume self MPH index INTERFACE_RESUMING_2
     (hook_events HookResume MPH (mResume (MPH_init_table G MPH)) thisItf) w).
Proof.
  intros MPH index thisItf Hdecl Hself Hthis HMPH Hleaves.
  pose proof (leaves_slot_kept _ Hleaves) as Hkept.
  destruct Hdecl as (Hiid & HMPH0 & Hindex).
  subst MPH index thisItf.
  split; intros Hslot Hok; unfold completes_with;
    match goal with
    | |- exists w1 w2, _ /\ _ /\ _ /\ _ /\ trace w2 = ?t =>
        pose (trace_goal := fun w2 : World => t)
    end.
  - assert (Hworker : exists w2,
              HandleAdd G E self (IID_to_MPH G iid)
                (worker_world (accepted E Closure_HandleAdd self (IID_to_MPH G iid)
                                 (index_of w (IID_to_MPH G iid)) INTERFACE_ADDING_1 w)) = Done () w2 /\
              slot w2 (index_of w (IID_to_MPH G iid)) = Some INTERFACE_ADDED /\
              trace w2 = trace_goal w2).
    { set (w1 := worker_world _).
      assert (Hclass : mClass (object w1) = mClass (object w)) by reflexivity.
      assert (Hthis1 : mThis (dim w1) = mThis (dim w)) by reflexivity.
      assert (Hindex1 : index_of w1 (IID_to_MPH G iid) = index_of w (IID_to_MPH G iid))
        by reflexivity.
      assert (Hslot1 : slot w1 (index_of w (IID_to_MPH G iid)) = Some INTERFACE_ADDING_1).
      { subst w1. rewrite slot_worker_world. unfold accepted, pending. slot_known. }
      assert (Htrace1 : trace w1 = []) by reflexivity.
      clearbody w1.
      eexists. split.
      { apply HandleAdd_run_normal.
        - unfold closure_valid. rewrite Hthis1, Hindex1, Hclass.
          split; [exact Hself | split; [exact Hthis | split; [lia | exact Hindex]]].
        - rewrite Hindex1. exact Hkept.
        - rewrite Hindex1, Hleaves. exact Hslot1. }
      rewrite Hindex1.
      split; [slot_known|].
      subst trace_goal. world_simpl. rewrite Htrace1, Hthis1, Hclass.
      cbn. rewrite <- !app_assoc. reflexivity. }
    destruct Hworker as (w2 & Hrun & Hadded & Htrace).
    eexists. exists w2.
    split; [apply AddInterface_run_accepted;
            [exact (conj Hiid (conj HMPH0 Hindex)) | rewrite Hleaves; exact Hslot | exact Hok]|].
    split; [apply In_accepted|].
    split; [exact Hrun|]. split; [exact Hadded | exact Htrace].
  - assert (Hworker : exists w2,
              HandleResume G E self (IID_to_MPH G iid)
                (worker_world (accepted E Closure_HandleResume self (IID_to_MPH G iid)
                                 (index_of w (IID_to_MPH G iid)) INTERFACE_RESUMING_1 w)) = Done () w2 /\
              slot w2 (index_of w (IID_to_MPH G iid)) = Some INTERFACE_ADDED /\
              trace w2 = trace_goal w2).
    { set (w1 := worker_world _).
      assert (Hclass : mClass (object w1) = mClass (object w)) by reflexivity.
      assert (Hthis1 : mThis (dim w1) = mThis (dim w)) by reflexivity.
      assert (Hindex1 : index_of w1 (IID_to_MPH G iid) = index_of w (IID_to_MPH G iid))
        by reflexivity.
      assert (Hslot1 : slot w1 (index_of w (IID_to_MPH G iid)) = Some INTERFACE_RESUMING_1).
      { subst w1. rewrite slot_worker_world. unfold accepted, pending. slot_known. }
      assert (Htrace1 : trace w1 = []) by reflexivity.
      clearbody w1.
      eexists. split.
      { apply HandleResume_run_normal.
        - unfold closure_valid. rewrite Hthis1, Hindex1, Hclass.
          split; [exact Hself | split; [exact Hthis | split; [lia | exact Hindex]]].
        - rewrite Hindex1. exact Hkept.
        - rewrite Hindex1, Hleaves. exact Hslot1. }
      rewrite Hindex1.
      split; [slot_known|].
      subst trace_goal. world_simpl. rewrite Htrace1, Hthis1, Hclass.
      cbn. rewrite <- !app_assoc. reflexivity. }
    destruct Hworker as (w2 & Hrun & Hadded & Htrace).
    eexists. exists w2.
    split; [apply ResumeInterface_run_accepted;
            [exact (conj Hiid (conj HMPH0 Hindex)) | rewrite Hleaves; exact Hslot | exact Hok]|].
    split; [apply In_accepted|].
    split; [exact Hrun|]. split; [exact Hadded | exact Htrace].
Qed.

End Compositions.

(** ** The discipline of the mutex on every run *)

Lemma lock_discipline_app held evs1 evs2 :
  lock_discipline held (evs1 ++ evs2) =
  lock_discipline held evs1 && lock_discipline (depth_after held evs1) evs2.
Proof.
  revert held. induction evs1 as [|e evs1 IH]; intros held; [reflexivity|].
  destruct e; cbn; rewrite ?IH, ?andb_assoc; reflexivity.
Qed.

Lemma depth_after_app held evs1 evs2 :
  depth_after held (evs1 ++ evs2) = depth_after (depth_after held evs1) evs2.
Proof.
  revert held. induction evs1 as [|e evs1 IH]; intros held; [reflexivity|].
  destruct e; cbn; apply IH.
Qed.

Section Discipline.

Variable G : Globals.
Variable E : Environment.

Lemma disciplined_mret {A} held (Q : A -> Z -> Prop) a :
  Q a held -> disciplined held Q (mret a).
Proof.
  intros HQ w Hw. exists []. cbn. rewrite app_nil_r. auto.
Qed.

Lemma disciplined_end {A} held (Q : A -> Z -> Prop) (m : M A) :
  disciplined held Q (m ≫= mret) -> disciplined held Q m.
Proof.
  intros H w Hw. specialize (H w Hw). unfold mbind, M_bind, mret, M_ret in H.
  destruct (m w); exact H.
Qed.

Lemma disciplined_assoc {A B C} held (Q : C -> Z -> Prop)
    (m : M A) (f : A -> M B) (k : B -> M C) :
  disciplined held Q (m ≫= (fun a => f a ≫= k)) -> disciplined held Q ((m ≫= f) ≫= k).
Proof.
  intros H w Hw. specialize (H w Hw). unfold mbind, M_bind in *.
  destruct (m w); exact H.
Qed.

Lemma disciplined_mret_bind {A B} held (Q : B -> Z -> Prop) (a : A) (k : A -> M B) :
  disciplined held Q (k a) -> disciplined held Q (mret a ≫= k).
Proof. intros H. exact H. Qed.

Lemma disciplined_stopped {A} held (Q : A -> Z -> Prop) (m : M A) why w :
  mMutex (object w) = held -> m w = Stopped why w ->
  exists evs,
    trace (world_of (m w)) = trace w ++ evs /\
    lock_discipline held evs = true /\
    mMutex (object (world_of (m w))) = depth_after held evs /\
    match m w with
    | Done a _ => Q a (depth_after held evs)
    | Stopped _ _ => True
    end.
Proof.
  intros Hw ->. exists []. cbn. rewrite app_nil_r. auto.
Qed.

Lemma disciplined_assert_bind {B} held (Q : B -> Z -> Prop) b (k : unit -> M B) :
  disciplined held Q (k ()) -> disciplined held Q (assert G b ≫= k).
Proof.
  intros Hk w Hw. unfold mbind, M_bind, assert.
  destruct (_ || _) eqn:Hb.
  - apply Hk, Hw.
  - exists []. cbn. rewrite app_nil_r. auto.
Qed.

Lemma disciplined_get_bind {A B} held (Q : B -> Z -> Prop) (f : World -> A) (k : A -> M B) :
  (forall a, disciplined held Q (k a)) -> disciplined held Q (get f ≫= k).
Proof. intros Hk w Hw. apply Hk, Hw. Qed.

Lemma disciplined_load_bind {B} held (Q : B -> Z -> Prop) i (k : InterfaceState -> M B) :
  (forall s, disciplined held Q (k s)) -> disciplined held Q (load_interfaceState i ≫= k).
Proof.
  intros Hk w Hw. unfold mbind, M_bind, load_interfaceState.
  destruct (slot w i).
  - apply Hk, Hw.
  - exists []. cbn. rewrite app_nil_r. auto.
Qed.

Lemma disciplined_modify_bind {B} held (Q : B -> Z -> Prop) f evs (k : unit -> M B) :
  (forall w, trace (f w) = trace w ++ evs /\
             mMutex (object (f w)) = depth_after (mMutex (object w)) evs) ->
  lock_discipline held evs = true ->
  disciplined (depth_after held evs) Q (k ()) ->
  disciplined held Q (modify f ≫= k).
Proof.
  intros Hf Hl Hk w Hw. destruct (Hf w) as [Ht Hm].
  destruct (Hk (f w)) as (evs2 & Ht2 & Hl2 & Hm2 & HQ); [rewrite Hm, Hw; reflexivity|].
  change ((modify f ≫= k) w) with (k () (f w)).
  exists (evs ++ evs2).
  rewrite Ht2, Ht, app_assoc, lock_discipline_app, Hl, Hl2, Hm2, depth_after_app.
  repeat split. exact HQ.
Qed.

Lemma disciplined_silent_bind {B} held (Q : B -> Z -> Prop) f (k : unit -> M B) :
  (forall w, trace (f w) = trace w /\ mMutex (object (f w)) = mMutex (object w)) ->
  disciplined held Q (k ()) ->
  disciplined held Q (modify f ≫= k).
Proof.
  intros Hf Hk. apply (disciplined_modify_bind held Q f []); [|reflexivity|exact Hk].
  intros w. destruct (Hf w) as [-> ->]. rewrite app_nil_r. split; reflexivity.
Qed.

Lemma disciplined_store_bind {B} held (Q : B -> Z -> Prop) i s (k : unit -> M B) :
  held = 1 ->
  disciplined 1 Q (k ()) ->
  disciplined held Q (store_interfaceState i s ≫= k).
Proof.
  intros -> Hk w Hw. unfold mbind, M_bind, store_interfaceState.
  destruct (slot w i).
  - destruct (Hk (do_store i s w)) as (evs & Ht & Hl & Hm & HQ); [exact Hw|].
    exists (EvStoreState i s :: evs).
    rewrite Ht, Hm. cbn. rewrite <- app_assoc. repeat split; [exact Hl | exact HQ].
  - exists []. cbn. rewrite app_nil_r. auto.
Qed.

Lemma disciplined_ThreadPool_add_bind {B} held (Q : B -> Z -> Prop) handler self MPH
    (k : SLresult -> M B) :
  held = 0 ->
  (forall r, disciplined 0 Q (k r)) ->
  disciplined held Q (ThreadPool_add E handler self MPH ≫= k).
Proof.
  intros -> Hk w Hw. unfold mbind, M_bind, ThreadPool_add.
  set (r := ThreadPool_add_result E w handler self MPH).
  destruct (Hk r (log (EvThreadPoolAdd handler self MPH r) w))
    as (evs & Ht & Hl & Hm & HQ); [exact Hw|].
  exists (EvThreadPoolAdd handler self MPH r :: evs).
  rewrite Ht, Hm. cbn. rewrite <- app_assoc. repeat split; [exact Hl | exact HQ].
Qed.

End Discipline.

Ltac modify_known :=
  intros ?; split;
  [ cbn; rewrite ?trace_others_run; reflexivity
  | cbn; rewrite ?mMutex_others_run; reflexivity ].

(** The proof that a program follows the discipline of the mutex, along
    each of its paths; [fin] proves what is claimed of the depth at the
    end of a path. *)
Ltac discipline fin :=
  repeat
    (cbv beta iota;
     lazymatch goal with
     | |- disciplined _ _ ((_ ≫= _) ≫= _) => apply disciplined_assoc
     | |- disciplined _ _ (mret _ ≫= _) => apply disciplined_mret_bind
     | |- disciplined _ _ (mret _) => apply disciplined_mret; fin
     | |- disciplined _ _ (assert _ _ ≫= _) => apply disciplined_assert_bind
     | |- disciplined _ _ (get _ ≫= _) => apply disciplined_get_bind; intros ?
     | |- disciplined _ _ (load_interfaceState _ ≫= _) =>
         apply disciplined_load_bind; intros ?
     | |- disciplined _ _ (store_interfaceState _ _ ≫= _) =>
         apply disciplined_store_bind; [reflexivity|]
     | |- disciplined _ _ (ThreadPool_add _ _ _ _ ≫= _) =>
         apply disciplined_ThreadPool_add_bind; [reflexivity | intros ?]
     | |- disciplined _ _ (modify _ ≫= _) =>
         first
           [ eapply disciplined_modify_bind;
             [modify_known | reflexivity | cbn [depth_after]]
           | apply disciplined_silent_bind; [intros ?; split; reflexivity|] ]
     | |- disciplined _ _ ((if negb (?a =? ?b) then _ else _) ≫= _) =>
         destruct (Z.eqb_spec a b); cbn [negb]
     | |- disciplined _ _ ((if ?b then _ else _) ≫= _) => destruct b eqn:?
     | |- disciplined _ _ ((match ?x with _ => _ end) ≫= _) => destruct x
     end).

(** What is claimed of the depth at the end of a path, when it depends on
    the result and on the mode of the operation. *)
Ltac depth_known :=
  unfold SL_RESULT_SUCCESS, SL_RESULT_PRECONDITIONS_VIOLATED, SL_RESULT_PARAMETER_INVALID,
    SL_RESULT_FEATURE_UNSUPPORTED in *;
  repeat match goal with
         | |- context [?r =? 0] => destruct (Z.eqb_spec r 0)
         | |- context [if ?b then _ else _] => is_var b; destruct b
         | |- context [?b && _] => is_var b; destruct b
         end;
  cbn; repeat split; intros; try discriminate; try congruence; try lia.

Section DisciplineOfProgram.

Variable G : Globals.
Variable E : Environment.

(** X15.  Every function follows the discipline of the mutex on every
    run that starts with the mutex not held, whatever the arguments, the
    state of the object and the other threads, and as far as the run goes
    when it stops: a slot and the mask are written with the mutex held
    once, and the hooks, the callback, the thread pool and the work on
    memory are called with the mutex not held.  The two handlers,
    [RemoveInterface], [RegisterCallback] and the initialisation return
    with the mutex not held.  [AddInterface] returns one release too deep
    exactly when it is asynchronous and returns [SL_RESULT_SUCCESS];
    [ResumeInterface] returns with the mutex not held or one release too
    deep, and when it returns [SL_RESULT_SUCCESS], one release too deep
    exactly when it is asynchronous. *)
Theorem mutex_discipline self iid MPH callback pContext async :
  disciplined 0 (fun _ d => d = 0) (HandleAdd G E self MPH) /\
  disciplined 0 (fun _ d => d = 0) (HandleResume G E self MPH) /\
  disciplined 0 (fun r d => d = if async && (r =? SL_RESULT_SUCCESS) then -1 else 0)
    (IDynamicInterfaceManagement_AddInterface G E self iid async) /\
  disciplined 0 (fun _ d => d = 0) (IDynamicInterfaceManagement_RemoveInterface G E self iid) /\
  disciplined 0 (fun r d => (d = 0 \/ d = -1) /\
                            (r = SL_RESULT_SUCCESS -> d = if async then -1 else 0))
    (IDynamicInterfaceManagement_ResumeInterface G E self iid async) /\
  disciplined 0 (fun _ d => d = 0)
    (IDynamicInterfaceManagement_RegisterCallback E self callback pContext) /\
  disciplined 0 (fun _ d => d = 0) (IDynamicInterfaceManagement_init self).
Proof.
  repeat apply conj; apply disciplined_end; unfold_program.
  - discipline ltac:(reflexivity).
  - discipline ltac:(reflexivity).
  - discipline ltac:(depth_known).
  - discipline ltac:(reflexivity).
  - discipline ltac:(depth_known).
  - discipline ltac:(reflexivity).
  - discipline ltac:(reflexivity).
Qed.

End DisciplineOfProgram.

(** ** Exclusion, the mask, and the arguments of a closure *)

Section Exclusion.

Variable G : Globals.
Variable E : Environment.

(** X16.  While an asynchronous Add is queued, the interface is closed
    to the operations: after an asynchronous [AddInterface] that the thread
    pool accepted, a second [AddInterface], a [RemoveInterface] and a
    [ResumeInterface] of the same interface each return
    [SL_RESULT_PRECONDITIONS_VIOLATED] and leave the slot in
    [INTERFACE_ADDING_1] for the worker, when no other thread changes the
    slot in between. *)
Theorem pending_add_blocks_operations self iid async w :
  let MPH := IID_to_MPH G iid in
  let index := index_of w MPH in
  let add := IDynamicInterfaceManagement_AddInterface G E self iid true in
  declares G w iid ->
  leaves_slot E index ->
  slot w index = Some INTERFACE_UNINITIALIZED ->
  enqueue_result E Closure_HandleAdd self MPH (pending E index INTERFACE_ADDING_1 w)
    = SL_RESULT_SUCCESS ->
  (exists w',
     then_op add (IDynamicInterfaceManagement_AddInterface G E self iid async) w =
       Done (SL_RESULT_SUCCESS, SL_RESULT_PRECONDITIONS_VIOLATED) w' /\
     slot w' index = Some INTERFACE_ADDING_1) /\
  (exists w',
     then_op add (IDynamicInterfaceManagement_RemoveInterface G E self iid) w =
       Done (SL_RESULT_SUCCESS, SL_RESULT_PRECONDITIONS_VIOLATED) w' /\
     slot w' index = Some INTERFACE_ADDING_1) /\
  (exists w',
     then_op add (IDynamicInterfaceManagement_ResumeInterface G E self iid async) w =
       Done (SL_RESULT_SUCCESS, SL_RESULT_PRECONDITIONS_VIOLATED) w' /\
     slot w' index = Some INTERFACE_ADDING_1).
Proof.
  intros MPH index add Hdecl Hleaves Hslot Hok. subst MPH index add.
  assert (Hindex : 0 <= index_of w (IID_to_MPH G iid))
    by (destruct Hdecl as (_ & _ & ? & _); assumption).
  assert (Hrun : IDynamicInterfaceManagement_AddInterface G E self iid true w =
                 Done SL_RESULT_SUCCESS
                   (accepted E Closure_HandleAdd self (IID_to_MPH G iid)
                      (index_of w (IID_to_MPH G iid)) INTERFACE_ADDING_1 w)).
  { apply AddInterface_run_accepted; [exact Hdecl | rewrite Hleaves; exact Hslot | exact Hok]. }
  set (w1 := accepted _ _ _ _ _ _ _) in Hrun.
  assert (Hdecl1 : declares G w1 iid) by exact Hdecl.
  assert (Hindex1 : index_of w1 (IID_to_MPH G iid) = index_of w (IID_to_MPH G iid))
    by reflexivity.
  assert (Hslot1 : slot (others_run E w1) (index_of w1 (IID_to_MPH G iid)) =
                   Some INTERFACE_ADDING_1).
  { rewrite Hindex1, Hleaves. subst w1. unfold accepted, pending. slot_known. }
  assert (Hafter : slot (release (acquire E w1)) (index_of w (IID_to_MPH G iid)) =
                   Some INTERFACE_ADDING_1).
  { autorewrite with slot. rewrite <- Hindex1. exact Hslot1. }
  clearbody w1. unfold then_op.
  split; [|split].
  - erewrite step_run by exact Hrun.
    erewrite step_run
      by (eapply AddInterface_run_guard; [exact Hdecl1 | exact Hslot1 | discriminate]).
    eexists. split; [reflexivity | exact Hafter].
  - erewrite step_run by exact Hrun.
    erewrite step_run
      by (eapply RemoveInterface_run_guard;
          [exact Hdecl1 | exact Hslot1 | discriminate | discriminate]).
    eexists. split; [reflexivity | exact Hafter].
  - erewrite step_run by exact Hrun.
    erewrite step_run
      by (eapply ResumeInterface_run_guard; [exact Hdecl1 | exact Hslot1 | discriminate]).
    eexists. split; [reflexivity|]. autorewrite with slot.
    rewrite <- Hindex1. exact Hslot1.
Qed.


(** X18.  In a build with assertions a handler checks the arguments of
    its closure before it touches the object: when the manager is NULL, or
    points back to no object, or the hash is out of range, or the class has
    no slot for it, [HandleAdd] and [HandleResume] stop at an assertion with
    the world as they found it, the mutex not taken. *)
Theorem handlers_check_arguments self MPH w :
  NDEBUG G = false ->
  ~ closure_valid G w self MPH ->
  HandleAdd G E self MPH w = Stopped AssertionFailed w /\
  HandleResume G E self MPH w = Stopped AssertionFailed w.
Proof.
  intros Hdebug Hinvalid. unfold closure_valid, index_of in Hinvalid.
  split; [unfold HandleAdd | unfold HandleResume];
    unfold mbind, M_bind, assert, get; rewrite Hdebug; cbn [orb];
    (destruct (Z.eqb_spec self NULL); [reflexivity|]); cbn [negb];
    (destruct (Z.eqb_spec (mThis (dim w)) NULL); [reflexivity|]); cbn [negb];
    (destruct (Z.leb_spec 0 MPH); [|reflexivity]);
    (destruct (Z.ltb_spec MPH (MPH_MAX G)); [|reflexivity]); cbn [andb];
    (destruct (Z.leb_spec 0 (mMPH_to_index (mClass (object w)) MPH)); [|reflexivity]);
    (destruct (Z.ltb_spec (mMPH_to_index (mClass (object w)) MPH)
                (mInterfaceCount (mClass (object w)))); [|reflexivity]);
    exfalso; apply Hinvalid; repeat split; assumption.
Qed.

End Exclusion.

Section Interference.

Variable G : Globals.
Variable E : Environment.

Lemma step_assert_fails {B} b (k : unit -> M B) w :
  NDEBUG G = false -> b = false -> (assert G b ≫= k) w = Stopped AssertionFailed w.
Proof. intros H ->. unfold mbind, M_bind, assert. rewrite H. reflexivity. Qed.

Lemma bool_decide_differs (s s' : InterfaceState) : s <> s' -> bool_decide (s' = s) = false.
Proof. intros H. apply bool_decide_eq_false_2. congruence. Qed.

(** X19.  When another thread changes the slot while [HandleAdd]
    initialises the interface with the mutex released, so that the handler
    finds a state other than [INTERFACE_ADDING_2] when it takes the mutex
    again: a build with assertions stops there, the mutex held and no
    callback called; a build without assertions stores [INTERFACE_ADDED]
    over the state it found, releases the mutex and reports
    [SL_RESULT_SUCCESS] to the registered callback. *)
Theorem HandleAdd_slot_changed_during_init self MPH s w :
  let index := index_of w MPH in
  let w1 := do_init G MPH (pending E index INTERFACE_ADDING_2 w) in
  closure_valid G w self MPH ->
  slot (others_run E w) index = Some INTERFACE_ADDING_1 ->
  slot (others_run E w1) index = Some s ->
  s <> INTERFACE_ADDING_2 ->
  (NDEBUG G = false ->
   HandleAdd G E self MPH w = Stopped AssertionFailed (acquire E w1)) /\
  (NDEBUG G = true ->
   exists w',
     HandleAdd G E self MPH w = Done () w' /\
     slot w' index = Some INTERFACE_ADDED /\
     trace w' = trace (acquire E w1)
                ++ [EvStoreState index INTERFACE_ADDED; EvUnlock]
                ++ callback_events G self MPH SL_RESULT_SUCCESS (dim w')).
Proof.
  intros index w1 (Hself & Hthis & HMPH & Hindex) Hslot Hslot1 Hs. subst index w1.
  split; intros HND.
  - unfold HandleAdd, pending, index_of in *. unfold_primitives.
    repeat step.
    rewrite step_assert_fails by first [assumption | apply bool_decide_differs; assumption].
    reflexivity.
  - eexists. split.
    { unfold HandleAdd, pending, index_of in *. unfold_primitives.
      repeat step.
      rewrite step_assert by (rewrite HND; reflexivity).
      repeat step. finish_handler finish_notify. }
    unfold pending, index_of in *.
    split; [slot_known|].
    world_simpl. rewrite <- !app_assoc. reflexivity.
Qed.

End Interference.

(** ** The further properties at the concrete object *)

Lemma calm_never_sets_gotten result : never_sets_gotten (Demo.calm result).
Proof. intros w j H. exact H. Qed.


Lemma calm_leaves_slot result j : leaves_slot (Demo.calm result) j.
Proof. intros w. apply calm_slot. Qed.

Lemma calm_keeps_registration result : keeps_registration (Demo.calm result).
Proof. intros w. split; reflexivity. Qed.

Lemma HandleResume_completes_resume_witness :
  closure_valid (Demo.globals false) (Demo.world INTERFACE_RESUMING_1 0 99) 5032 3 /\
  respects_transition (Demo.globals false) (Demo.calm 0) 2 /\
  slot (others_run (Demo.calm 0) (Demo.world INTERFACE_RESUMING_1 0 99)) 2 =
    Some INTERFACE_RESUMING_1 /\
  exists w',
    HandleResume (Demo.globals false) (Demo.calm 0) 5032 3
      (Demo.world INTERFACE_RESUMING_1 0 99) = Done () w' /\
    slot w' 2 = Some INTERFACE_ADDED /\
    memory w' 5048 = Byte 2 /\
    trace w' =
      [EvLock; EvStoreState 2 INTERFACE_RESUMING_2; EvUnlock;
       EvHook HookResume 3 5048;
       EvLock; EvStoreState 2 INTERFACE_ADDED; EvUnlock;
       EvCallback 99 5032 77 2 0 1048].
Proof.
  assert (Hvalid : closure_valid (Demo.globals false)
                     (Demo.world INTERFACE_RESUMING_1 0 99) 5032 3)
    by (unfold closure_valid; vm_compute; repeat split; congruence).
  assert (Hslot : slot (others_run (Demo.calm 0) (Demo.world INTERFACE_RESUMING_1 0 99))
                    (index_of (Demo.world INTERFACE_RESUMING_1 0 99) 3) =
                  Some INTERFACE_RESUMING_1) by reflexivity.
  split; [exact Hvalid|]. split; [apply calm_respects_transition|].
  split; [exact Hslot|].
  destruct (HandleResume_completes_resume (Demo.globals false) (Demo.calm 0) 5032 3
              (Demo.world INTERFACE_RESUMING_1 0 99) Hvalid
              (calm_respects_transition _ _ _) Hslot)
    as (w' & Hrun & Hadded & _).
  exists w'. split; [exact Hrun|]. split; [exact Hadded|].
  vm_compute in Hrun. injection Hrun as <-.
  repeat split; reflexivity.
Defined.

Lemma HandleResume_cancelled_witness :
  closure_valid (Demo.globals false) (Demo.world INTERFACE_RESUMING_1A 0 99) 5032 3 /\
  slot (others_run (Demo.calm 0) (Demo.world INTERFACE_RESUMING_1A 0 99)) 2 =
    Some INTERFACE_RESUMING_1A /\
  exists w',
    HandleResume (Demo.globals false) (Demo.calm 0) 5032 3
      (Demo.world INTERFACE_RESUMING_1A 0 99) = Done () w' /\
    slot w' 2 = Some INTERFACE_SUSPENDED /\
    trace w' =
      [EvLock; EvStoreState 2 INTERFACE_SUSPENDED; EvUnlock;
       EvCallback 99 5032 77 2 15 1048].
Proof.
  assert (Hvalid : closure_valid (Demo.globals false)
                     (Demo.world INTERFACE_RESUMING_1A 0 99) 5032 3)
    by (unfold closure_valid; vm_compute; repeat split; congruence).
  assert (Hslot : slot (others_run (Demo.calm 0) (Demo.world INTERFACE_RESUMING_1A 0 99))
                    (index_of (Demo.world INTERFACE_RESUMING_1A 0 99) 3) =
                  Some INTERFACE_RESUMING_1A) by reflexivity.
  split; [exact Hvalid|]. split; [exact Hslot|].
  destruct (HandleResume_cancelled (Demo.globals false) (Demo.calm 0) 5032 3
              (Demo.world INTERFACE_RESUMING_1A 0 99) Hvalid Hslot)
    as (w' & Hrun & Hstate & _).
  exists w'. split; [exact Hrun|]. split; [exact Hstate|].
  vm_compute in Hrun. injection Hrun as <-. reflexivity.
Defined.

Lemma AddInterface_RemoveInterface_guard_witness :
  declares (Demo.globals false) (Demo.world INTERFACE_ADDING_1 0 0) 1048 /\
  slot (others_run (Demo.calm 0) (Demo.world INTERFACE_ADDING_1 0 0)) 2 =
    Some INTERFACE_ADDING_1 /\
  rejected_and_balanced (Demo.calm 0)
    (IDynamicInterfaceManagement_AddInterface (Demo.globals false) (Demo.calm 0)
       5032 1048 true) (Demo.world INTERFACE_ADDING_1 0 0) /\
  rejected_and_balanced (Demo.calm 0)
    (IDynamicInterfaceManagement_RemoveInterface (Demo.globals false) (Demo.calm 0)
       5032 1048) (Demo.world INTERFACE_ADDING_1 0 0).
Proof.
  assert (Hdecl : declares (Demo.globals false) (Demo.world INTERFACE_ADDING_1 0 0) 1048)
    by (unfold declares; vm_compute; repeat split; congruence).
  assert (Hslot : slot (others_run (Demo.calm 0) (Demo.world INTERFACE_ADDING_1 0 0))
                    (index_of (Demo.world INTERFACE_ADDING_1 0 0)
                       (IID_to_MPH (Demo.globals false) 1048)) =
                  Some INTERFACE_ADDING_1) by reflexivity.
  split; [exact Hdecl|]. split; [exact Hslot|].
  destruct (AddInterface_RemoveInterface_guard (Demo.globals false) (Demo.calm 0)
              5032 1048 true INTERFACE_ADDING_1 (Demo.world INTERFACE_ADDING_1 0 0)
              Hdecl Hslot) as [Hadd Hremove].
  split; [apply Hadd; discriminate | apply Hremove; discriminate].
Defined.

Lemma asynchronous_operation_accepted_witness :
  declares (Demo.globals false) (Demo.world INTERFACE_UNINITIALIZED 0 0) 1048 /\
  accepted_as (Demo.calm 0)
    (IDynamicInterfaceManagement_AddInterface (Demo.globals false) (Demo.calm 0)
       5032 1048 true)
    Closure_HandleAdd INTERFACE_ADDING_1 5032 3 2 (Demo.world INTERFACE_UNINITIALIZED 0 0).
Proof.
  assert (Hdecl : declares (Demo.globals false) (Demo.world INTERFACE_UNINITIALIZED 0 0) 1048)
    by (unfold declares; vm_compute; repeat split; congruence).
  split; [exact Hdecl|].
  apply (proj1 (asynchronous_operation_accepted (Demo.globals false) (Demo.calm 0)
                  5032 1048 (Demo.world INTERFACE_UNINITIALIZED 0 0) Hdecl));
    reflexivity.
Defined.

Lemma gotten_mask_never_grows_witness :
  never_sets_gotten (Demo.calm 0) /\
  always gotten_within
    (IDynamicInterfaceManagement_RemoveInterface (Demo.globals false) (Demo.calm 0)
       5032 1048).
Proof.
  split; [apply calm_never_sets_gotten|].
  apply (gotten_mask_never_grows (Demo.globals false) (Demo.calm 0) 5032 1048 3 99 77 false
           (calm_never_sets_gotten 0)).
Defined.

Lemma other_slots_untouched_witness :
  leaves_slot (Demo.calm 0) 3 /\
  slot (world_of (IDynamicInterfaceManagement_AddInterface (Demo.globals false)
                    (Demo.calm 0) 5032 1048 false
                    (Demo.world INTERFACE_UNINITIALIZED 0 0))) 2 =
    Some INTERFACE_ADDED /\
  slot (world_of (IDynamicInterfaceManagement_AddInterface (Demo.globals false)
                    (Demo.calm 0) 5032 1048 false
                    (Demo.world INTERFACE_UNINITIALIZED 0 0))) 3 =
    slot (Demo.world INTERFACE_UNINITIALIZED 0 0) 3.
Proof.
  split; [apply calm_leaves_slot|]. split; [reflexivity|].
  apply (proj1 (other_slots_untouched (Demo.globals false) (Demo.calm 0) 5032 1048 3 false
                  3 (Demo.world INTERFACE_UNINITIALIZED 0 0) (calm_leaves_slot 0 3))).
  vm_compute. discriminate.
Defined.

Lemma registered_callback_is_called_witness :
  closure_valid (Demo.globals false) (Demo.world INTERFACE_ADDING_1 0 0) 5032 3 /\
  leaves_slot (Demo.calm 0) 2 /\
  keeps_registration (Demo.calm 0) /\
  slot (Demo.world INTERFACE_ADDING_1 0 0) 2 = Some INTERFACE_ADDING_1 /\
  exists w',
    register_then_handle (Demo.calm 0) (HandleAdd (Demo.globals false) (Demo.calm 0))
      5032 1234 88 3 (Demo.world INTERFACE_ADDING_1 0 0) = Done () w' /\
    slot w' 2 = Some INTERFACE_ADDED /\
    trace w' =
      [EvLock; EvStoreState 2 INTERFACE_ADDING_2; EvUnlock;
       EvMemset 5048 0 32; EvStorePointer 5052 5000; EvHook HookInit 3 5048;
       EvLock; EvStoreState 2 INTERFACE_ADDED; EvUnlock;
       EvCallback 1234 5032 88 2 0 1048].
Proof.
  assert (Hvalid : closure_valid (Demo.globals false)
                     (Demo.world INTERFACE_ADDING_1 0 0) 5032 3)
    by (unfold closure_valid; vm_compute; repeat split; congruence).
  split; [exact Hvalid|]. split; [apply calm_leaves_slot|].
  split; [apply calm_keeps_registration|]. split; [reflexivity|].
  exact (registered_callback_is_called (Demo.globals false) (Demo.calm 0) 5032 1234 88 3
           (Demo.world INTERFACE_ADDING_1 0 0) Hvalid (calm_leaves_slot 0 _)
           (calm_keeps_registration 0) eq_refl).
Defined.

Lemma init_disables_callback_witness :
  closure_valid (Demo.globals false) (Demo.world INTERFACE_RESUMING_1A 0 99) 5032 3 /\
  leaves_slot (Demo.calm 0) 2 /\
  keeps_registration (Demo.calm 0) /\
  slot (Demo.world INTERFACE_RESUMING_1A 0 99) 2 = Some INTERFACE_RESUMING_1A /\
  exists w',
    init_then_handle (HandleResume (Demo.globals false) (Demo.calm 0)) 5032 3
      (Demo.world INTERFACE_RESUMING_1A 0 99) = Done () w' /\
    slot w' 2 = Some INTERFACE_SUSPENDED /\
    trace w' = [EvLock; EvStoreState 2 INTERFACE_SUSPENDED; EvUnlock].
Proof.
  assert (Hvalid : closure_valid (Demo.globals false)
                     (Demo.world INTERFACE_RESUMING_1A 0 99) 5032 3)
    by (unfold closure_valid; vm_compute; repeat split; congruence).
  split; [exact Hvalid|]. split; [apply calm_leaves_slot|].
  split; [apply calm_keeps_registration|]. split; [reflexivity|].
  exact (init_disables_callback (Demo.globals false) (Demo.calm 0) 5032 3
           (Demo.world INTERFACE_RESUMING_1A 0 99) Hvalid (calm_leaves_slot 0 _)
           (calm_keeps_registration 0) eq_refl).
Defined.

Lemma asynchronous_operation_completes_witness :
  declares (Demo.globals false) (Demo.world INTERFACE_UNINITIALIZED 0 99) 1048 /\
  leaves_slot (Demo.calm 0) 2 /\
  slot (Demo.world INTERFACE_UNINITIALIZED 0 99) 2 = Some INTERFACE_UNINITIALIZED /\
  completes_with (Demo.globals false) (Demo.calm 0)
    (IDynamicInterfaceManagement_AddInterface (Demo.globals false) (Demo.calm 0)
       5032 1048 true)
    Closure_HandleAdd 5032 3 2 INTERFACE_ADDING_2
    [EvMemset 5048 0 32; EvStorePointer 5052 5000; EvHook HookInit 3 5048]
    (Demo.world INTERFACE_UNINITIALIZED 0 99).
Proof.
  assert (Hdecl : declares (Demo.globals false) (Demo.world INTERFACE_UNINITIALIZED 0 99) 1048)
    by (unfold declares; vm_compute; repeat split; congruence).
  split; [exact Hdecl|]. split; [apply calm_leaves_slot|]. split; [reflexivity|].
  apply (proj1 (asynchronous_operation_completes (Demo.globals false) (Demo.calm 0)
                  5032 1048 (Demo.world INTERFACE_UNINITIALIZED 0 99) Hdecl
                  ltac:(discriminate) ltac:(discriminate) ltac:(reflexivity)
                  (calm_leaves_slot 0 _)));
    reflexivity.
Defined.

Lemma mutex_discipline_witness :
  mMutex (object (Demo.world INTERFACE_SUSPENDED 0 0)) = 0 /\
  exists evs,
    trace (world_of (IDynamicInterfaceManagement_ResumeInterface (Demo.globals false)
                       (Demo.calm 0) 5032 1048 true
                       (Demo.world INTERFACE_SUSPENDED 0 0))) = evs /\
    lock_discipline 0 evs = true /\
    mMutex (object (world_of (IDynamicInterfaceManagement_ResumeInterface
                                (Demo.globals false) (Demo.calm 0) 5032 1048 true
                                (Demo.world INTERFACE_SUSPENDED 0 0)))) = -1.
Proof.
  split; [reflexivity|].
  destruct (proj1 (proj2 (proj2 (proj2 (proj2
              (mutex_discipline (Demo.globals false) (Demo.calm 0) 5032 1048 3 99 77 true)))))
              (Demo.world INTERFACE_SUSPENDED 0 0) eq_refl)
    as (evs & Htrace & Hdiscipline & _).
  exists evs. split; [exact Htrace|]. split; [exact Hdiscipline | reflexivity].
Defined.

Lemma pending_add_blocks_operations_witness :
  declares (Demo.globals false) (Demo.world INTERFACE_UNINITIALIZED 0 0) 1048 /\
  leaves_slot (Demo.calm 0) 2 /\
  slot (Demo.world INTERFACE_UNINITIALIZED 0 0) 2 = Some INTERFACE_UNINITIALIZED /\
  exists w',
    then_op
      (IDynamicInterfaceManagement_AddInterface (Demo.globals false) (Demo.calm 0)
         5032 1048 true)
      (IDynamicInterfaceManagement_RemoveInterface (Demo.globals false) (Demo.calm 0)
         5032 1048)
      (Demo.world INTERFACE_UNINITIALIZED 0 0) =
      Done (SL_RESULT_SUCCESS, SL_RESULT_PRECONDITIONS_VIOLATED) w' /\
    slot w' 2 = Some INTERFACE_ADDING_1.
Proof.
  assert (Hdecl : declares (Demo.globals false) (Demo.world INTERFACE_UNINITIALIZED 0 0) 1048)
    by (unfold declares; vm_compute; repeat split; congruence).
  split; [exact Hdecl|]. split; [apply calm_leaves_slot|]. split; [reflexivity|].
  exact (proj1 (proj2 (pending_add_blocks_operations (Demo.globals false) (Demo.calm 0)
                         5032 1048 false (Demo.world INTERFACE_UNINITIALIZED 0 0) Hdecl
                         (calm_leaves_slot 0 _) eq_refl eq_refl))).
Defined.


Lemma handlers_check_arguments_witness :
  NDEBUG (Demo.globals false) = false /\
  ~ closure_valid (Demo.globals false) (Demo.world INTERFACE_ADDING_1 0 99) 5032 4 /\
  HandleAdd (Demo.globals false) (Demo.calm 0) 5032 4 (Demo.world INTERFACE_ADDING_1 0 99) =
    Stopped AssertionFailed (Demo.world INTERFACE_ADDING_1 0 99) /\
  HandleResume (Demo.globals false) (Demo.calm 0) 5032 4
    (Demo.world INTERFACE_ADDING_1 0 99) =
    Stopped AssertionFailed (Demo.world INTERFACE_ADDING_1 0 99).
Proof.
  assert (Hinvalid : ~ closure_valid (Demo.globals false)
                         (Demo.world INTERFACE_ADDING_1 0 99) 5032 4)
    by (intros (_ & _ & _ & Hindex & _); vm_compute in Hindex; apply Hindex; reflexivity).
  split; [reflexivity|]. split; [exact Hinvalid|].
  exact (handlers_check_arguments (Demo.globals false) (Demo.calm 0) 5032 4
           (Demo.world INTERFACE_ADDING_1 0 99) eq_refl Hinvalid).
Defined.

Lemma HandleAdd_slot_changed_during_init_witness :
  closure_valid (Demo.globals false) (Demo.world INTERFACE_ADDING_1 0 99) 5032 3 /\
  slot (others_run Demo.impatient (Demo.world INTERFACE_ADDING_1 0 99)) 2 =
    Some INTERFACE_ADDING_1 /\
  slot (others_run Demo.impatient
          (do_init (Demo.globals false) 3
             (pending Demo.impatient 2 INTERFACE_ADDING_2
                (Demo.world INTERFACE_ADDING_1 0 99)))) 2 = Some INTERFACE_ADDED /\
  (exists w',
     HandleAdd (Demo.globals false) Demo.impatient 5032 3
       (Demo.world INTERFACE_ADDING_1 0 99) = Stopped AssertionFailed w' /\
     mMutex (object w') = 1 /\
     existsb is_callback (trace w') = false) /\
  (exists w',
     HandleAdd (Demo.globals true) Demo.impatient 5032 3
       (Demo.world INTERFACE_ADDING_1 0 99) = Done () w' /\
     slot w' 2 = Some INTERFACE_ADDED).
Proof.
  assert (Hvalid : forall ndebug, closure_valid (Demo.globals ndebug)
                     (Demo.world INTERFACE_ADDING_1 0 99) 5032 3)
    by (intros ndebug; unfold closure_valid; vm_compute; repeat split; congruence).
  split; [apply Hvalid|]. split; [reflexivity|]. split; [reflexivity|].
  split.
  - eexists. split.
    + apply (proj1 (HandleAdd_slot_changed_during_init (Demo.globals false) Demo.impatient
                      5032 3 INTERFACE_ADDED (Demo.world INTERFACE_ADDING_1 0 99)
                      (Hvalid false) eq_refl eq_refl ltac:(discriminate)) eq_refl).
    + split; reflexivity.
  - destruct (proj2 (HandleAdd_slot_changed_during_init (Demo.globals true) Demo.impatient
                       5032 3 INTERFACE_ADDED (Demo.world INTERFACE_ADDING_1 0 99)
                       (Hvalid true) eq_refl eq_refl ltac:(discriminate)) eq_refl)
      as (w' & Hrun & Hadded & _).
    exists w'. split; [exact Hrun | exact Hadded].
Defined.
